(** * OpenPrint3D profile tools: import, export and comparison

    A shallow embedding of three tools of the repository,

    - [tools/import_prusaslicer.py] (PrusaSlicer INI sections to canonical
      profiles: the mapping tables, [set_nested], [parse_bed_dimensions],
      [convert_printer], [convert_filament], [convert_process]),
    - [tools/convert_profile.py] (canonical profiles to the Cura,
      PrusaSlicer, OrcaSlicer and Bambu dialects),
    - [tools/compare_profiles.py] ([flatten_dict], [compare_values],
      [compare_profiles]),

    together with the part of the Python run time they rely on: strings,
    integers, binary64 floats, lists, ordered dictionaries and exceptions.

    Conventions of the embedding.
    - A Python string is a [string]; character classes and case mapping are
      those of ASCII (characters above 127 are caseless, neither digits nor
      blanks), which are Python's on ASCII text: what is proved of the case
      of letters is stated for ASCII text ([PyStr.isascii]).
    - A Python [float] is a binary64 number, a [spec_float] with precision
      53 and maximal exponent 1024, always in canonical form.
    - A [dict] is an association list in insertion order with pairwise
      distinct keys; a key is a string or an integer.
    - Values have no identity. [Py.eq] is [==] on operands that hold no NaN
      as one object; where the code compares an object with itself
      ([compare_profiles] on one profile), the call has an embedding of its
      own ([Py.eq_same], [Compare.compare_self]).
    - A function that may raise returns a [result]; mutation of a profile
      is explicit state passing (the updated profile is returned). *)

From Stdlib Require Import String Ascii List ZArith Bool Lia Permutation.
From Stdlib Require Import Floats.SpecFloat.
Import ListNotations.

Set Warnings "-register-all".

Local Open Scope string_scope.
Local Open Scope Z_scope.

(** ** Exceptions *)

Inductive exn : Type :=
| ValueError
| TypeError
| IndexError
| KeyError
| AttributeError
| NoSectionError
| NoOptionError.

Inductive result (A : Type) : Type :=
| Ok (a : A)
| Raise (e : exn).

Arguments Ok {A} a.
Arguments Raise {A} e.

Definition bind {A B : Type} (r : result A) (k : A -> result B) : result B :=
  match r with
  | Ok a => k a
  | Raise e => Raise e
  end.

Notation "x <- r ;; k" := (bind r (fun x => k))
  (at level 61, r at next level, right associativity).

Definition is_ok {A : Type} (r : result A) : bool :=
  match r with Ok _ => true | Raise _ => false end.

(** ** Strings *)

Module PyStr.

Definition code (c : ascii) : nat := nat_of_ascii c.

Definition is_digit (c : ascii) : bool :=
  (Nat.leb 48 (code c) && Nat.leb (code c) 57)%bool.

Definition is_space (c : ascii) : bool :=
  ((Nat.leb 9 (code c) && Nat.leb (code c) 13)
   || (Nat.leb 28 (code c) && Nat.leb (code c) 32))%bool.

Definition is_upper (c : ascii) : bool :=
  (Nat.leb 65 (code c) && Nat.leb (code c) 90)%bool.

Definition is_lower (c : ascii) : bool :=
  (Nat.leb 97 (code c) && Nat.leb (code c) 122)%bool.

Definition lower_char (c : ascii) : ascii :=
  if is_upper c then ascii_of_nat (code c + 32) else c.

Definition upper_char (c : ascii) : ascii :=
  if is_lower c then ascii_of_nat (code c - 32) else c.

Fixpoint map_chars (f : ascii -> ascii) (s : string) : string :=
  match s with
  | EmptyString => EmptyString
  | String c r => String (f c) (map_chars f r)
  end.

(** [s.lower()] and [s.upper()] *)
Definition lower (s : string) : string := map_chars lower_char s.
Definition upper (s : string) : string := map_chars upper_char s.

Fixpoint forall_chars (p : ascii -> bool) (s : string) : bool :=
  match s with
  | EmptyString => true
  | String c r => (p c && forall_chars p r)%bool
  end.

(** [s.isdigit()]: at least one character, all of them digits. *)
Definition isdigit (s : string) : bool :=
  match s with
  | EmptyString => false
  | _ => forall_chars is_digit s
  end.

Fixpoint lstrip (s : string) : string :=
  match s with
  | String c r => if is_space c then lstrip r else s
  | EmptyString => EmptyString
  end.

Fixpoint rstrip (s : string) : string :=
  match s with
  | EmptyString => EmptyString
  | String c r =>
      match rstrip r with
      | EmptyString => if is_space c then EmptyString else String c EmptyString
      | r' => String c r'
      end
  end.

(** [s.strip()] *)
Definition strip (s : string) : string := rstrip (lstrip s).

(** [s.isascii()] *)
Definition isascii (s : string) : bool :=
  forall_chars (fun c => Nat.ltb (code c) 128) s.

(** The blanks [int] and [float] skip around a number: the space and the
    controls from tab to carriage return. The separators from 28 to 31,
    which [strip] removes, are not among them. *)
Definition is_blank (c : ascii) : bool :=
  ((Nat.leb 9 (code c) && Nat.leb (code c) 13) || Nat.eqb (code c) 32)%bool.

Fixpoint ltrim (s : string) : string :=
  match s with
  | String c r => if is_blank c then ltrim r else s
  | EmptyString => EmptyString
  end.

Fixpoint rtrim (s : string) : string :=
  match s with
  | EmptyString => EmptyString
  | String c r =>
      match rtrim r with
      | EmptyString => if is_blank c then EmptyString else String c EmptyString
      | r' => String c r'
      end
  end.

Definition trim (s : string) : string := rtrim (ltrim s).

(** [s.split(sep)] for a one-character separator: never empty. *)
Fixpoint split (sep : ascii) (s : string) : list string :=
  match s with
  | EmptyString => [EmptyString]
  | String c r =>
      if Ascii.eqb c sep then EmptyString :: split sep r
      else match split sep r with
           | [] => [String c EmptyString]
           | w :: ws => String c w :: ws
           end
  end.

(** [s.replace(old, new)] for a one-character [old]. *)
Fixpoint replace (old : ascii) (new : string) (s : string) : string :=
  match s with
  | EmptyString => EmptyString
  | String c r =>
      if Ascii.eqb c old then new ++ replace old new r
      else String c (replace old new r)
  end.

Fixpoint is_prefix (p s : string) : bool :=
  match p, s with
  | EmptyString, _ => true
  | String a p', String b s' => (Ascii.eqb a b && is_prefix p' s')%bool
  | String _ _, EmptyString => false
  end.

(** [sub in s] *)
Fixpoint contains (sub s : string) : bool :=
  (is_prefix sub s
   || match s with
      | EmptyString => false
      | String _ r => contains sub r
      end)%bool.

(** [s[:n]] *)
Fixpoint take (n : nat) (s : string) : string :=
  match n, s with
  | S n', String c r => String c (take n' r)
  | _, _ => EmptyString
  end.

Fixpoint rev_onto (s acc : string) : string :=
  match s with
  | EmptyString => acc
  | String c r => rev_onto r (String c acc)
  end.

Definition rev (s : string) : string := rev_onto s EmptyString.

Fixpoint repeat_char (c : ascii) (n : nat) : string :=
  match n with
  | O => EmptyString
  | S n' => String c (repeat_char c n')
  end.

End PyStr.

(** ** Integers *)

Module PyInt.

Definition digit_val (c : ascii) : Z := Z.of_nat (PyStr.code c) - 48.

Fixpoint digits_value (acc : Z) (s : string) : Z :=
  match s with
  | EmptyString => acc
  | String c r => digits_value (10 * acc + digit_val c) r
  end.

Definition digit_char (d : Z) : ascii := ascii_of_nat (Z.to_nat (48 + d)).

Fixpoint pos_digits (fuel : nat) (n : Z) (acc : string) : string :=
  match fuel with
  | O => acc
  | S fuel' =>
      let acc' := String (digit_char (n mod 10)) acc in
      if n / 10 =? 0 then acc' else pos_digits fuel' (n / 10) acc'
  end.

(** The decimal digits of a natural number; [Z.log2 n + 1] rounds of
    division by ten are more than it has digits. *)
Definition nat_digits (n : Z) : string :=
  pos_digits (S (Z.to_nat (Z.log2 n))) n EmptyString.

(** [str(n)] *)
Definition str (n : Z) : string :=
  if n <? 0 then String "-" (nat_digits (- n)) else nat_digits n.

(** Digits with single underscores between them ([1_000]); the result has
    the underscores removed. *)
Fixpoint grouped_digits (prev_digit : bool) (s : string) : option string :=
  match s with
  | EmptyString => if prev_digit then Some EmptyString else None
  | String c r =>
      if PyStr.is_digit c then
        option_map (String c) (grouped_digits true r)
      else if (Ascii.eqb c "_" && prev_digit)%bool then
        grouped_digits false r
      else None
  end.

Definition split_sign (s : string) : bool * string :=
  match s with
  | String "-" r => (true, r)
  | String "+" r => (false, r)
  | _ => (false, s)
  end.

(** The longest run of digits [int] converts (CPython's default limit). *)
Definition max_str_digits : nat := 4300.

(** [int(s)] in base ten: blanks around, an optional sign, digits, and no
    more of them than the limit. *)
Definition of_string (s : string) : result Z :=
  let (neg, body) := split_sign (PyStr.trim s) in
  match grouped_digits false body with
  | Some ds =>
      if Nat.ltb max_str_digits (String.length ds) then Raise ValueError
      else Ok (if neg then - digits_value 0 ds else digits_value 0 ds)
  | None => Raise ValueError
  end.

End PyInt.

(** ** Binary64 floats *)

Module PyFloat.

Definition float : Type := spec_float.

Definition prec : Z := 53.
Definition emax : Z := 1024.

Definition nan : float := S754_nan.
Definition inf (neg : bool) : float := S754_infinity neg.

(** [float(n)] for an integer [n], rounded to nearest even. *)
Definition of_Z (n : Z) : float := binary_normalize prec emax n 0 false.

(** The float nearest to [m * 10 ^ e], ties to even ([m >= 0]). *)
Definition of_decimal (neg : bool) (m e : Z) : float :=
  match m with
  | Zpos p =>
      if 0 <=? e then binary_round prec emax neg (p * Z.to_pos (10 ^ e)) 0
      else SFdiv prec emax (S754_finite neg p 0)
                 (S754_finite false (Z.to_pos (10 ^ (- e))) 0)
  | _ => S754_zero neg
  end.

Definition add : float -> float -> float := SFadd prec emax.
Definition sub : float -> float -> float := SFsub prec emax.
Definition mul : float -> float -> float := SFmul prec emax.

Definition eqb : float -> float -> bool := SFeqb.
Definition ltb : float -> float -> bool := SFltb.
Definition leb : float -> float -> bool := SFleb.

Definition is_nan (f : float) : bool :=
  match f with S754_nan => true | _ => false end.

(** Exact comparison of a float with an integer, as Python compares an
    [int] with a [float]; [None] for a NaN. *)
Definition compare_Z (f : float) (n : Z) : option comparison :=
  match f with
  | S754_nan => None
  | S754_infinity s => Some (if s then Lt else Gt)
  | S754_zero _ => Some (0 ?= n)
  | S754_finite s m e =>
      let v := if s then Zneg m else Zpos m in
      Some (if 0 <=? e then (v * 2 ^ e ?= n) else (v ?= n * 2 ^ (- e)))
  end.

Definition eqb_Z (f : float) (n : Z) : bool :=
  match compare_Z f n with Some Eq => true | _ => false end.

Definition ltb_Z (f : float) (n : Z) : bool :=
  match compare_Z f n with Some Lt => true | _ => false end.

Definition gtb_Z (f : float) (n : Z) : bool :=
  match compare_Z f n with Some Gt => true | _ => false end.

(** *** [float(s)] *)

Fixpoint span_digits (s : string) : string * string :=
  match s with
  | String c r =>
      if PyStr.is_digit c then
        let (ds, rest) := span_digits r in (String c ds, rest)
      else (EmptyString, s)
  | EmptyString => (EmptyString, EmptyString)
  end.

(** Underscores may stand between two digits only; they are removed. *)
Fixpoint drop_underscores (prev : option ascii) (s : string) : option string :=
  match s with
  | EmptyString =>
      match prev with
      | Some "_"%char => None
      | _ => Some EmptyString
      end
  | String c r =>
      if Ascii.eqb c "_" then
        match prev with
        | Some p => if PyStr.is_digit p then drop_underscores (Some c) r else None
        | None => None
        end
      else
        match prev with
        | Some "_"%char =>
            if PyStr.is_digit c
            then option_map (String c) (drop_underscores (Some c) r)
            else None
        | _ => option_map (String c) (drop_underscores (Some c) r)
        end
  end.

Definition parse_exponent (s : string) : option Z :=
  match s with
  | EmptyString => Some 0
  | String c r =>
      if (Ascii.eqb c "e" || Ascii.eqb c "E")%bool then
        let (neg, body) := PyInt.split_sign r in
        let (ds, rest) := span_digits body in
        match ds, rest with
        | String _ _, EmptyString =>
            Some (if neg then - PyInt.digits_value 0 ds else PyInt.digits_value 0 ds)
        | _, _ => None
        end
      else None
  end.

Definition parse_decimal (neg : bool) (body : string) : option float :=
  let (ip, rest1) := span_digits body in
  let (fp, rest2) :=
    match rest1 with
    | String "." r => span_digits r
    | _ => (EmptyString, rest1)
    end in
  match ip ++ fp with
  | EmptyString => None
  | ds =>
      match parse_exponent rest2 with
      | Some ex =>
          Some (of_decimal neg (PyInt.digits_value 0 ds)
                           (ex - Z.of_nat (String.length fp)))
      | None => None
      end
  end.

Definition parse_body (neg : bool) (body : string) : option float :=
  let l := PyStr.lower body in
  if ((l =? "inf") || (l =? "infinity"))%string then Some (inf neg)
  else if (l =? "nan")%string then Some nan
  else parse_decimal neg body.

Definition of_string (s : string) : result float :=
  match drop_underscores None (PyStr.trim s) with
  | Some u =>
      let (neg, body) := PyInt.split_sign u in
      match parse_body neg body with
      | Some f => Ok f
      | None => Raise ValueError
      end
  | None => Raise ValueError
  end.

(** *** [repr(f)]: the shortest decimal string that reads back as [f] *)

(** [num / den >= 10 ^ k] *)
Definition ge_pow10 (num den k : Z) : bool :=
  if 0 <=? k then den * 10 ^ k <=? num else den <=? num * 10 ^ (- k).

Fixpoint adjust_log10 (fuel : nat) (num den k : Z) : Z :=
  match fuel with
  | O => k
  | S fuel' =>
      if ge_pow10 num den (k + 1) then adjust_log10 fuel' num den (k + 1)
      else if ge_pow10 num den k then k
      else adjust_log10 fuel' num den (k - 1)
  end.

(** [floor (log10 (num / den))] *)
Definition floor_log10 (num den : Z) : Z :=
  adjust_log10 8 num den (((Z.log2 num - Z.log2 den) * 30103) / 100000).

(** The two decimals of [p] digits around [num / den], as integers to be
    scaled by [10 ^ (- q)], and whether the lower one is the nearer. *)
Definition candidates (num den k : Z) (p : Z) : Z * Z * bool :=
  let q := p - 1 - k in
  let n' := if 0 <=? q then num * 10 ^ q else num in
  let d' := if 0 <=? q then den else den * 10 ^ (- q) in
  let lo := n' / d' in
  (lo, q, (2 * n' <=? (2 * lo + 1) * d')).

Fixpoint shortest (fuel : nat) (target : float) (num den k p : Z) : Z * Z :=
  let '(lo, q, lo_nearer) := candidates num den k p in
  let ok_lo := eqb (of_decimal false lo (- q)) target in
  let ok_hi := eqb (of_decimal false (lo + 1) (- q)) target in
  match fuel with
  | O => (lo, q)
  | S fuel' =>
      if (ok_lo && (lo_nearer || negb ok_hi))%bool then (lo, q)
      else if ok_hi then (lo + 1, q)
      else shortest fuel' target num den k (p + 1)
  end.

Fixpoint rstrip_zeros (s : string) : string :=
  match s with
  | EmptyString => EmptyString
  | String c r =>
      match rstrip_zeros r with
      | EmptyString => if Ascii.eqb c "0" then EmptyString else String c EmptyString
      | r' => String c r'
      end
  end.

Fixpoint drop (n : nat) (s : string) : string :=
  match n, s with
  | S n', String _ r => drop n' r
  | _, _ => s
  end.

Definition two_digits (n : Z) : string :=
  if n <? 10 then String "0" (PyInt.nat_digits n) else PyInt.nat_digits n.

(** Digits [ds] with the decimal point after the first [decpt] of them, in
    the layout of [repr]: positional when [-4 < decpt <= 16], with an
    exponent otherwise. *)
Definition layout (ds : string) (decpt : Z) : string :=
  let n := Z.of_nat (String.length ds) in
  if ((decpt <=? -4) || (16 <? decpt))%bool then
    let m := match ds with
             | String c EmptyString => ds
             | String c r => String c (String "." r)
             | EmptyString => ds
             end in
    let ex := decpt - 1 in
    m ++ "e" ++ (if ex <? 0 then "-" else "+") ++ two_digits (Z.abs ex)
  else if decpt <=? 0 then
    "0." ++ PyStr.repeat_char "0" (Z.to_nat (- decpt)) ++ ds
  else if n <=? decpt then
    ds ++ PyStr.repeat_char "0" (Z.to_nat (decpt - n)) ++ ".0"
  else
    PyStr.take (Z.to_nat decpt) ds ++ "." ++ drop (Z.to_nat decpt) ds.

Definition repr (f : float) : string :=
  match f with
  | S754_nan => "nan"
  | S754_infinity s => if s then "-inf" else "inf"
  | S754_zero s => if s then "-0.0" else "0.0"
  | S754_finite s m e =>
      let num := if 0 <=? e then Zpos m * 2 ^ e else Zpos m in
      let den := if 0 <=? e then 1 else 2 ^ (- e) in
      let k := floor_log10 num den in
      let (c, q) := shortest 17 (S754_finite false m e) num den k 1 in
      let all := PyInt.nat_digits c in
      let body := layout (rstrip_zeros all) (Z.of_nat (String.length all) - q) in
      if s then String "-" body else body
  end.

End PyFloat.

(** ** Values *)

Inductive key : Type :=
| KStr (s : string)
| KInt (n : Z).

Inductive value : Type :=
| VNone
| VBool (b : bool)
| VInt (n : Z)
| VFloat (f : PyFloat.float)
| VStr (s : string)
| VList (l : list value)
| VDict (d : list (key * value)).

Definition dict : Type := list (key * value).

Definition key_eqb (a b : key) : bool :=
  match a, b with
  | KStr s, KStr t => String.eqb s t
  | KInt n, KInt m => Z.eqb n m
  | _, _ => false
  end.

(** *** Dictionaries *)

Fixpoint dict_get (d : dict) (k : key) : option value :=
  match d with
  | [] => None
  | (k', v) :: r => if key_eqb k' k then Some v else dict_get r k
  end.

Definition dict_mem (d : dict) (k : key) : bool :=
  match dict_get d k with Some _ => true | None => false end.

(** [d[k] = v]: an existing key keeps its position, a new one goes last. *)
Fixpoint dict_set (d : dict) (k : key) (v : value) : dict :=
  match d with
  | [] => [(k, v)]
  | (k', v') :: r =>
      if key_eqb k' k then (k', v) :: r else (k', v') :: dict_set r k v
  end.

(** [dict(items)] *)
Definition dict_of_items (items : list (key * value)) : dict :=
  fold_left (fun d kv => dict_set d (fst kv) (snd kv)) items [].

Definition dict_keys (d : dict) : list key := map fst d.

(** [d.get(k, default)] on a dict *)
Definition dict_get_default (d : dict) (k : key) (default : value) : value :=
  match dict_get d k with Some v => v | None => default end.

(** *** Lists *)

(** [while len(l) <= i: l.append({})] *)
Definition pad_list (l : list value) (i : Z) : list value :=
  l ++ repeat (VDict []) (Z.to_nat (i + 1) - length l).

Fixpoint list_update (l : list value) (i : nat) (v : value) : list value :=
  match l, i with
  | [], _ => []
  | _ :: r, O => v :: r
  | x :: r, S i' => x :: list_update r i' v
  end.

(** The position a Python index denotes in a sequence of length [n]. *)
Definition list_index (n : nat) (i : Z) : option nat :=
  if (0 <=? i) && (i <? Z.of_nat n) then Some (Z.to_nat i)
  else if (i <? 0) && (- Z.of_nat n <=? i) then Some (Z.to_nat (Z.of_nat n + i))
  else None.

Module Py.

(** *** Truth value, equality, ordering *)

Definition truthy (v : value) : bool :=
  match v with
  | VNone => false
  | VBool b => b
  | VInt n => negb (n =? 0)
  | VFloat f => negb (PyFloat.eqb f (PyFloat.of_Z 0))
  | VStr s => negb (s =? "")%string
  | VList l => match l with [] => false | _ => true end
  | VDict d => match d with [] => false | _ => true end
  end.

Inductive number : Type :=
| NInt (n : Z)
| NFloat (f : PyFloat.float).

Definition as_number (v : value) : option number :=
  match v with
  | VBool b => Some (NInt (if b then 1 else 0))
  | VInt n => Some (NInt n)
  | VFloat f => Some (NFloat f)
  | _ => None
  end.

(** Numbers compare by value across [bool], [int] and [float]. *)
Definition num_compare (a b : number) : option comparison :=
  match a, b with
  | NInt n, NInt m => Some (n ?= m)
  | NFloat f, NFloat g => SFcompare f g
  | NFloat f, NInt m => PyFloat.compare_Z f m
  | NInt n, NFloat g => option_map CompOpp (PyFloat.compare_Z g n)
  end.

Definition num_eqb (a b : number) : bool :=
  match num_compare a b with Some Eq => true | _ => false end.

(** [a == b] for two operands that hold no NaN as one and the same
    object: the items of two lists or dicts are compared with [==] as
    well. (Python tries [x is y] before [x == y] on items, which matters
    for such a NaN only.) *)
Fixpoint eq (a b : value) {struct a} : bool :=
  match a with
  | VNone => match b with VNone => true | _ => false end
  | VStr s => match b with VStr t => (s =? t)%string | _ => false end
  | VList l =>
      match b with
      | VList m =>
          (fix all2 (l m : list value) {struct l} : bool :=
             match l, m with
             | [], [] => true
             | x :: l', y :: m' => eq x y && all2 l' m'
             | _, _ => false
             end) l m
      | _ => false
      end
  | VDict d =>
      match b with
      | VDict e =>
          (length d =? length e)%nat
          && (fix all (d : list (key * value)) {struct d} : bool :=
                match d with
                | [] => true
                | (k, x) :: d' =>
                    match dict_get e k with
                    | Some y => eq x y
                    | None => false
                    end && all d'
                end) d
      | _ => false
      end
  | VBool _ | VInt _ | VFloat _ =>
      match as_number a, as_number b with
      | Some x, Some y => num_eqb x y
      | _, _ => false
      end
  end.

(** [a == a], the two operands being one object: a list or a dict finds
    each of its items identical to itself, whatever it holds; a float is
    equal to itself unless it is a NaN. *)
Definition eq_same (a : value) : bool :=
  match a with
  | VFloat f => PyFloat.eqb f f
  | _ => true
  end.

(** [a < b], [a > b] and [a <= b] on numbers; other operands raise. *)
Definition lt (a b : value) : result bool :=
  match as_number a, as_number b with
  | Some x, Some y =>
      Ok match num_compare x y with Some Lt => true | _ => false end
  | _, _ => Raise TypeError
  end.

Definition gt (a b : value) : result bool := lt b a.

Definition le (a b : value) : result bool :=
  match as_number a, as_number b with
  | Some x, Some y =>
      Ok match num_compare x y with Some (Lt | Eq) => true | _ => false end
  | _, _ => Raise TypeError
  end.

(** [max(a, b)] and [min(a, b)]: the first argument unless the second is
    strictly beyond it. *)
Definition max2 (a b : value) : result value :=
  c <- gt b a ;; Ok (if c then b else a).

Definition min2 (a b : value) : result value :=
  c <- lt b a ;; Ok (if c then b else a).

(** [max(l)] and [min(l)] of a non-empty list of floats *)
Definition max_floats (x : PyFloat.float) (l : list PyFloat.float) : PyFloat.float :=
  fold_left (fun m y => if PyFloat.ltb m y then y else m) l x.

Definition min_floats (x : PyFloat.float) (l : list PyFloat.float) : PyFloat.float :=
  fold_left (fun m y => if PyFloat.ltb y m then y else m) l x.

(** *** [repr] and [str] *)

Definition squote : ascii := "'"%char.
Definition dquote : ascii := ascii_of_nat 34.
Definition backslash : ascii := ascii_of_nat 92.

Definition hex_digit (n : nat) : ascii :=
  if Nat.ltb n 10 then ascii_of_nat (48 + n) else ascii_of_nat (87 + n).

Definition escape_char (q c : ascii) : string :=
  let n := PyStr.code c in
  if Ascii.eqb c backslash then String backslash (String backslash EmptyString)
  else if Ascii.eqb c q then String backslash (String q EmptyString)
  else if Nat.eqb n 10 then String backslash "n"
  else if Nat.eqb n 13 then String backslash "r"
  else if Nat.eqb n 9 then String backslash "t"
  else if (Nat.ltb n 32 || Nat.eqb n 127)%bool then
    String backslash (String "x" (String (hex_digit (n / 16))
                                         (String (hex_digit (n mod 16)) EmptyString)))
  else String c EmptyString.

Fixpoint escape (q : ascii) (s : string) : string :=
  match s with
  | EmptyString => EmptyString
  | String c r => escape_char q c ++ escape q r
  end.

Definition has_char (c : ascii) (s : string) : bool :=
  PyStr.contains (String c EmptyString) s.

Definition repr_str (s : string) : string :=
  let q := if (has_char squote s && negb (has_char dquote s))%bool
           then dquote else squote in
  String q (escape q s ++ String q EmptyString).

Definition repr_key (k : key) : string :=
  match k with
  | KStr s => repr_str s
  | KInt n => PyInt.str n
  end.

Fixpoint join (sep : string) (l : list string) : string :=
  match l with
  | [] => EmptyString
  | [x] => x
  | x :: r => x ++ sep ++ join sep r
  end.

Fixpoint repr (v : value) : string :=
  match v with
  | VNone => "None"
  | VBool b => if b then "True" else "False"
  | VInt n => PyInt.str n
  | VFloat f => PyFloat.repr f
  | VStr s => repr_str s
  | VList l =>
      "[" ++ join ", " ((fix each (l : list value) : list string :=
                           match l with
                           | [] => []
                           | x :: r => repr x :: each r
                           end) l) ++ "]"
  | VDict d =>
      "{" ++ join ", " ((fix each (d : list (key * value)) : list string :=
                           match d with
                           | [] => []
                           | (k, x) :: r => (repr_key k ++ ": " ++ repr x) :: each r
                           end) d) ++ "}"
  end.

(** [str(v)], which is also how an f-string formats [v] *)
Definition str (v : value) : string :=
  match v with
  | VStr s => s
  | _ => repr v
  end.

(** *** Subscripts, [.get] and string methods on arbitrary values *)

(** [v[k]] *)
Definition getitem (v : value) (k : key) : result value :=
  match v with
  | VDict d =>
      match dict_get d k with Some x => Ok x | None => Raise KeyError end
  | VList l =>
      match k with
      | KInt i =>
          match list_index (length l) i with
          | Some n => match nth_error l n with Some x => Ok x | None => Raise IndexError end
          | None => Raise IndexError
          end
      | KStr _ => Raise TypeError
      end
  | VStr s =>
      match k with
      | KInt i =>
          match list_index (String.length s) i with
          | Some n =>
              match String.get n s with
              | Some c => Ok (VStr (String c EmptyString))
              | None => Raise IndexError
              end
          | None => Raise IndexError
          end
      | KStr _ => Raise TypeError
      end
  | _ => Raise TypeError
  end.

(** [v[k] = x] *)
Definition setitem (v : value) (k : key) (x : value) : result value :=
  match v with
  | VDict d => Ok (VDict (dict_set d k x))
  | VList l =>
      match k with
      | KInt i =>
          match list_index (length l) i with
          | Some n => Ok (VList (list_update l n x))
          | None => Raise IndexError
          end
      | KStr _ => Raise TypeError
      end
  | _ => Raise TypeError
  end.

(** [v[k1][k2]...] *)
Fixpoint getpath (v : value) (ks : list key) : result value :=
  match ks with
  | [] => Ok v
  | k :: r => x <- getitem v k ;; getpath x r
  end.

(** [v[k1]...[kn] = x] for a non-empty [k1 :: ... :: kn]: the containers
    on the way are looked up, the last one is assigned to. *)
Fixpoint setpath (v : value) (k : key) (ks : list key) (x : value) : result value :=
  match ks with
  | [] => setitem v k x
  | k' :: r =>
      child <- getitem v k ;;
      child' <- setpath child k' r x ;;
      setitem v k child'
  end.

(** [v.get(k, default)] *)
Definition get (v : value) (k : string) (default : value) : result value :=
  match v with
  | VDict d => Ok (dict_get_default d (KStr k) default)
  | _ => Raise AttributeError
  end.

(** [v.lower()] *)
Definition lower (v : value) : result string :=
  match v with
  | VStr s => Ok (PyStr.lower s)
  | _ => Raise AttributeError
  end.

(** [v[:n]] *)
Definition slice_to (n : nat) (v : value) : result value :=
  match v with
  | VStr s => Ok (VStr (PyStr.take n s))
  | VList l => Ok (VList (firstn n l))
  | _ => Raise TypeError
  end.

End Py.

(** ** The INI reader's interface

    [configparser.ConfigParser(interpolation=None)] with
    [optionxform = str], after [read_string]: sections by name, each an
    ordered list of options with raw string values. Options of a
    [DEFAULT] section are taken as already merged into every section. *)

Definition section : Type := list (string * string).

Definition ConfigParser : Type := list (string * section).

Fixpoint assoc {A : Type} (l : list (string * A)) (k : string) : option A :=
  match l with
  | [] => None
  | (k', v) :: r => if (k' =? k)%string then Some v else assoc r k
  end.

Module Config.

(** The raw value of an option, if the section and the option exist. *)
Definition find (config : ConfigParser) (sec opt : string) : option string :=
  match assoc config sec with
  | Some s => assoc s opt
  | None => None
  end.

(** [config.has_option(section, option)] *)
Definition has_option (config : ConfigParser) (sec opt : string) : bool :=
  match find config sec opt with Some _ => true | None => false end.

(** [config.get(section, option)] *)
Definition get (config : ConfigParser) (sec opt : string) : result string :=
  match assoc config sec with
  | Some s =>
      match assoc s opt with
      | Some v => Ok v
      | None => Raise NoOptionError
      end
  | None => Raise NoSectionError
  end.

(** [config.get(section, option, fallback=fb)] *)
Definition get_fallback (config : ConfigParser) (sec opt fb : string) : string :=
  match find config sec opt with Some v => v | None => fb end.

(** [config.options(section)] *)
Definition options (config : ConfigParser) (sec : string) : result (list string) :=
  match assoc config sec with
  | Some s => Ok (map fst s)
  | None => Raise NoSectionError
  end.

(** [config.has_section(section)] *)
Definition has_section (config : ConfigParser) (sec : string) : bool :=
  match assoc config sec with Some _ => true | None => false end.

End Config.

(** ** tools/import_prusaslicer.py *)

Module Importer.

(** The converters of the mapping tables: [str], [float], [int] and
    [lambda v: v == "1"]. *)
Inductive converter : Type :=
| conv_str
| conv_float
| conv_int
| conv_is_one.

Definition convert (c : converter) (raw : string) : result value :=
  match c with
  | conv_str => Ok (VStr raw)
  | conv_float => f <- PyFloat.of_string raw ;; Ok (VFloat f)
  | conv_int => n <- PyInt.of_string raw ;; Ok (VInt n)
  | conv_is_one => Ok (VBool (raw =? "1")%string)
  end.

Definition mapping : Type := list (string * (string * converter)).

Definition PRINTER_MAPPINGS : mapping :=
  [ ("printer_model", ("model", conv_str));
    ("printer_make", ("manufacturer", conv_str));
    ("printer_variant", ("variant", conv_str));
    ("bed_shape", ("build_volume.shape", conv_str));
    ("max_print_height", ("build_volume.z", conv_float));
    ("printable_area", ("build_volume.dimensions", conv_str));
    ("nozzle_diameter", ("extruders.0.nozzle_diameter", conv_float));
    ("min_layer_height", ("layer_height.min", conv_float));
    ("max_layer_height", ("layer_height.max", conv_float));
    ("retract_length", ("retraction.distance", conv_float));
    ("retract_speed", ("retraction.speed", conv_float));
    ("max_print_speed", ("speed.max", conv_float));
    ("machine_max_speed_x", ("axes.x.max_speed", conv_float));
    ("machine_max_speed_y", ("axes.y.max_speed", conv_float));
    ("machine_max_speed_z", ("axes.z.max_speed", conv_float));
    ("machine_max_acceleration_x", ("axes.x.max_accel", conv_float));
    ("machine_max_acceleration_y", ("axes.y.max_accel", conv_float));
    ("machine_max_acceleration_z", ("axes.z.max_accel", conv_float));
    ("printer_notes", ("notes", conv_str)) ].

Definition FILAMENT_MAPPINGS : mapping :=
  [ ("filament_type", ("material", conv_str));
    ("filament_vendor", ("brand", conv_str));
    ("filament_colour", ("color", conv_str));
    ("filament_diameter", ("diameter", conv_float));
    ("filament_density", ("density", conv_float));
    ("temperature", ("nozzle.recommended", conv_float));
    ("first_layer_temperature", ("nozzle.first_layer", conv_float));
    ("bed_temperature", ("bed.recommended", conv_float));
    ("first_layer_bed_temperature", ("bed.first_layer", conv_float));
    ("fan_min_speed", ("fan.min", conv_float));
    ("fan_max_speed", ("fan.max", conv_float));
    ("bridge_fan_speed", ("fan.bridge", conv_float));
    ("disable_fan_first_layers", ("fan.disable_first_layers", conv_int));
    ("min_print_speed", ("printing_speed.min", conv_float));
    ("max_print_speed", ("printing_speed.max", conv_float));
    ("filament_max_volumetric_speed", ("volumetric_speed", conv_float));
    ("filament_notes", ("notes", conv_str));
    ("filament_cost", ("cost", conv_float));
    ("filament_spool_weight", ("spool_weight", conv_float)) ].

Definition PROCESS_MAPPINGS : mapping :=
  [ ("layer_height", ("layer_height.default", conv_float));
    ("first_layer_height", ("layer_height.first_layer", conv_float));
    ("perimeters", ("wall_settings.wall_count", conv_int));
    ("top_solid_layers", ("wall_settings.top_layers", conv_int));
    ("bottom_solid_layers", ("wall_settings.bottom_layers", conv_int));
    ("fill_density", ("infill.density_default", conv_float));
    ("fill_pattern", ("infill.pattern", conv_str));
    ("perimeter_speed", ("speed.outer_wall", conv_float));
    ("infill_speed", ("speed.infill", conv_float));
    ("internal_infills_speed", ("speed.infill_internal", conv_float));
    ("solid_infill_speed", ("speed.solid_infill", conv_float));
    ("top_solid_infill_speed", ("speed.top_bottom", conv_float));
    ("bottom_solid_infill_speed", ("speed.top_bottom", conv_float));
    ("travel_speed", ("speed.travel", conv_float));
    ("first_layer_speed", ("speed.first_layer", conv_float));
    ("bridge_speed", ("speed.bridge", conv_float));
    ("external_perimeter_speed", ("speed.outer_wall", conv_float));
    ("retract_length", ("retraction.distance", conv_float));
    ("retract_speed", ("retraction.speed", conv_float));
    ("retract_before_travel", ("retraction.min_travel", conv_float));
    ("cooling", ("cooling.enabled", conv_is_one));
    ("fan_below_layer_time", ("cooling.fan_min_layer_time", conv_int));
    ("slow_down_layer_time", ("cooling.slow_down_layer_time", conv_int));
    ("min_fan_speed", ("cooling.fan_min", conv_float));
    ("max_fan_speed", ("cooling.fan_max", conv_float));
    ("bridge_fan_speed", ("cooling.fan_bridge", conv_float));
    ("support_material", ("supports.enabled_default", conv_is_one));
    ("support_material_angle", ("supports.angle", conv_float));
    ("support_material_threshold", ("supports.overhang_threshold", conv_float));
    ("support_material_pattern", ("supports.pattern", conv_str));
    ("raft_layers", ("adhesion.raft_layers", conv_int));
    ("brim_width", ("adhesion.brim_width", conv_float));
    ("skirts", ("adhesion.skirt_count", conv_int));
    ("skirt_distance", ("adhesion.skirt_distance", conv_float));
    ("notes", ("notes", conv_str)) ].

Definition MATERIAL_MAP : list (string * string) :=
  [ ("pla", "PLA"); ("pet", "PETG"); ("petg", "PETG"); ("abs", "ABS");
    ("asa", "ASA"); ("tpu", "TPU"); ("tpe", "TPE"); ("pa", "PA6");
    ("nylon", "PA6"); ("pc", "PC"); ("pp", "PP"); ("pva", "PVA");
    ("hips", "HIPS"); ("pvb", "PVB") ].

Definition KINEMATICS_MAP : list (string * string) :=
  [ ("cartesian", "cartesian"); ("corexy", "corexy"); ("corexz", "corexz");
    ("delta", "delta"); ("hybrid_corexy", "hybrid_corexy") ].

(** *** [set_nested]

    [set_keys keys final_key value d] is the loop over [keys[:-1]] followed
    by the final assignment, started at the node [d]; it returns the node
    as the walk leaves it. A digit key met at a node that is not a list
    rebinds the local [d] to a fresh list: the rest of the walk then
    writes into containers the profile does not reach, and the node
    itself stays as it was. *)
Fixpoint set_keys (keys : list string) (final_key : string) (val : value)
    (d : value) {struct keys} : result value :=
  match keys with
  | [] =>
      if PyStr.isdigit final_key then
        i <- PyInt.of_string final_key ;;
        Py.setitem d (KInt i) val
      else Py.setitem d (KStr final_key) val
  | key :: rest =>
      if PyStr.isdigit key then
        i <- PyInt.of_string key ;;
        match d with
        | VList l =>
            let l' := pad_list l i in
            child <- Py.getitem (VList l') (KInt i) ;;
            child' <- set_keys rest final_key val child ;;
            Py.setitem (VList l') (KInt i) child'
        | _ =>
            child <- Py.getitem (VList (pad_list [] i)) (KInt i) ;;
            _ <- set_keys rest final_key val child ;;
            Ok d
        end
      else
        match d with
        | VDict m =>
            let m' := if dict_mem m (KStr key) then m
                      else dict_set m (KStr key) (VDict []) in
            child <- Py.getitem (VDict m') (KStr key) ;;
            child' <- set_keys rest final_key val child ;;
            Py.setitem (VDict m') (KStr key) child'
        | _ => Raise TypeError
        end
  end.

(** [set_nested(d, path, value)]; [path.split(".")] is never empty. *)
Definition set_nested (d : value) (path : string) (val : value) : result value :=
  let keys := PyStr.split "." path in
  set_keys (removelast keys) (last keys EmptyString) val d.

(** *** Helpers of the converters *)

Fixpoint first_match (l : list (string * string)) (p : string -> bool) : option string :=
  match l with
  | [] => None
  | (k, v) :: r => if p k then Some v else first_match r p
  end.

Definition infer_kinematics (config : ConfigParser) (sec : string) : string :=
  let printer_type := Config.get_fallback config sec "printer_type" "" in
  let printer_notes := Config.get_fallback config sec "printer_notes" "" in
  match first_match KINEMATICS_MAP
          (fun k => PyStr.contains k (PyStr.lower printer_type)
                    || PyStr.contains k (PyStr.lower printer_notes)) with
  | Some kinematic => kinematic
  | None => "cartesian"
  end.

Definition is_coord_char (c : ascii) : bool :=
  (Ascii.eqb c "-" || PyStr.is_digit c || Ascii.eqb c ".")%bool.

Fixpoint span_coord (s : string) : string * string :=
  match s with
  | String c r =>
      if is_coord_char c then
        let (a, rest) := span_coord r in (String c a, rest)
      else (EmptyString, s)
  | EmptyString => (EmptyString, EmptyString)
  end.

(** One attempt of the pattern [[-\d.]+,[-\d.]+] at the start of [s]:
    the match and what follows it. Both runs are greedy, and a shorter
    first run cannot be followed by the comma. *)
Definition match_coord (s : string) : option (string * string) :=
  match span_coord s with
  | (String c a, String "," r) =>
      match span_coord r with
      | (String c' b, rest) => Some (String c a ++ "," ++ String c' b, rest)
      | _ => None
      end
  | _ => None
  end.

(** [re.findall(pattern, s)]: leftmost matches, none overlapping. Every
    step consumes a character, so [fuel] above the length is enough. *)
Fixpoint findall_coords (fuel : nat) (s : string) : list string :=
  match fuel with
  | O => []
  | S fuel' =>
      match match_coord s with
      | Some (m, rest) => m :: findall_coords fuel' rest
      | None =>
          match s with
          | EmptyString => []
          | String _ r => findall_coords fuel' r
          end
      end
  end.

(** The loop of [parse_bed_dimensions] over the matches. *)
Fixpoint coord_lists (coords : list string)
    : result (list PyFloat.float * list PyFloat.float) :=
  match coords with
  | [] => Ok ([], [])
  | coord :: r =>
      match PyStr.split "," coord with
      | [x; y] =>
          fx <- PyFloat.of_string x ;;
          fy <- PyFloat.of_string y ;;
          rest <- coord_lists r ;;
          Ok (fx :: fst rest, fy :: snd rest)
      | _ => Raise ValueError
      end
  end.

Definition default_bed : value := VDict [(KStr "x", VInt 200); (KStr "y", VInt 200)].

Definition parse_bed_dimensions (bed_shape : string) : result value :=
  if (bed_shape =? "")%string then Ok default_bed
  else
    let coords := findall_coords (S (String.length bed_shape)) bed_shape in
    match coords with
    | [] => Ok default_bed
    | _ :: _ =>
        xy <- coord_lists coords ;;
        match fst xy, snd xy with
        | x :: xs, y :: ys =>
            Ok (VDict
                  [ (KStr "x", VFloat (PyFloat.sub (Py.max_floats x xs) (Py.min_floats x xs)));
                    (KStr "y", VFloat (PyFloat.sub (Py.max_floats y ys) (Py.min_floats y ys))) ])
        | _, _ => Raise ValueError
        end
    end.

Definition normalize_material (material : string) : string :=
  let mat_lower := PyStr.replace "_" "" (PyStr.replace "-" "" (PyStr.lower material)) in
  match assoc MATERIAL_MAP mat_lower with
  | Some m => m
  | None => if (material =? "")%string then "PLA" else PyStr.upper material
  end.

Definition parse_percentage (v : string) : result PyFloat.float :=
  if PyStr.contains "%" v
  then PyFloat.of_string (PyStr.strip (PyStr.replace "%" "" v))
  else PyFloat.of_string v.

(** [value.lower() in ("1", "true", "yes", "on")] *)
Definition parse_bool (v : string) : bool :=
  existsb (String.eqb (PyStr.lower v)) ["1"; "true"; "yes"; "on"].

(** The comprehension of [parse_float_list] over the items of the split:
    blank items are skipped, the others stripped and converted in order. *)
Fixpoint parse_floats (items : list string) : result (list PyFloat.float) :=
  match items with
  | [] => Ok []
  | v :: rest =>
      if (PyStr.strip v =? "")%string then parse_floats rest
      else
        f <- PyFloat.of_string (PyStr.strip v) ;;
        fs <- parse_floats rest ;;
        Ok (f :: fs)
  end.

Definition parse_float_list (v : string) : result (list PyFloat.float) :=
  parse_floats (PyStr.split "," v).

(** *** The three converters *)

(** The decimal literal [m / 10 ^ k] as a float value. *)
Definition dec (m k : Z) : value := VFloat (PyFloat.of_decimal false m (- k)).

Definition maintainer : value :=
  VDict [ (KStr "name", VStr "Imported from PrusaSlicer");
          (KStr "maintainer_type", VStr "community") ].

(** One round of the loop over a mapping table: [has_option], [get], the
    converter and [set_nested] under [except (ValueError, TypeError)].
    [set_nested] raises only before its first write (a container it has
    created or padded is an empty dict, where every later step succeeds),
    so the profile of a round that raised is the one it started with. *)
Definition apply_entry (config : ConfigParser) (sec : string) (profile : value)
    (entry : string * (string * converter)) : result value :=
  let '(ps_key, (op3d_path, converter)) := entry in
  match Config.find config sec ps_key with
  | None => Ok profile
  | Some raw_value =>
      match (v <- convert converter raw_value ;; set_nested profile op3d_path v) with
      | Ok profile' => Ok profile'
      | Raise ValueError | Raise TypeError => Ok profile
      | Raise e => Raise e
      end
  end.

Fixpoint apply_mappings (config : ConfigParser) (sec : string) (m : mapping)
    (profile : value) : result value :=
  match m with
  | [] => Ok profile
  | entry :: rest =>
      profile' <- apply_entry config sec profile entry ;;
      apply_mappings config sec rest profile'
  end.

(** The loop that fills [raw_settings]. *)
Fixpoint collect_raw (config : ConfigParser) (sec : string) (m : mapping)
    (opts : list string) (raw_settings : dict) : result dict :=
  match opts with
  | [] => Ok raw_settings
  | key :: rest =>
      match assoc m key with
      | Some _ => collect_raw config sec m rest raw_settings
      | None =>
          v <- Config.get config sec key ;;
          collect_raw config sec m rest (dict_set raw_settings (KStr key) (VStr v))
      end
  end.

Definition stash_raw (config : ConfigParser) (sec : string) (m : mapping)
    (profile : value) : result value :=
  opts <- Config.options config sec ;;
  raw_settings <- collect_raw config sec m opts [] ;;
  if Py.truthy (VDict raw_settings)
  then Py.setitem profile (KStr "x_prusaslicer") (VDict raw_settings)
  else Ok profile.

Definition printer_skeleton : value :=
  VDict
    [ (KStr "op3d_schema", VStr "printer");
      (KStr "op3d_schema_version", VStr "0.1.0");
      (KStr "id", VStr "Unknown/Unknown");
      (KStr "maintainer", maintainer);
      (KStr "manufacturer", VStr "Unknown");
      (KStr "model", VStr "Unknown");
      (KStr "variant", VStr "Stock");
      (KStr "build_volume",
        VDict [ (KStr "x", VInt 200); (KStr "y", VInt 200); (KStr "z", VInt 200);
                (KStr "shape", VStr "rectangular"); (KStr "origin", VStr "front_left") ]);
      (KStr "kinematics", VStr "cartesian");
      (KStr "axes",
        VDict [ (KStr "x", VDict [(KStr "max_speed", VInt 300); (KStr "max_accel", VInt 3000)]);
                (KStr "y", VDict [(KStr "max_speed", VInt 300); (KStr "max_accel", VInt 3000)]);
                (KStr "z", VDict [(KStr "max_speed", VInt 12); (KStr "max_accel", VInt 500)]) ]);
      (KStr "extruders",
        VList [ VDict [ (KStr "id", VStr "tool0");
                        (KStr "nozzle_diameter", dec 4 1);
                        (KStr "nozzle_material", VStr "brass");
                        (KStr "max_temp", VInt 300);
                        (KStr "min_temp", VInt 0);
                        (KStr "retraction_supported", VBool true) ] ]);
      (KStr "bed", VDict [(KStr "heated", VBool true); (KStr "max_temp", VInt 120)]);
      (KStr "chamber", VDict [(KStr "heated", VBool false); (KStr "passive", VBool false)]);
      (KStr "firmware", VDict [(KStr "flavor", VStr "other")]);
      (KStr "network",
        VDict [ (KStr "has_wifi", VBool false); (KStr "has_ethernet", VBool false);
                (KStr "supports_lan_api", VBool false) ]);
      (KStr "external_ids", VDict []);
      (KStr "links", VDict []);
      (KStr "tags", VList []);
      (KStr "notes", VStr "");
      (KStr "x_prusaslicer", VDict []) ].

(** [not profile.get(k) or profile[k] == "Unknown"] *)
Definition unset_or_unknown (profile : value) (k : string) : result bool :=
  v <- Py.get profile k VNone ;;
  if negb (Py.truthy v) then Ok true
  else x <- Py.getitem profile (KStr k) ;; Ok (Py.eq x (VStr "Unknown")).

Definition convert_printer (config : ConfigParser) (sec : string) : result value :=
  profile <- apply_mappings config sec PRINTER_MAPPINGS printer_skeleton ;;
  let bed_shape := Config.get_fallback config sec "bed_shape" "" in
  profile <-
    (if (bed_shape =? "")%string then Ok profile
     else
       dims <- parse_bed_dimensions bed_shape ;;
       x <- Py.get dims "x" (VInt 200) ;;
       profile <- Py.setpath profile (KStr "build_volume") [KStr "x"] x ;;
       y <- Py.get dims "y" (VInt 200) ;;
       Py.setpath profile (KStr "build_volume") [KStr "y"] y) ;;
  profile <- Py.setitem profile (KStr "kinematics") (VStr (infer_kinematics config sec)) ;;
  profile <-
    match Config.find config sec "printer_model" with
    | Some model =>
        let make := Config.get_fallback config sec "printer_make" "Unknown" in
        profile <- Py.setitem profile (KStr "id")
                     (VStr (PyStr.replace " " "-" (make ++ "/" ++ model))) ;;
        no_make <- unset_or_unknown profile "manufacturer" ;;
        profile <- (if no_make
                    then Py.setitem profile (KStr "manufacturer") (VStr make)
                    else Ok profile) ;;
        no_model <- unset_or_unknown profile "model" ;;
        if no_model then Py.setitem profile (KStr "model") (VStr model)
        else Ok profile
    | None => Ok profile
    end ;;
  stash_raw config sec PRINTER_MAPPINGS profile.

Definition filament_skeleton : value :=
  VDict
    [ (KStr "op3d_schema", VStr "filament");
      (KStr "op3d_schema_version", VStr "0.1.0");
      (KStr "id", VStr "Unknown/Unknown");
      (KStr "maintainer", maintainer);
      (KStr "brand", VStr "Unknown");
      (KStr "name", VStr "Unknown");
      (KStr "material", VStr "PLA");
      (KStr "diameter", dec 175 2);
      (KStr "nozzle",
        VDict [(KStr "min", VInt 180); (KStr "max", VInt 250); (KStr "recommended", VInt 200)]);
      (KStr "bed",
        VDict [(KStr "min", VInt 0); (KStr "max", VInt 100); (KStr "recommended", VInt 50)]);
      (KStr "fan",
        VDict [(KStr "min", VInt 0); (KStr "max", VInt 100); (KStr "recommended", VInt 100)]);
      (KStr "volumetric_speed", VInt 8);
      (KStr "external_ids", VDict []);
      (KStr "links", VDict []);
      (KStr "tags", VList []);
      (KStr "notes", VStr "");
      (KStr "x_prusaslicer", VDict []) ].

(** The rule of [convert_filament] for [temperature] and
    [bed_temperature]: the recommended value and a window around it,
    clamped to [lo] and [hi]. *)
Definition temperature_window (profile : value) (sec_key : string)
    (temp : PyFloat.float) (lo hi delta : Z) : result value :=
  profile <- Py.setpath profile (KStr sec_key) [KStr "recommended"] (VFloat temp) ;;
  tmin <- Py.max2 (VInt lo) (VFloat (PyFloat.sub temp (PyFloat.of_Z delta))) ;;
  profile <- Py.setpath profile (KStr sec_key) [KStr "min"] tmin ;;
  tmax <- Py.min2 (VInt hi) (VFloat (PyFloat.add temp (PyFloat.of_Z delta))) ;;
  Py.setpath profile (KStr sec_key) [KStr "max"] tmax.

Definition convert_filament (config : ConfigParser) (sec : string) : result value :=
  profile <- apply_mappings config sec FILAMENT_MAPPINGS filament_skeleton ;;
  profile <-
    match Config.find config sec "filament_type" with
    | Some material =>
        Py.setitem profile (KStr "material") (VStr (normalize_material material))
    | None => Ok profile
    end ;;
  profile <-
    match Config.find config sec "temperature" with
    | Some raw =>
        temp <- PyFloat.of_string raw ;;
        temperature_window profile "nozzle" temp 150 300 20
    | None => Ok profile
    end ;;
  profile <-
    match Config.find config sec "bed_temperature" with
    | Some raw =>
        temp <- PyFloat.of_string raw ;;
        temperature_window profile "bed" temp 0 150 10
    | None => Ok profile
    end ;;
  profile <-
    match Config.find config sec "max_fan_speed" with
    | Some raw =>
        speed <- PyFloat.of_string raw ;;
        Py.setpath profile (KStr "fan") [KStr "recommended"] (VFloat speed)
    | None => Ok profile
    end ;;
  let brand := Config.get_fallback config sec "filament_vendor" "Unknown" in
  let name := Config.get_fallback config sec "filament_name"
                (Config.get_fallback config sec "filament_type" "Unknown") in
  profile <- (if negb (brand =? "")%string && negb (brand =? "Unknown")%string
              then Py.setitem profile (KStr "brand") (VStr brand)
              else Ok profile) ;;
  profile <- (if negb (name =? "")%string && negb (name =? "Unknown")%string
              then Py.setitem profile (KStr "name") (VStr name)
              else Ok profile) ;;
  b <- Py.getitem profile (KStr "brand") ;;
  n <- Py.getitem profile (KStr "name") ;;
  profile <- Py.setitem profile (KStr "id")
               (VStr (PyStr.replace "/" "-"
                        (PyStr.replace " " "-" (Py.str b ++ "/" ++ Py.str n)))) ;;
  stash_raw config sec FILAMENT_MAPPINGS profile.

Definition process_skeleton : value :=
  VDict
    [ (KStr "op3d_schema", VStr "process");
      (KStr "op3d_schema_version", VStr "0.1.0");
      (KStr "id", VStr "Standard/Imported");
      (KStr "maintainer", maintainer);
      (KStr "name", VStr "Imported Profile");
      (KStr "intent", VStr "standard");
      (KStr "layer_height",
        VDict [(KStr "min", dec 5 2); (KStr "max", dec 4 1); (KStr "default", dec 2 1)]);
      (KStr "wall_settings",
        VDict [ (KStr "wall_count", VInt 2); (KStr "top_layers", VInt 3);
                (KStr "bottom_layers", VInt 3) ]);
      (KStr "infill",
        VDict [ (KStr "density_default", VInt 20);
                (KStr "density_range", VDict [(KStr "min", VInt 0); (KStr "max", VInt 100)]);
                (KStr "recommended_patterns",
                  VList [VStr "gyroid"; VStr "grid"; VStr "cubic"]) ]);
      (KStr "speed",
        VDict [ (KStr "outer_wall", VInt 30); (KStr "inner_wall", VInt 60);
                (KStr "infill", VInt 60); (KStr "top_bottom", VInt 30);
                (KStr "travel", VInt 150) ]);
      (KStr "accel",
        VDict [ (KStr "default", VInt 3000); (KStr "outer_wall", VInt 1000);
                (KStr "infill", VInt 3000) ]);
      (KStr "retraction", VDict [(KStr "distance", dec 8 1); (KStr "speed", VInt 35)]);
      (KStr "cooling",
        VDict [(KStr "fan_default", VInt 100); (KStr "fan_min_layer_time", VInt 10)]);
      (KStr "supports",
        VDict [(KStr "enabled_default", VBool false); (KStr "overhang_threshold", VInt 45)]);
      (KStr "adhesion", VDict [(KStr "default_type", VStr "skirt"); (KStr "brim_width", VInt 0)]);
      (KStr "quality_bias", VDict [(KStr "priority", VStr "balanced")]);
      (KStr "external_ids", VDict []);
      (KStr "links", VDict []);
      (KStr "tags", VList []);
      (KStr "notes", VStr "");
      (KStr "x_prusaslicer", VDict []) ].

(** [if config.has_option(section, opt):
       profile[k1][k2] = float(config.get(section, opt))] *)
Definition copy_float (config : ConfigParser) (sec opt : string)
    (k1 k2 : string) (profile : value) : result value :=
  match Config.find config sec opt with
  | Some raw =>
      f <- PyFloat.of_string raw ;;
      Py.setpath profile (KStr k1) [KStr k2] (VFloat f)
  | None => Ok profile
  end.

Definition classify_intent (layer_h : value) : result string :=
  c1 <- Py.le layer_h (dec 1 1) ;;
  if c1 then Ok "high_detail"
  else
    c2 <- Py.le layer_h (dec 15 2) ;;
    if c2 then Ok "quality"
    else
      c3 <- Py.le layer_h (dec 25 2) ;;
      if c3 then Ok "standard" else Ok "draft".

Definition convert_process (config : ConfigParser) (sec : string) : result value :=
  profile <- apply_mappings config sec PROCESS_MAPPINGS process_skeleton ;;
  profile <-
    match Config.find config sec "layer_height" with
    | Some raw =>
        layer_h <- PyFloat.of_string raw ;;
        profile <- Py.setpath profile (KStr "layer_height") [KStr "default"] (VFloat layer_h) ;;
        lmin <- Py.max2 (dec 5 2)
                  (VFloat (PyFloat.mul layer_h (PyFloat.of_decimal false 25 (-2)))) ;;
        profile <- Py.setpath profile (KStr "layer_height") [KStr "min"] lmin ;;
        lmax <- Py.min2 (dec 4 1) (VFloat (PyFloat.mul layer_h (PyFloat.of_Z 2))) ;;
        Py.setpath profile (KStr "layer_height") [KStr "max"] lmax
    | None => Ok profile
    end ;;
  profile <-
    match Config.find config sec "fill_density" with
    | Some fill =>
        match (density <-
                 (if PyStr.contains "%" fill then parse_percentage fill
                  else f <- PyFloat.of_string fill ;;
                       Ok (PyFloat.mul f (PyFloat.of_Z 100))) ;;
               Py.setpath profile (KStr "infill") [KStr "density_default"] (VFloat density)) with
        | Ok profile' => Ok profile'
        | Raise ValueError => Ok profile
        | Raise e => Raise e
        end
    | None => Ok profile
    end ;;
  profile <- copy_float config sec "perimeter_speed" "speed" "outer_wall" profile ;;
  profile <- copy_float config sec "infill_speed" "speed" "infill" profile ;;
  profile <- copy_float config sec "travel_speed" "speed" "travel" profile ;;
  profile <- copy_float config sec "retract_length" "retraction" "distance" profile ;;
  profile <- copy_float config sec "retract_speed" "retraction" "speed" profile ;;
  let name := Config.get_fallback config sec "name" "Imported Profile" in
  profile <- Py.setitem profile (KStr "name") (VStr name) ;;
  layer_h <- Py.getpath profile [KStr "layer_height"; KStr "default"] ;;
  profile <- Py.setitem profile (KStr "id")
               (VStr (PyStr.replace " " "-"
                        ("Standard/" ++ Py.str layer_h ++ "mm-" ++ name))) ;;
  layer_h <- Py.getpath profile [KStr "layer_height"; KStr "default"] ;;
  intent <- classify_intent layer_h ;;
  profile <- Py.setitem profile (KStr "intent") (VStr intent) ;;
  stash_raw config sec PROCESS_MAPPINGS profile.

(** [detect_profile_type(config)] *)
Definition detect_profile_type (config : ConfigParser) : list string :=
  ((if Config.has_section config "printer" then ["printer"] else [])
   ++ (if Config.has_section config "filament" then ["filament"] else [])
   ++ (if Config.has_section config "print" then ["process"] else []))%list.

(** [convert_profile(config, profile_type)] *)
Definition convert_profile (config : ConfigParser) (profile_type : string) : result value :=
  if (profile_type =? "printer")%string then convert_printer config "printer"
  else if (profile_type =? "filament")%string then convert_filament config "filament"
  else if (profile_type =? "process")%string then convert_process config "print"
  else Raise ValueError.

End Importer.

(** ** tools/convert_profile.py *)

Module Exporter.

(** The schema test shared by the four exporters:
    [schema = profile.get("op3d_schema", "")], compared with a name. *)
Definition schema_is (schema : value) (name : string) : bool :=
  Py.eq schema (VStr name).

Definition convert_to_cura (profile : value) : result value :=
  schema <- Py.get profile "op3d_schema" (VStr "") ;;
  if schema_is schema "filament" then
    x_cura <- Py.get profile "x_cura" (VDict []) ;;
    if Py.truthy x_cura then Ok x_cura
    else
      nozzle <- Py.get profile "nozzle" (VDict []) ;;
      bed <- Py.get profile "bed" (VDict []) ;;
      fan <- Py.get profile "fan" (VDict []) ;;
      material <- Py.get profile "material" (VStr "pla") ;;
      material <- Py.lower material ;;
      print_temperature <- Py.get nozzle "recommended" (VInt 200) ;;
      print_temperature_layer_0 <- Py.get nozzle "min" (VInt 180) ;;
      bed_temperature <- Py.get bed "recommended" (VInt 50) ;;
      bed_temperature_layer_0 <- Py.get bed "min" (VInt 40) ;;
      fan_speed <- Py.get fan "recommended" (VInt 100) ;;
      Ok (VDict [ (KStr "material", VStr material);
                  (KStr "print_temperature", print_temperature);
                  (KStr "print_temperature_layer_0", print_temperature_layer_0);
                  (KStr "bed_temperature", bed_temperature);
                  (KStr "bed_temperature_layer_0", bed_temperature_layer_0);
                  (KStr "fan_speed", fan_speed);
                  (KStr "fan_speed_layer_0", VInt 0);
                  (KStr "cooling", VStr "enabled") ])
  else if schema_is schema "printer" then
    x_cura <- Py.get profile "x_cura" (VDict []) ;;
    if Py.truthy x_cura then Py.get x_cura "definition_changes" (VDict [])
    else
      bv <- Py.get profile "build_volume" (VDict []) ;;
      machine_width <- Py.get bv "x" (VInt 200) ;;
      machine_depth <- Py.get bv "y" (VInt 200) ;;
      machine_height <- Py.get bv "z" (VInt 200) ;;
      bed <- Py.get profile "bed" (VDict []) ;;
      heated_bed <- Py.get bed "heated" (VBool true) ;;
      Ok (VDict [ (KStr "machine_width", machine_width);
                  (KStr "machine_depth", machine_depth);
                  (KStr "machine_height", machine_height);
                  (KStr "nozzle_size", Importer.dec 4 1);
                  (KStr "heated_bed", heated_bed) ])
  else Ok (VDict []).

Definition convert_to_prusaslicer (profile : value) : result value :=
  schema <- Py.get profile "op3d_schema" (VStr "") ;;
  if schema_is schema "filament" then
    x_ps <- Py.get profile "x_prusaslicer" (VDict []) ;;
    if Py.truthy x_ps then Ok x_ps
    else
      nozzle <- Py.get profile "nozzle" (VDict []) ;;
      bed <- Py.get profile "bed" (VDict []) ;;
      fan <- Py.get profile "fan" (VDict []) ;;
      filament_type <- Py.get profile "material" (VStr "PLA") ;;
      temperature <- Py.get nozzle "recommended" (VInt 200) ;;
      bed_temperature <- Py.get bed "recommended" (VInt 50) ;;
      fan_speed <- Py.get fan "recommended" (VInt 100) ;;
      Ok (VDict [ (KStr "filament_type", filament_type);
                  (KStr "temperature", temperature);
                  (KStr "bed_temperature", bed_temperature);
                  (KStr "fan_speed", fan_speed) ])
  else if schema_is schema "printer" then
    x_ps <- Py.get profile "x_prusaslicer" (VDict []) ;;
    if Py.truthy x_ps then Ok x_ps
    else
      bv <- Py.get profile "build_volume" (VDict []) ;;
      extruders <- Py.get profile "extruders" (VList [VDict []]) ;;
      extruder <- Py.getitem extruders (KInt 0) ;;
      manufacturer <- Py.get profile "manufacturer" (VStr "") ;;
      model <- Py.get profile "model" (VStr "") ;;
      vendor <- Py.get profile "manufacturer" (VStr "Unknown") ;;
      nozzle_diameter <- Py.get extruder "nozzle_diameter" (Importer.dec 4 1) ;;
      bed_shape <- Py.get bv "shape" (VStr "rectangular") ;;
      x <- Py.get bv "x" (VInt 200) ;;
      y <- Py.get bv "y" (VInt 200) ;;
      print_height <- Py.get bv "z" (VInt 200) ;;
      Ok (VDict [ (KStr "printer_model", VStr (Py.str manufacturer ++ " " ++ Py.str model));
                  (KStr "vendor", vendor);
                  (KStr "filament_diameter", Importer.dec 175 2);
                  (KStr "nozzle_diameter", nozzle_diameter);
                  (KStr "bed_shape", bed_shape);
                  (KStr "bed_size", VStr (Py.str x ++ "x" ++ Py.str y));
                  (KStr "print_height", print_height) ])
  else Ok (VDict []).

Definition convert_to_orca (profile : value) : result value :=
  schema <- Py.get profile "op3d_schema" (VStr "") ;;
  if schema_is schema "filament" then
    x_orca <- Py.get profile "x_orca" (VDict []) ;;
    if Py.truthy x_orca then Ok x_orca
    else
      nozzle <- Py.get profile "nozzle" (VDict []) ;;
      bed <- Py.get profile "bed" (VDict []) ;;
      fan <- Py.get profile "fan" (VDict []) ;;
      filament_type <- Py.get profile "material" (VStr "PLA") ;;
      nozzle_temperature <- Py.get nozzle "recommended" (VInt 200) ;;
      nozzle_temperature_initial_layer <- Py.get nozzle "min" (VInt 180) ;;
      bed_temperature <- Py.get bed "recommended" (VInt 50) ;;
      bed_temperature_initial_layer <- Py.get bed "min" (VInt 40) ;;
      fan_speed <- Py.get fan "recommended" (VInt 100) ;;
      Ok (VDict [ (KStr "filament_type", filament_type);
                  (KStr "nozzle_temperature", nozzle_temperature);
                  (KStr "nozzle_temperature_initial_layer", nozzle_temperature_initial_layer);
                  (KStr "bed_temperature", bed_temperature);
                  (KStr "bed_temperature_initial_layer", bed_temperature_initial_layer);
                  (KStr "fan_speed", fan_speed);
                  (KStr "fan_speed_initial_layer", VInt 0) ])
  else if schema_is schema "printer" then
    x_orca <- Py.get profile "x_orca" (VDict []) ;;
    if Py.truthy x_orca then Ok x_orca
    else
      bv <- Py.get profile "build_volume" (VDict []) ;;
      extruders <- Py.get profile "extruders" (VList [VDict []]) ;;
      extruder <- Py.getitem extruders (KInt 0) ;;
      manufacturer <- Py.get profile "manufacturer" (VStr "") ;;
      model <- Py.get profile "model" (VStr "") ;;
      machine_manufacturer <- Py.get profile "manufacturer" (VStr "Unknown") ;;
      bed_x <- Py.get bv "x" (VInt 200) ;;
      bed_y <- Py.get bv "y" (VInt 200) ;;
      height <- Py.get bv "z" (VInt 200) ;;
      nozzle_diameter <- Py.get extruder "nozzle_diameter" (Importer.dec 4 1) ;;
      Ok (VDict [ (KStr "machine_name", VStr (Py.str manufacturer ++ " " ++ Py.str model));
                  (KStr "machine_manufacturer", machine_manufacturer);
                  (KStr "bed_x", bed_x);
                  (KStr "bed_y", bed_y);
                  (KStr "height", height);
                  (KStr "nozzle_diameter", nozzle_diameter);
                  (KStr "filament_diameter", Importer.dec 175 2) ])
  else Ok (VDict []).

(** [v.lower().replace("-", "").replace(" ", "")] *)
Definition compact_lower (v : value) : result string :=
  s <- Py.lower v ;;
  Ok (PyStr.replace " " "" (PyStr.replace "-" "" s)).

Definition convert_to_bambu (profile : value) : result value :=
  schema <- Py.get profile "op3d_schema" (VStr "") ;;
  if schema_is schema "filament" then
    x_bambu <- Py.get profile "x_bambu" (VDict []) ;;
    if Py.truthy x_bambu then Ok x_bambu
    else
      nozzle <- Py.get profile "nozzle" (VDict []) ;;
      bed <- Py.get profile "bed" (VDict []) ;;
      fan <- Py.get profile "fan" (VDict []) ;;
      material <- Py.get profile "material" (VStr "PLA") ;;
      prefix <- Py.slice_to 4 material ;;
      nozzle_min <- Py.get nozzle "min" (VInt 190) ;;
      nozzle_max <- Py.get nozzle "max" (VInt 230) ;;
      bed_min <- Py.get bed "min" (VInt 40) ;;
      bed_max <- Py.get bed "max" (VInt 60) ;;
      fan_min <- Py.get fan "min" (VInt 50) ;;
      fan_max <- Py.get fan "max" (VInt 100) ;;
      Ok (VDict [ (KStr "filament_type_id", VStr ("G" ++ Py.str prefix ++ "00"));
                  (KStr "drying_temperature", VInt 55);
                  (KStr "drying_time", VInt 4);
                  (KStr "nozzle_temperature", VList [nozzle_min; nozzle_max]);
                  (KStr "bed_temperature", VList [bed_min; bed_max]);
                  (KStr "fan_speed", VList [fan_min; fan_max]) ])
  else if schema_is schema "printer" then
    x_bambu <- Py.get profile "x_bambu" (VDict []) ;;
    if Py.truthy x_bambu then Ok x_bambu
    else
      manufacturer <- Py.get profile "manufacturer" (VStr "") ;;
      manufacturer <- Py.lower manufacturer ;;
      model <- Py.get profile "model" (VStr "") ;;
      model <- compact_lower model ;;
      series <- Py.get profile "model" (VStr "Unknown") ;;
      Ok (VDict [ (KStr "product_id", VStr (manufacturer ++ "_" ++ model ++ "_00"));
                  (KStr "series", series);
                  (KStr "support_lidar", VBool false);
                  (KStr "support_ams", VBool false);
                  (KStr "support_ams_lite", VBool false) ])
  else Ok (VDict []).

(** The dialects of [--slicer] and the table [converters] of [main]. *)
Inductive slicer : Type :=
| cura
| prusaslicer
| orca
| bambu.

Definition converter (s : slicer) : value -> result value :=
  match s with
  | cura => convert_to_cura
  | prusaslicer => convert_to_prusaslicer
  | orca => convert_to_orca
  | bambu => convert_to_bambu
  end.

(** The vendor-extension key of each dialect. *)
Definition extension_key (s : slicer) : string :=
  match s with
  | cura => "x_cura"
  | prusaslicer => "x_prusaslicer"
  | orca => "x_orca"
  | bambu => "x_bambu"
  end.

End Exporter.

(** ** tools/compare_profiles.py *)

Module Compare.

Definition key_truthy (k : key) : bool :=
  match k with
  | KStr s => negb (s =? "")%string
  | KInt n => negb (n =? 0)
  end.

Definition key_str (k : key) : string :=
  match k with
  | KStr s => s
  | KInt n => PyInt.str n
  end.

(** [f"{parent_key}{sep}{k}" if parent_key else k] *)
Definition new_key (parent_key : key) (sep : string) (k : key) : key :=
  if key_truthy parent_key
  then KStr (key_str parent_key ++ sep ++ key_str k)
  else k.

(** The body of [flatten_dict] on a dict; only dict values recurse. *)
Fixpoint flatten (d : value) (parent_key : key) (sep : string) {struct d} : dict :=
  match d with
  | VDict entries =>
      dict_of_items
        (flat_map
           (fun kv : key * value =>
              match kv with
              | (k, v) =>
                  match v with
                  | VDict _ => flatten v (new_key parent_key sep k) sep
                  | _ => [(new_key parent_key sep k, v)]
                  end
              end) entries)
  | _ => []
  end.

(** [flatten_dict(d, parent_key, sep)]; [d.items()] needs a dict. *)
Definition flatten_dict (d : value) (parent_key : key) (sep : string) : result dict :=
  match d with
  | VDict _ => Ok (flatten d parent_key sep)
  | _ => Raise AttributeError
  end.

Definition compare_values (v1 v2 : value) : bool :=
  match v1, v2 with
  | VNone, VNone => true
  | VNone, _ => false
  | _, VNone => false
  | _, _ => Py.eq v1 v2
  end.

(** *** [sorted(set(flat1.keys()) | set(flat2.keys()))] *)

Definition union_keys (l1 l2 : list key) : list key :=
  l1 ++ filter (fun k => negb (existsb (key_eqb k) l1)) l2.

Definition key_leb (a b : key) : bool :=
  match a, b with
  | KStr s, KStr t => String.leb s t
  | KInt n, KInt m => n <=? m
  | _, _ => false
  end.

Definition same_kind (a b : key) : bool :=
  match a, b with
  | KStr _, KStr _ => true
  | KInt _, KInt _ => true
  | _, _ => false
  end.

Fixpoint insert_key (k : key) (l : list key) : list key :=
  match l with
  | [] => [k]
  | x :: r => if key_leb k x then k :: l else x :: insert_key k r
  end.

Definition sort_keys (l : list key) : list key := fold_right insert_key [] l.

(** Strings sort by code point and integers by value; a string cannot be
    compared with an integer. *)
Definition sorted (l : list key) : result (list key) :=
  match l with
  | [] => Ok []
  | x :: r => if forallb (same_kind x) r then Ok (sort_keys l) else Raise TypeError
  end.

(** *** The comparison *)

Inductive status : Type :=
| only_in_profile1
| only_in_profile2
| different.

Record difference : Type := {
  diff_key : key;
  diff_profile1 : value;
  diff_profile2 : value;
  diff_status : status
}.

Record common_entry : Type := {
  common_key : key;
  common_value : value
}.

Record statistics : Type := {
  total_keys : nat;
  n_differences : nat;
  n_common : nat;
  n_only_in_profile1 : nat;
  n_only_in_profile2 : nat;
  n_modified : nat
}.

Record comparison : Type := {
  profile1_schema : value;
  profile2_schema : value;
  profile1_id : value;
  profile2_id : value;
  differences : list difference;
  common : list common_entry;
  stats : statistics
}.

Definition status_eqb (a b : status) : bool :=
  match a, b with
  | only_in_profile1, only_in_profile1 => true
  | only_in_profile2, only_in_profile2 => true
  | different, different => true
  | _, _ => false
  end.

(** The loop over the sorted keys, with its two result lists. *)
Fixpoint compare_keys (flat1 flat2 : dict) (show_common : bool) (keys : list key)
    : list difference * list common_entry :=
  match keys with
  | [] => ([], [])
  | key :: rest =>
      let (ds, cs) := compare_keys flat1 flat2 show_common rest in
      let v1 := dict_get_default flat1 key VNone in
      let v2 := dict_get_default flat2 key VNone in
      if negb (dict_mem flat1 key) then
        ({| diff_key := key; diff_profile1 := VNone; diff_profile2 := v2;
            diff_status := only_in_profile2 |} :: ds, cs)
      else if negb (dict_mem flat2 key) then
        ({| diff_key := key; diff_profile1 := v1; diff_profile2 := VNone;
            diff_status := only_in_profile1 |} :: ds, cs)
      else if negb (compare_values v1 v2) then
        ({| diff_key := key; diff_profile1 := v1; diff_profile2 := v2;
            diff_status := different |} :: ds, cs)
      else if show_common then
        (ds, {| common_key := key; common_value := v1 |} :: cs)
      else (ds, cs)
  end.

Definition count_status (s : status) (ds : list difference) : nat :=
  length (filter (fun d => status_eqb (diff_status d) s) ds).

Definition compare_profiles (profile1 profile2 : value) (show_common : bool)
    : result comparison :=
  flat1 <- flatten_dict profile1 (KStr "") "." ;;
  flat2 <- flatten_dict profile2 (KStr "") "." ;;
  let all_keys := union_keys (dict_keys flat1) (dict_keys flat2) in
  keys <- sorted all_keys ;;
  let (ds, cs) := compare_keys flat1 flat2 show_common keys in
  schema1 <- Py.get profile1 "op3d_schema" (VStr "unknown") ;;
  schema2 <- Py.get profile2 "op3d_schema" (VStr "unknown") ;;
  id1 <- Py.get profile1 "id" (VStr "unknown") ;;
  id2 <- Py.get profile2 "id" (VStr "unknown") ;;
  Ok {| profile1_schema := schema1;
        profile2_schema := schema2;
        profile1_id := id1;
        profile2_id := id2;
        differences := ds;
        common := cs;
        stats := {| total_keys := length all_keys;
                    n_differences := length ds;
                    n_common := length cs;
                    n_only_in_profile1 := count_status only_in_profile1 ds;
                    n_only_in_profile2 := count_status only_in_profile2 ds;
                    n_modified := count_status different ds |} |}.

(** *** A profile compared with itself

    In [compare_profiles(profile, profile)] the two flattened views hold
    the same objects, so that [compare_values] is called on one object
    twice. The loop and the function are those above, for a given reading
    [cmp] of [compare_values(v1, v2)]. *)

(** [compare_values(v, v)], the two arguments being one object. *)
Definition compare_values_same (v : value) : bool :=
  match v with
  | VNone => true
  | _ => Py.eq_same v
  end.

Fixpoint compare_keys_by (cmp : value -> value -> bool) (flat1 flat2 : dict)
    (show_common : bool) (keys : list key) : list difference * list common_entry :=
  match keys with
  | [] => ([], [])
  | key :: rest =>
      let (ds, cs) := compare_keys_by cmp flat1 flat2 show_common rest in
      let v1 := dict_get_default flat1 key VNone in
      let v2 := dict_get_default flat2 key VNone in
      if negb (dict_mem flat1 key) then
        ({| diff_key := key; diff_profile1 := VNone; diff_profile2 := v2;
            diff_status := only_in_profile2 |} :: ds, cs)
      else if negb (dict_mem flat2 key) then
        ({| diff_key := key; diff_profile1 := v1; diff_profile2 := VNone;
            diff_status := only_in_profile1 |} :: ds, cs)
      else if negb (cmp v1 v2) then
        ({| diff_key := key; diff_profile1 := v1; diff_profile2 := v2;
            diff_status := different |} :: ds, cs)
      else if show_common then
        (ds, {| common_key := key; common_value := v1 |} :: cs)
      else (ds, cs)
  end.

Definition compare_profiles_by (cmp : value -> value -> bool)
    (profile1 profile2 : value) (show_common : bool) : result comparison :=
  flat1 <- flatten_dict profile1 (KStr "") "." ;;
  flat2 <- flatten_dict profile2 (KStr "") "." ;;
  let all_keys := union_keys (dict_keys flat1) (dict_keys flat2) in
  keys <- sorted all_keys ;;
  let (ds, cs) := compare_keys_by cmp flat1 flat2 show_common keys in
  schema1 <- Py.get profile1 "op3d_schema" (VStr "unknown") ;;
  schema2 <- Py.get profile2 "op3d_schema" (VStr "unknown") ;;
  id1 <- Py.get profile1 "id" (VStr "unknown") ;;
  id2 <- Py.get profile2 "id" (VStr "unknown") ;;
  Ok {| profile1_schema := schema1;
        profile2_schema := schema2;
        profile1_id := id1;
        profile2_id := id2;
        differences := ds;
        common := cs;
        stats := {| total_keys := length all_keys;
                    n_differences := length ds;
                    n_common := length cs;
                    n_only_in_profile1 := count_status only_in_profile1 ds;
                    n_only_in_profile2 := count_status only_in_profile2 ds;
                    n_modified := count_status different ds |} |}.

(** [compare_profiles(profile, profile, show_common)] *)
Definition compare_self (profile : value) (show_common : bool) : result comparison :=
  compare_profiles_by (fun v _ => compare_values_same v) profile profile show_common.

End Compare.

(** * Properties *)

(** ** Sample inputs *)

(** The minimal printer section of the specification's scenario. *)
Definition minimal_printer : ConfigParser :=
  [ ("printer",
      [ ("printer_model", "X1");
        ("printer_make", "Acme");
        ("nozzle_diameter", "0.4");
        ("bed_shape", "0x0,250x0,250x250,0x250") ]) ].

(** A filament section whose only option is a temperature that is no
    number. *)
Definition hot_filament : ConfigParser :=
  [ ("filament", [ ("temperature", "hot") ]) ].

(** [{"a": 5}] and [{"tags": []}] *)
Definition scalar_at_a : value := VDict [(KStr "a", VInt 5)].
Definition empty_tags : value := VDict [(KStr "tags", VList [])].

(** [profile.get("op3d_schema", "")] of a profile that is a dict. *)
Definition schema_of (d : dict) : value :=
  dict_get_default d (KStr "op3d_schema") (VStr "").

(** The vendor-extension namespace of a profile for a dialect,
    [profile.get("x_...", {})]. *)
Definition extension_of (s : Exporter.slicer) (d : dict) : value :=
  dict_get_default d (KStr (Exporter.extension_key s)) (VDict []).

Definition cura_override : value := VDict [(KStr "print_temperature", VInt 999)].

(** A filament profile with [nozzle.recommended = 205] and the [x_cura]
    block [{"print_temperature": 999}]. *)
Definition filament_with_x_cura : dict :=
  [ (KStr "op3d_schema", VStr "filament");
    (KStr "nozzle", VDict [(KStr "recommended", VInt 205)]);
    (KStr "x_cura", cura_override) ].

(** A printer profile with a non-empty [x_cura] block. *)
Definition printer_with_x_cura : dict :=
  [ (KStr "op3d_schema", VStr "printer");
    (KStr "x_cura", VDict [(KStr "machine_width", VInt 300)]) ].

Definition process_profile : dict :=
  [ (KStr "op3d_schema", VStr "process"); (KStr "id", VStr "Standard/Imported") ].

(** ** Well-formed documents *)

Definition is_str_key (k : key) : bool :=
  match k with KStr _ => true | KInt _ => false end.

Fixpoint distinct_keys (l : list key) : bool :=
  match l with
  | [] => true
  | k :: r => negb (existsb (key_eqb k) r) && distinct_keys r
  end.

(** What [json.load] returns: the keys of every object are strings, and
    no two keys of an object are equal. *)
Fixpoint json_doc (v : value) : bool :=
  match v with
  | VList l => forallb json_doc l
  | VDict d =>
      forallb is_str_key (map fst d)
      && distinct_keys (map fst d)
      && forallb (fun kv : key * value => json_doc (snd kv)) d
  | _ => true
  end.

(** [flatten_dict(profile)] with its default arguments, on a dict. *)
Definition flat (profile : value) : dict := Compare.flatten profile (KStr "") ".".

(** The leaves of a profile, each with its dotted key: the values that
    are no dicts, in the order [flatten_dict] meets them. Two leaves may
    have the same dotted key. *)
Fixpoint leaves (v : value) (parent_key : key) {struct v} : list (key * value) :=
  match v with
  | VDict entries =>
      flat_map
        (fun kv : key * value =>
           match kv with
           | (k, x) =>
               match x with
               | VDict _ => leaves x (Compare.new_key parent_key "." k)
               | _ => [(Compare.new_key parent_key "." k, x)]
               end
           end) entries
  | _ => []
  end.

Definition leaf_keys (profile : value) : list key := map fst (leaves profile (KStr "")).

Definition is_nan_value (v : value) : bool :=
  match v with VFloat f => PyFloat.is_nan f | _ => false end.

(** No value of the flattened view is a NaN; a list may hold one. *)
Definition nan_leaf_free (profile : value) : bool :=
  forallb (fun kv : key * value => negb (is_nan_value (snd kv))) (flat profile).

(** [{"a": 50}], [{"a": 50.0}], [{"a": NaN}], [{"a": [NaN]}] and
    [{"a": {"b": 1}, "a.b": 2}] *)
Definition int_fifty : value := VDict [(KStr "a", VInt 50)].
Definition float_fifty : value := VDict [(KStr "a", VFloat (PyFloat.of_Z 50))].
Definition nan_leaf : value := VDict [(KStr "a", VFloat PyFloat.nan)].
Definition nan_in_list : value := VDict [(KStr "a", VList [VFloat PyFloat.nan])].
Definition shadowed_leaf : value :=
  VDict [ (KStr "a", VDict [(KStr "b", VInt 1)]); (KStr "a.b", VInt 2) ].

(** ** Paths *)

(** The key a path segment denotes: a segment of digits is an index. *)
Definition segment_key (s : string) : key :=
  if PyStr.isdigit s then KInt (PyInt.digits_value 0 s) else KStr s.

(** The subscripts that read back what [set_nested] writes at [path]. *)
Definition path_keys (path : string) : list key :=
  map segment_key (PyStr.split "." path).

(** Two paths part ways at a dict key: up to some position they have the
    same segments, there they differ, and none of these segments is an
    index. *)
Fixpoint diverges (p q : list string) : bool :=
  match p, q with
  | a :: p', b :: q' =>
      negb (PyStr.isdigit a) && negb (PyStr.isdigit b)
      && (if (a =? b)%string then diverges p' q' else true)
  | _, _ => false
  end.

Definition conv_eqb (a b : Importer.converter) : bool :=
  match a, b with
  | Importer.conv_str, Importer.conv_str => true
  | Importer.conv_float, Importer.conv_float => true
  | Importer.conv_int, Importer.conv_int => true
  | Importer.conv_is_one, Importer.conv_is_one => true
  | _, _ => false
  end.

(** Converters that accept every raw string. *)
Definition never_fails (c : Importer.converter) : bool :=
  match c with
  | Importer.conv_str | Importer.conv_is_one => true
  | Importer.conv_float | Importer.conv_int => false
  end.

(** An entry of a mapping table leaves the path [p] alone when the option
    [ps_key] is rejected by [c]: it is that entry, or it writes elsewhere. *)
Definition entry_apart (ps_key : string) (c : Importer.converter) (p : list string)
    (entry : string * (string * Importer.converter)) : bool :=
  ((fst entry =? ps_key)%string && conv_eqb (snd (snd entry)) c)
  || diverges p (PyStr.split "." (fst (snd entry))).

(** The three kinds of profile, and [import(doc, kind)] on the section
    [sec] of an INI document. *)
Inductive kind : Type :=
| printer
| filament
| process.

Definition mapping_of (k : kind) : Importer.mapping :=
  match k with
  | printer => Importer.PRINTER_MAPPINGS
  | filament => Importer.FILAMENT_MAPPINGS
  | process => Importer.PROCESS_MAPPINGS
  end.

Definition skeleton_of (k : kind) : value :=
  match k with
  | printer => Importer.printer_skeleton
  | filament => Importer.filament_skeleton
  | process => Importer.process_skeleton
  end.

Definition import (k : kind) (config : ConfigParser) (sec : string) : result value :=
  match k with
  | printer => Importer.convert_printer config sec
  | filament => Importer.convert_filament config sec
  | process => Importer.convert_process config sec
  end.

(** The paths the rules of a converter assign to between the mapping
    loop and the collection of the unmapped options. *)
Definition rule_paths (k : kind) : list (list string) :=
  match k with
  | printer =>
      [ ["build_volume"; "x"]; ["build_volume"; "y"]; ["kinematics"]; ["id"];
        ["manufacturer"]; ["model"] ]
  | filament =>
      [ ["material"];
        ["nozzle"; "recommended"]; ["nozzle"; "min"]; ["nozzle"; "max"];
        ["bed"; "recommended"]; ["bed"; "min"]; ["bed"; "max"];
        ["fan"; "recommended"]; ["brand"]; ["name"]; ["id"] ]
  | process =>
      [ ["layer_height"; "default"]; ["layer_height"; "min"]; ["layer_height"; "max"];
        ["infill"; "density_default"];
        ["speed"; "outer_wall"]; ["speed"; "infill"]; ["speed"; "travel"];
        ["retraction"; "distance"]; ["retraction"; "speed"];
        ["name"]; ["id"]; ["intent"] ]
  end.

(** The options a converter reads again with [float] after the mapping
    loop, outside any [try]. *)
Definition reparsed (k : kind) : list string :=
  match k with
  | printer => []
  | filament => ["temperature"; "bed_temperature"; "max_fan_speed"]
  | process =>
      [ "layer_height"; "perimeter_speed"; "infill_speed"; "travel_speed";
        "retract_length"; "retract_speed" ]
  end.

Definition is_float (c : Importer.converter) : bool := conv_eqb c Importer.conv_float.

(** Why a rejected option of a mapping table leaves no trace: its
    converter rejects nothing; or the converter is [float] and a rule
    reads the option again, so that the import raises; or nothing else
    writes at its path. *)
Definition entry_framed (k : kind) (entry : string * (string * Importer.converter)) : bool :=
  let p := PyStr.split "." (fst (snd entry)) in
  never_fails (snd (snd entry))
  || (is_float (snd (snd entry)) && existsb (String.eqb (fst entry)) (reparsed k))
  || (forallb (entry_apart (fst entry) (snd (snd entry)) p) (mapping_of k)
      && diverges p ["x_prusaslicer"]
      && forallb (diverges p) (rule_paths k)).

(** A process section whose fill density is a percentage, and a printer
    section whose maximal print height is no number. *)
Definition percent_fill : ConfigParser :=
  [ ("print", [ ("fill_density", "35%") ]) ].

Definition tall_printer : ConfigParser :=
  [ ("printer", [ ("printer_model", "X1"); ("max_print_height", "tall") ]) ].

(** Another option of the table is mapped to [path], and its raw value is
    accepted. *)
Definition rival (config : ConfigParser) (sec ps_key path : string)
    (entry : string * (string * Importer.converter)) : bool :=
  negb (fst entry =? ps_key)%string
  && (fst (snd entry) =? path)%string
  && match Config.find config sec (fst entry) with
     | Some raw => is_ok (Importer.convert (snd (snd entry)) raw)
     | None => false
     end.

(** What else writes at the path of the option [ps_key] whose raw value
    [raw] is rejected: a rival or, for the fill density of a process, the
    rule that reads percentages. *)
Definition overwritten (k : kind) (config : ConfigParser)
    (sec ps_key path raw : string) : bool :=
  existsb (rival config sec ps_key path) (mapping_of k)
  || match k with
     | process => (ps_key =? "fill_density")%string
                  && is_ok (Importer.parse_percentage raw)
     | _ => false
     end.

(** The paths the rules of [convert_process] assign to for a given
    section: a rule guarded by [has_option] writes when the option is
    there, the rule of the fill density when its value is read. *)
Definition guarded (config : ConfigParser) (sec opt : string)
    (paths : list (list string)) : list (list string) :=
  if Config.has_option config sec opt then paths else [].

Definition fill_density_read (config : ConfigParser) (sec : string) : bool :=
  match Config.find config sec "fill_density" with
  | Some fill =>
      if PyStr.contains "%" fill then is_ok (Importer.parse_percentage fill)
      else is_ok (PyFloat.of_string fill)
  | None => false
  end.

Definition process_writes (config : ConfigParser) (sec : string) : list (list string) :=
  (guarded config sec "layer_height"
     [ ["layer_height"; "default"]; ["layer_height"; "min"]; ["layer_height"; "max"] ]
   ++ (if fill_density_read config sec then [ ["infill"; "density_default"] ] else [])
   ++ guarded config sec "perimeter_speed" [ ["speed"; "outer_wall"] ]
   ++ guarded config sec "infill_speed" [ ["speed"; "infill"] ]
   ++ guarded config sec "travel_speed" [ ["speed"; "travel"] ]
   ++ guarded config sec "retract_length" [ ["retraction"; "distance"] ]
   ++ guarded config sec "retract_speed" [ ["retraction"; "speed"] ]
   ++ [ ["name"]; ["id"]; ["intent"] ])%list.

(** An entry of a mapping table leaves [p] alone: it is apart from it,
    its option is not in the section, or its raw value is rejected. *)
Definition entry_quiet (config : ConfigParser) (sec ps_key : string)
    (c : Importer.converter) (p : list string)
    (entry : string * (string * Importer.converter)) : bool :=
  entry_apart ps_key c p entry
  || match Config.find config sec (fst entry) with
     | Some raw => negb (is_ok (Importer.convert (snd (snd entry)) raw))
     | None => true
     end.

(** A process section whose speed on top layers is no number, alone and
    beside the speed on bottom layers, which the table maps to the same
    path. *)
Definition fast_top : ConfigParser :=
  [ ("print", [ ("top_solid_infill_speed", "fast") ]) ].

Definition rival_speeds : ConfigParser :=
  [ ("print", [ ("top_solid_infill_speed", "fast");
                ("bottom_solid_infill_speed", "40") ]) ].

(** ** The round trip through a dialect *)









(** The section [convert_profile] reads for each kind. *)
Definition section_name (k : kind) : string :=
  match k with
  | printer => "printer"
  | filament => "filament"
  | process => "print"
  end.






(** The bounds of the window [convert_filament] derives from a
    temperature: [max(lo, temp - delta)] and [min(hi, temp + delta)]. *)
Definition window_low (lo : Z) (temp : PyFloat.float) (delta : Z) : value :=
  let x := PyFloat.sub temp (PyFloat.of_Z delta) in
  if match Py.num_compare (Py.NInt lo) (Py.NFloat x) with Some Lt => true | _ => false end
  then VFloat x else VInt lo.

Definition window_high (hi : Z) (temp : PyFloat.float) (delta : Z) : value :=
  let x := PyFloat.add temp (PyFloat.of_Z delta) in
  if match Py.num_compare (Py.NFloat x) (Py.NInt hi) with Some Lt => true | _ => false end
  then VFloat x else VInt hi.

(** What a converter does after its mapping loop: its rules write at
    [rule_paths] only, they parse the [reparsed] options, and
    [stash_raw] ends it. *)
Definition import_steps (k : kind) (config : ConfigParser) (sec : string)
    (profile : value) : Prop :=
  exists p0 p3,
    Importer.apply_mappings config sec (mapping_of k) (skeleton_of k) = Ok p0
    /\ Importer.stash_raw config sec (mapping_of k) p3 = Ok profile
    /\ (forall p, forallb (diverges p) (rule_paths k) = true ->
                  Py.getpath p3 (map segment_key p) = Py.getpath p0 (map segment_key p))
    /\ (forall opt raw, In opt (reparsed k) -> Config.find config sec opt = Some raw ->
                        exists f, PyFloat.of_string raw = Ok f).

(** ** Vocabulary of the further properties *)

(** No segment of a dotted path is a list index. *)
Definition key_segments (path : string) : bool :=
  forallb (fun s => negb (PyStr.isdigit s)) (PyStr.split "." path).

Definition first_segment (path : string) : string := hd "" (PyStr.split "." path).

Definition is_dict (v : value) : bool :=
  match v with VDict _ => true | _ => false end.

(** Strings of decimal digits, and the bed shape PrusaSlicer writes for a
    rectangular bed of width [w] and depth [h]:
    [0x0,{w}x0,{w}x{h},0x{h}]. *)
Definition digits (s : string) : bool := PyStr.forall_chars PyStr.is_digit s.

Definition rectangle (w h : string) : string :=
  "0x0," ++ w ++ "x0," ++ w ++ "x" ++ h ++ ",0x" ++ h.

(** A run of coordinate characters ends where [r] starts. *)
Definition stops (r : string) : Prop :=
  match r with
  | String c _ => Importer.is_coord_char c = false
  | EmptyString => True
  end.

(** The entry of a mapping table writes away from the path [p]; no entry
    of the table, no rule of the converter and not the stash of the
    unmapped options writes at [p]. *)
Definition writes_apart (p : list string)
    (entry : string * (string * Importer.converter)) : bool :=
  diverges p (PyStr.split "." (fst (snd entry))).

Definition untouched (k : kind) (p : list string) : bool :=
  forallb (writes_apart p) (mapping_of k)
  && forallb (diverges p) (rule_paths k)
  && diverges p ["x_prusaslicer"].

(** The profile type [convert_profile] knows a kind by. *)
Definition kind_name (k : kind) : string :=
  match k with
  | printer => "printer"
  | filament => "filament"
  | process => "process"
  end.

(** [v] is what [stash_raw] keeps of the option [opt]: the option is no
    key of the mapping table and [v] is its raw text. *)
Definition stashed (config : ConfigParser) (sec : string) (m : Importer.mapping)
    (opt : string) (v : value) : Prop :=
  assoc m opt = None /\ exists raw, Config.find config sec opt = Some raw /\ v = VStr raw.

(** The two temperature rules of [convert_filament]: the option, the
    section of the profile, and the bounds of the window. *)
Definition temperature_rules : list (string * (string * (Z * Z))) :=
  [ ("temperature", ("nozzle", (150, 300))); ("bed_temperature", ("bed", (0, 150))) ].

(** The top-level keys the four exporters read. *)
Definition exporter_reads : list string :=
  [ "op3d_schema"; "x_cura"; "x_prusaslicer"; "x_orca"; "x_bambu";
    "nozzle"; "bed"; "fan"; "material";
    "build_volume"; "extruders"; "manufacturer"; "model" ].

(** Further sample sections. *)
Definition calibrated_printer : ConfigParser :=
  [ ("printer", [ ("printer_model", "X1"); ("extruder_offset", "0x0");
                  ("nozzle_diameter", "0.4") ]) ].

Definition prusament : ConfigParser :=
  [ ("filament", [ ("filament_vendor", "Prusa Polymers"); ("filament_type", "PETG") ]) ].

Definition hot_end : ConfigParser := [ ("filament", [ ("temperature", "400") ]) ].

Definition wide_bed : ConfigParser :=
  [ ("printer", [ ("bed_shape", "0x0,250x0,250x210,0x210") ]) ].

(** The flattened views disagree at [k]: the key is missing on a side,
    or the two values are not equal. *)
Definition differs (flat1 flat2 : dict) (k : key) : bool :=
  negb (dict_mem flat1 k && dict_mem flat2 k
        && Compare.compare_values (dict_get_default flat1 k VNone)
                                  (dict_get_default flat2 k VNone)).

(** An entry of [differences] says what the flattened views hold. *)
Definition faithful (flat1 flat2 : dict) (d : Compare.difference) : Prop :=
  let k := Compare.diff_key d in
  match Compare.diff_status d with
  | Compare.only_in_profile2 =>
      dict_mem flat1 k = false
      /\ Compare.diff_profile1 d = VNone
      /\ Compare.diff_profile2 d = dict_get_default flat2 k VNone
  | Compare.only_in_profile1 =>
      dict_get flat1 k = Some (Compare.diff_profile1 d)
      /\ dict_mem flat2 k = false
      /\ Compare.diff_profile2 d = VNone
  | Compare.different =>
      dict_get flat1 k = Some (Compare.diff_profile1 d)
      /\ dict_get flat2 k = Some (Compare.diff_profile2 d)
      /\ Compare.compare_values (Compare.diff_profile1 d) (Compare.diff_profile2 d) = false
  end.

(** Every key is at most every later key. *)
Fixpoint ascending (l : list key) : bool :=
  match l with
  | [] => true
  | k :: r => forallb (Compare.key_leb k) r && ascending r
  end.

(** Texts without the separators 28 to 31, the characters [strip]
    removes and [float] does not skip. *)
Definition no_separator (s : string) : bool :=
  PyStr.forall_chars
    (fun c => negb (Nat.leb 28 (PyStr.code c) && Nat.leb (PyStr.code c) 31)) s.

(** ** The import scenario *)

(** C7: importing the minimal printer section (model X1, make Acme, nozzle
    diameter 0.4, a 250 by 250 bed shape) yields a profile whose [id] is
    "Acme/X1", whose [extruders[0].nozzle_diameter] equals 0.4 and whose
    [build_volume.x] and [build_volume.y] equal 250 (as Python's [==]). *)
Theorem minimal_printer_import :
  exists profile nd x y,
    Importer.convert_printer minimal_printer "printer" = Ok profile
    /\ Py.getpath profile [KStr "id"] = Ok (VStr "Acme/X1")
    /\ Py.getpath profile [KStr "extruders"; KInt 0; KStr "nozzle_diameter"] = Ok nd
    /\ Py.eq nd (Importer.dec 4 1) = true
    /\ Py.getpath profile [KStr "build_volume"; KStr "x"] = Ok x
    /\ Py.eq x (VInt 250) = true
    /\ Py.getpath profile [KStr "build_volume"; KStr "y"] = Ok y
    /\ Py.eq y (VInt 250) = true.
Proof.
  eexists; exists (Importer.dec 4 1), (VFloat (PyFloat.of_Z 250)), (VFloat (PyFloat.of_Z 250)).
  split; [vm_compute; reflexivity |].
  repeat split; vm_compute; reflexivity.
Qed.

(** ** Defects of the importer *)

(** C2: a filament section whose [temperature] is not a number. The
    mapping loop skips the field, but the rule that derives the
    temperature window reads the option again with [float] outside any
    [try], and [convert_filament] raises [ValueError]. *)
Theorem malformed_temperature_raises :
  Importer.convert Importer.conv_float "hot" = Raise ValueError
  /\ Importer.apply_mappings hot_filament "filament" Importer.FILAMENT_MAPPINGS
       Importer.filament_skeleton = Ok Importer.filament_skeleton
  /\ Importer.convert_filament hot_filament "filament" = Raise ValueError
  /\ Importer.convert_profile hot_filament "filament" = Raise ValueError.
Proof. repeat split; vm_compute; reflexivity. Qed.

(** C3: writing at "a.0.c" into [{"a": 5}]. The digit segment meets the
    scalar 5, the walk goes on in a fresh list the container never refers
    to, [set_nested] returns without an error and the container is
    unchanged: reading the path back fails, the value is lost. *)
Theorem scalar_prefix_write_is_lost :
  Importer.set_nested scalar_at_a "a.0.c" (VInt 1) = Ok scalar_at_a
  /\ Py.getpath scalar_at_a [KStr "a"; KInt 0; KStr "c"] = Raise TypeError.
Proof. split; vm_compute; reflexivity. Qed.

(** C6: writing at "tags.0" into [{"tags": []}]. The final segment is an
    index equal to the length of the list; the list is not padded and the
    assignment raises [IndexError], whereas the same index as an
    intermediate segment ("tags.0.x") pads the list. *)
Theorem final_index_is_not_padded :
  Importer.set_nested empty_tags "tags.0" (VStr "x") = Raise IndexError
  /\ Importer.set_nested empty_tags "tags.0.x" (VStr "x")
     = Ok (VDict [(KStr "tags", VList [VDict [(KStr "x", VStr "x")]])]).
Proof. split; vm_compute; reflexivity. Qed.

(** ** The exporters *)

Lemma eq_str_true (v : value) (s : string) :
  Py.eq v (VStr s) = true <-> v = VStr s.
Proof.
  destruct v; simpl; try (split; discriminate).
  rewrite String.eqb_eq. split; [intros -> | intros [= ->]]; reflexivity.
Qed.

Lemma schema_is_true (d : dict) (name : string) :
  schema_of d = VStr name ->
  Exporter.schema_is (schema_of d) name = true.
Proof. intros H. unfold Exporter.schema_is. apply eq_str_true, H. Qed.

Lemma schema_is_false (d : dict) (name : string) :
  schema_of d <> VStr name ->
  Exporter.schema_is (schema_of d) name = false.
Proof.
  intros H. unfold Exporter.schema_is.
  destruct (Py.eq (schema_of d) (VStr name)) eqn:E; [| reflexivity].
  apply eq_str_true in E. contradiction.
Qed.

(** Every exporter starts with the same three reads. *)
Ltac export_head s d :=
  destruct s; cbn [Exporter.converter Exporter.extension_key];
  unfold Exporter.convert_to_cura, Exporter.convert_to_prusaslicer,
         Exporter.convert_to_orca, Exporter.convert_to_bambu;
  cbn [Py.get bind]; fold (schema_of d).

(** C10: a profile whose [op3d_schema] is neither "filament" nor
    "printer" (a process profile, an unknown kind, no kind at all) is
    exported to each of the four dialects as the empty document, and no
    exporter raises. *)
Theorem export_other_kind_is_empty (s : Exporter.slicer) (d : dict) :
  schema_of d <> VStr "filament" ->
  schema_of d <> VStr "printer" ->
  Exporter.converter s (VDict d) = Ok (VDict []).
Proof.
  intros Hf Hp.
  export_head s d;
    rewrite (schema_is_false d "filament" Hf), (schema_is_false d "printer" Hp);
    reflexivity.
Qed.

Lemma export_other_kind_is_empty_witness :
  Exporter.converter Exporter.cura (VDict process_profile) = Ok (VDict [])
  /\ Exporter.converter Exporter.bambu (VDict process_profile) = Ok (VDict []).
Proof.
  split; apply export_other_kind_is_empty; vm_compute; discriminate.
Defined.

(** C4, as the code has it: a filament profile whose extension namespace
    for the dialect is non-empty is exported as exactly that namespace, on
    all four dialects; so is a printer profile on PrusaSlicer, Orca and
    Bambu. On Cura a printer profile with a non-empty [x_cura] dict is
    exported as the [definition_changes] entry of [x_cura], the empty
    document when there is none. *)
Theorem export_relays_extension (s : Exporter.slicer) (d : dict) :
  Py.truthy (extension_of s d) = true ->
  (schema_of d = VStr "filament"
   \/ (schema_of d = VStr "printer" /\ s <> Exporter.cura)
     -> Exporter.converter s (VDict d) = Ok (extension_of s d))
  /\ (schema_of d = VStr "printer" -> s = Exporter.cura ->
      forall x_cura, extension_of s d = VDict x_cura ->
      Exporter.converter s (VDict d)
      = Ok (dict_get_default x_cura (KStr "definition_changes") (VDict []))).
Proof.
  intros Ht. split.
  - intros [Hf | [Hp Hs]].
    + export_head s d; rewrite (schema_is_true d "filament" Hf);
        cbn [bind]; unfold extension_of in *; cbn [Exporter.extension_key] in *;
        rewrite Ht; reflexivity.
    + assert (Hnf : schema_of d <> VStr "filament") by (rewrite Hp; discriminate).
      export_head s d; try contradiction;
        rewrite (schema_is_false d "filament" Hnf), (schema_is_true d "printer" Hp);
        cbn [bind]; unfold extension_of in *; cbn [Exporter.extension_key] in *;
        rewrite Ht; reflexivity.
  - intros Hp -> x_cura Hx.
    assert (Hnf : schema_of d <> VStr "filament") by (rewrite Hp; discriminate).
    cbn [Exporter.converter]. unfold Exporter.convert_to_cura.
    cbn [Py.get bind]. fold (schema_of d).
    rewrite (schema_is_false d "filament" Hnf), (schema_is_true d "printer" Hp).
    cbn [bind]. unfold extension_of in *. cbn [Exporter.extension_key] in *.
    rewrite Ht, Hx. reflexivity.
Qed.

Lemma export_relays_extension_witness :
  Exporter.converter Exporter.cura (VDict filament_with_x_cura) = Ok cura_override
  /\ Exporter.converter Exporter.cura (VDict printer_with_x_cura) = Ok (VDict []).
Proof.
  split.
  - apply (proj1 (export_relays_extension Exporter.cura filament_with_x_cura eq_refl)).
    left. reflexivity.
  - apply (proj2 (export_relays_extension Exporter.cura printer_with_x_cura eq_refl)
             eq_refl eq_refl _ eq_refl).
Defined.

(** C4, as stated, fails: a printer profile whose [x_cura] block is
    [{"machine_width": 300}] is exported to Cura as the empty document,
    not as that block; a process profile with the same block is exported
    as the empty document too. *)
Lemma cura_printer_is_not_relayed :
  Py.truthy (extension_of Exporter.cura printer_with_x_cura) = true
  /\ Exporter.convert_to_cura (VDict printer_with_x_cura) = Ok (VDict [])
  /\ Py.eq (VDict []) (extension_of Exporter.cura printer_with_x_cura) = false
  /\ Exporter.convert_to_cura
       (VDict [(KStr "op3d_schema", VStr "process"); (KStr "x_cura", cura_override)])
     = Ok (VDict []).
Proof. repeat split; vm_compute; reflexivity. Qed.

(** ** Values: induction and equality *)

Section value_induction.

Variable P : value -> Prop.

Hypothesis P_none : P VNone.
Hypothesis P_bool : forall b, P (VBool b).
Hypothesis P_int : forall n, P (VInt n).
Hypothesis P_float : forall f, P (VFloat f).
Hypothesis P_str : forall s, P (VStr s).
Hypothesis P_list : forall l, Forall P l -> P (VList l).
Hypothesis P_dict : forall d, Forall (fun kv => P (snd kv)) d -> P (VDict d).

Fixpoint value_nested_ind (v : value) : P v :=
  match v with
  | VNone => P_none
  | VBool b => P_bool b
  | VInt n => P_int n
  | VFloat f => P_float f
  | VStr s => P_str s
  | VList l =>
      P_list l
        ((fix go (l : list value) : Forall P l :=
            match l with
            | [] => Forall_nil P
            | x :: r => Forall_cons x (value_nested_ind x) (go r)
            end) l)
  | VDict d =>
      P_dict d
        ((fix go (d : list (key * value)) : Forall (fun kv => P (snd kv)) d :=
            match d with
            | [] => Forall_nil _
            | kv :: r => Forall_cons kv (value_nested_ind (snd kv)) (go r)
            end) d)
  end.

End value_induction.

Lemma key_eqb_eq (a b : key) : key_eqb a b = true <-> a = b.
Proof.
  destruct a, b; simpl; try (split; discriminate).
  - rewrite String.eqb_eq. split; [intros -> | intros [= ->]]; reflexivity.
  - rewrite Z.eqb_eq. split; [intros -> | intros [= ->]]; reflexivity.
Qed.

Lemma key_eqb_refl (a : key) : key_eqb a a = true.
Proof. apply key_eqb_eq. reflexivity. Qed.

Lemma key_eqb_neq (a b : key) : a <> b -> key_eqb a b = false.
Proof.
  intros H. destruct (key_eqb a b) eqn:E; [| reflexivity].
  apply key_eqb_eq in E. contradiction.
Qed.

Lemma dict_get_set_same (d : dict) (k : key) (v : value) :
  dict_get (dict_set d k v) k = Some v.
Proof.
  induction d as [| [k' v'] r IH]; simpl.
  - rewrite key_eqb_refl. reflexivity.
  - destruct (key_eqb k' k) eqn:E; simpl; rewrite E; [reflexivity | exact IH].
Qed.

Lemma dict_get_set_other (d : dict) (k k' : key) (v : value) :
  k <> k' -> dict_get (dict_set d k v) k' = dict_get d k'.
Proof.
  intros Hne. induction d as [| [k0 v0] r IH]; simpl.
  - rewrite (key_eqb_neq k k' Hne). reflexivity.
  - destruct (key_eqb k0 k) eqn:E; simpl.
    + apply key_eqb_eq in E. subst k0.
      rewrite (key_eqb_neq k k' Hne). reflexivity.
    + destruct (key_eqb k0 k'); [reflexivity | exact IH].
Qed.

Lemma dict_get_in (d : dict) (k : key) (v : value) :
  dict_get d k = Some v -> In (k, v) d.
Proof.
  induction d as [| [k' v'] r IH]; simpl; [discriminate |].
  destruct (key_eqb k' k) eqn:E.
  - apply key_eqb_eq in E. intros [= ->]. left. subst. reflexivity.
  - intros H. right. apply IH, H.
Qed.

Lemma dict_get_distinct (d : dict) (k : key) (v : value) :
  distinct_keys (map fst d) = true -> In (k, v) d -> dict_get d k = Some v.
Proof.
  induction d as [| [k' v'] r IH]; simpl; [contradiction |].
  intros Hd [H | H].
  - injection H as -> ->. rewrite key_eqb_refl. reflexivity.
  - apply andb_prop in Hd as [Hn Hd].
    destruct (key_eqb k' k) eqn:E.
    + apply key_eqb_eq in E. subst k'.
      apply negb_true_iff in Hn.
      assert (Hex : existsb (key_eqb k) (map fst r) = true).
      { apply existsb_exists. exists k. split; [| apply key_eqb_refl].
        apply (in_map fst) in H. exact H. }
      congruence.
    + apply IH; assumption.
Qed.

Lemma float_compare_refl (f : PyFloat.float) :
  PyFloat.is_nan f = false -> SFcompare f f = Some Eq.
Proof.
  destruct f as [s | s | | s m e]; simpl; try discriminate; intros _.
  - reflexivity.
  - destruct s; reflexivity.
  - destruct s; rewrite Z.compare_refl, Pos.compare_cont_refl; reflexivity.
Qed.

(** ** The flattened view and the diff *)

Lemma dict_set_in (d : dict) (k : key) (v : value) (kv : key * value) :
  In kv (dict_set d k v) -> kv = (k, v) \/ In kv d.
Proof.
  induction d as [| [k' v'] r IH]; simpl.
  - intros [H | []]. left. symmetry. exact H.
  - destruct (key_eqb k' k) eqn:E; simpl.
    + apply key_eqb_eq in E. subst k'.
      intros [H | H]; [left; symmetry; exact H | right; right; exact H].
    + intros [H | H]; [right; left; exact H |].
      destruct (IH H) as [H' | H']; [left; exact H' | right; right; exact H'].
Qed.

Lemma dict_of_items_in (items : list (key * value)) (kv : key * value) :
  In kv (dict_of_items items) -> In kv items.
Proof.
  unfold dict_of_items.
  enough (H : forall acc, In kv (fold_left (fun d e => dict_set d (fst e) (snd e)) items acc)
                          -> In kv acc \/ In kv items).
  { intros Hin. destruct (H [] Hin) as [[] | Hi]. exact Hi. }
  induction items as [| [k v] r IH]; simpl; intros acc Hin.
  - left. exact Hin.
  - destruct (IH _ Hin) as [Hs | Hr]; [| right; right; exact Hr].
    destruct (dict_set_in _ _ _ _ Hs) as [-> | Ha]; [right; left; reflexivity | left; exact Ha].
Qed.

Lemma new_key_is_str (parent : key) (sep : string) (k : key) :
  is_str_key k = true -> is_str_key (Compare.new_key parent sep k) = true.
Proof.
  intros Hk. unfold Compare.new_key. destruct (Compare.key_truthy parent); [reflexivity | exact Hk].
Qed.

Lemma union_keys_self (l : list key) : Compare.union_keys l l = l.
Proof.
  unfold Compare.union_keys.
  enough (H : forall l', incl l' l ->
                filter (fun k => negb (existsb (key_eqb k) l)) l' = []).
  { rewrite (H l (incl_refl l)). apply app_nil_r. }
  induction l' as [| k r IH]; intros Hincl; [reflexivity |].
  simpl.
  assert (Hex : existsb (key_eqb k) l = true).
  { apply existsb_exists. exists k. split; [apply Hincl; left; reflexivity | apply key_eqb_refl]. }
  rewrite Hex. simpl. apply IH. intros x Hx. apply Hincl. right. exact Hx.
Qed.

Lemma insert_key_perm (k : key) (l : list key) :
  Permutation (Compare.insert_key k l) (k :: l).
Proof.
  induction l as [| x r IH]; simpl; [apply Permutation_refl |].
  destruct (Compare.key_leb k x); [apply Permutation_refl |].
  apply perm_trans with (x :: k :: r); [apply perm_skip, IH | apply perm_swap].
Qed.

Lemma sort_keys_perm (l : list key) : Permutation (Compare.sort_keys l) l.
Proof.
  induction l as [| k r IH]; simpl; [apply perm_nil |].
  apply perm_trans with (k :: Compare.sort_keys r);
    [apply insert_key_perm | apply perm_skip, IH].
Qed.

Lemma sorted_str_keys (l : list key) :
  Forall (fun k => is_str_key k = true) l ->
  Compare.sorted l = Ok (Compare.sort_keys l).
Proof.
  intros H. destruct l as [| x r]; [reflexivity |].
  unfold Compare.sorted.
  inversion H as [| ? ? Hx Hr]; subst.
  assert (Hall : forallb (Compare.same_kind x) r = true).
  { apply forallb_forall. intros y Hy. rewrite Forall_forall in Hr.
    specialize (Hr y Hy). destruct x, y; simpl in *; congruence. }
  rewrite Hall. reflexivity.
Qed.

(** Every difference the loop reports is one of the three kinds, for the
    reason the code tests. *)
Lemma compare_keys_difference (flat1 flat2 : dict) (show_common : bool)
    (keys : list key) (d : Compare.difference) :
  In d (fst (Compare.compare_keys flat1 flat2 show_common keys)) ->
  dict_mem flat1 (Compare.diff_key d) = false
  \/ dict_mem flat2 (Compare.diff_key d) = false
  \/ Compare.compare_values
       (dict_get_default flat1 (Compare.diff_key d) VNone)
       (dict_get_default flat2 (Compare.diff_key d) VNone) = false.
Proof.
  induction keys as [| k r IH]; [intros [] |].
  cbn [Compare.compare_keys].
  destruct (Compare.compare_keys flat1 flat2 show_common r) as [ds cs].
  simpl in IH.
  destruct (dict_mem flat1 k) eqn:E1; cbn [negb].
  - destruct (dict_mem flat2 k) eqn:E2; cbn [negb].
    + destruct (Compare.compare_values (dict_get_default flat1 k VNone)
                                        (dict_get_default flat2 k VNone)) eqn:E3; cbn [negb].
      * destruct show_common; simpl; exact IH.
      * simpl. intros [<- | H]; [| exact (IH H)]. simpl. right. right. exact E3.
    + simpl. intros [<- | H]; [| exact (IH H)]. simpl. right. left. exact E2.
  - simpl. intros [<- | H]; [| exact (IH H)]. simpl. left. exact E1.
Qed.

(** A key of both views whose values compare equal is listed as common
    when common values are requested. *)
Lemma compare_keys_common (flat1 flat2 : dict) (keys : list key) (k : key) :
  In k keys ->
  dict_mem flat1 k = true -> dict_mem flat2 k = true ->
  Compare.compare_values (dict_get_default flat1 k VNone)
                         (dict_get_default flat2 k VNone) = true ->
  In {| Compare.common_key := k; Compare.common_value := dict_get_default flat1 k VNone |}
     (snd (Compare.compare_keys flat1 flat2 true keys)).
Proof.
  intros Hin H1 H2 Hc.
  induction keys as [| k' r IH]; [destruct Hin |].
  cbn [Compare.compare_keys].
  destruct (Compare.compare_keys flat1 flat2 true r) as [ds cs].
  simpl in IH.
  destruct Hin as [-> | Hin].
  - rewrite H1, H2, Hc. simpl. left. reflexivity.
  - specialize (IH Hin).
    destruct (dict_mem flat1 k'); cbn [negb]; [| exact IH].
    destruct (dict_mem flat2 k'); cbn [negb]; [| exact IH].
    destruct (Compare.compare_values (dict_get_default flat1 k' VNone)
                                     (dict_get_default flat2 k' VNone));
      cbn [negb]; [right; exact IH | exact IH].
Qed.

Lemma dict_get_of_key (d : dict) (k : key) :
  In k (dict_keys d) -> exists v, dict_get d k = Some v.
Proof.
  unfold dict_keys. induction d as [| [k' v'] r IH]; simpl; [intros [] |].
  destruct (key_eqb k' k) eqn:E; [intros _; exists v'; reflexivity |].
  intros [H | H]; [| apply IH, H].
  simpl in H. subst k'. rewrite key_eqb_refl in E. discriminate.
Qed.

Lemma dict_mem_keys (d : dict) (k : key) (v : value) :
  dict_get d k = Some v -> In k (dict_keys d).
Proof.
  intros H. apply dict_get_in in H. unfold dict_keys.
  change k with (fst (k, v)). apply in_map, H.
Qed.

Lemma comparison_of_dicts (d1 d2 : dict) (show_common : bool) (keys : list key) :
  Compare.sorted (Compare.union_keys (dict_keys (flat (VDict d1)))
                                     (dict_keys (flat (VDict d2)))) = Ok keys ->
  exists r,
    Compare.compare_profiles (VDict d1) (VDict d2) show_common = Ok r
    /\ Compare.differences r
       = fst (Compare.compare_keys (flat (VDict d1)) (flat (VDict d2)) show_common keys)
    /\ Compare.common r
       = snd (Compare.compare_keys (flat (VDict d1)) (flat (VDict d2)) show_common keys)
    /\ Compare.n_common (Compare.stats r) = length (Compare.common r)
    /\ Compare.n_only_in_profile1 (Compare.stats r)
       = Compare.count_status Compare.only_in_profile1 (Compare.differences r)
    /\ Compare.n_only_in_profile2 (Compare.stats r)
       = Compare.count_status Compare.only_in_profile2 (Compare.differences r)
    /\ Compare.n_modified (Compare.stats r)
       = Compare.count_status Compare.different (Compare.differences r).
Proof.
  intros Hs. unfold Compare.compare_profiles, Compare.flatten_dict.
  cbn [bind]. fold (flat (VDict d1)). fold (flat (VDict d2)).
  rewrite Hs. cbn [bind].
  destruct (Compare.compare_keys (flat (VDict d1)) (flat (VDict d2)) show_common keys)
    as [ds cs].
  eexists. split; [reflexivity |]. cbn. repeat split.
Qed.

Lemma flatten_entries (entries : dict) (parent : key) (sep : string) :
  Compare.flatten (VDict entries) parent sep
  = dict_of_items
      (flat_map (fun kv : key * value =>
                   match snd kv with
                   | VDict _ => Compare.flatten (snd kv) (Compare.new_key parent sep (fst kv)) sep
                   | _ => [(Compare.new_key parent sep (fst kv), snd kv)]
                   end) entries).
Proof.
  cbn [Compare.flatten]. f_equal. apply flat_map_ext. intros [k v]. reflexivity.
Qed.

Lemma dict_set_fresh (d : dict) (k : key) (v : value) :
  existsb (key_eqb k) (map fst d) = false -> dict_set d k v = (d ++ [(k, v)])%list.
Proof.
  induction d as [| [k' v'] r IH]; [reflexivity |].
  cbn [map fst existsb dict_set]. intros H. apply orb_false_elim in H as [H1 H2].
  assert (E : key_eqb k' k = false).
  { destruct (key_eqb k' k) eqn:E; [| reflexivity].
    apply key_eqb_eq in E. subst k'. rewrite key_eqb_refl in H1. discriminate. }
  rewrite E, (IH H2). reflexivity.
Qed.

Lemma existsb_app_false {A : Type} (f : A -> bool) (l1 l2 : list A) :
  existsb f (l1 ++ l2) = false <-> existsb f l1 = false /\ existsb f l2 = false.
Proof. rewrite existsb_app. apply orb_false_iff. Qed.

Lemma dict_of_items_distinct (items : dict) :
  distinct_keys (map fst items) = true -> dict_of_items items = items.
Proof.
  unfold dict_of_items.
  enough (H : forall acc,
             distinct_keys (map fst items) = true ->
             (forall k, In k (map fst items) -> existsb (key_eqb k) (map fst acc) = false) ->
             fold_left (fun d kv => dict_set d (fst kv) (snd kv)) items acc = (acc ++ items)%list).
  { intros Hd. apply (H [] Hd). reflexivity. }
  induction items as [| [k v] r IH]; intros acc Hd Hacc.
  - cbn. rewrite app_nil_r. reflexivity.
  - cbn [map fst distinct_keys] in Hd. apply andb_prop in Hd as [Hk Hd].
    apply negb_true_iff in Hk.
    cbn [fold_left fst snd]. rewrite dict_set_fresh by (apply Hacc; left; reflexivity).
    rewrite IH; [rewrite <- app_assoc; reflexivity | exact Hd |].
    intros k' Hk'. rewrite map_app. apply existsb_app_false. split.
    + apply Hacc. right. exact Hk'.
    + cbn [map fst existsb]. rewrite orb_false_r.
      destruct (key_eqb k' k) eqn:E; [| reflexivity].
      apply key_eqb_eq in E. subst k'.
      assert (Hex : existsb (key_eqb k) (map fst r) = true).
      { apply existsb_exists. exists k. split; [exact Hk' | apply key_eqb_refl]. }
      congruence.
Qed.

Lemma compare_keys_by_values (flat1 flat2 : dict) (show_common : bool) (keys : list key) :
  Compare.compare_keys_by Compare.compare_values flat1 flat2 show_common keys
  = Compare.compare_keys flat1 flat2 show_common keys.
Proof.
  induction keys as [| k r IH]; [reflexivity |].
  cbn [Compare.compare_keys_by Compare.compare_keys]. rewrite IH. reflexivity.
Qed.

Lemma compare_profiles_by_values (profile1 profile2 : value) (show_common : bool) :
  Compare.compare_profiles_by Compare.compare_values profile1 profile2 show_common
  = Compare.compare_profiles profile1 profile2 show_common.
Proof.
  unfold Compare.compare_profiles_by, Compare.compare_profiles.
  destruct (Compare.flatten_dict profile1 (KStr "") ".") as [flat1 |]; [| reflexivity].
  destruct (Compare.flatten_dict profile2 (KStr "") ".") as [flat2 |]; [| reflexivity].
  cbn [bind]. destruct (Compare.sorted _) as [keys |]; [| reflexivity].
  cbn [bind]. rewrite compare_keys_by_values. reflexivity.
Qed.

Lemma distinct_keys_app (l1 l2 : list key) :
  distinct_keys (l1 ++ l2) = true ->
  distinct_keys l1 = true /\ distinct_keys l2 = true.
Proof.
  induction l1 as [| k r IH]; [intros H; split; [reflexivity | exact H] |].
  cbn [app distinct_keys]. intros H. apply andb_prop in H as [Hk H].
  destruct (IH H) as [H1 H2]. split; [| exact H2].
  rewrite H1, andb_true_r. apply negb_true_iff. apply negb_true_iff in Hk.
  rewrite existsb_app in Hk. apply orb_false_elim in Hk as [Hk _]. exact Hk.
Qed.

Lemma flatten_leaves (v : value) :
  forall parent,
    distinct_keys (map fst (leaves v parent)) = true ->
    Compare.flatten v parent "." = leaves v parent.
Proof.
  induction v as [| b | n | f | s | l IH | d IH] using value_nested_ind;
    intros parent Hd; try reflexivity.
  rewrite flatten_entries.
  assert (E : flat_map
                (fun kv : key * value =>
                   match snd kv with
                   | VDict _ => Compare.flatten (snd kv) (Compare.new_key parent "." (fst kv)) "."
                   | _ => [(Compare.new_key parent "." (fst kv), snd kv)]
                   end) d
              = leaves (VDict d) parent).
  { cbn [leaves]. cbn [leaves] in Hd.
    induction d as [| [k x] r IHr]; [reflexivity |].
    cbn [flat_map fst snd] in *. rewrite map_app in Hd.
    apply distinct_keys_app in Hd as [Hx Hr].
    inversion IH as [| ? ? IHx IHrest]; subst. cbn [snd] in IHx.
    rewrite (IHr IHrest Hr). f_equal.
    destruct x; try reflexivity. apply IHx. exact Hx. }
  rewrite E. apply dict_of_items_distinct. exact Hd.
Qed.

Lemma flatten_str_keys (v : value) :
  forall parent,
    json_doc v = true ->
    Forall (fun kv : key * value => is_str_key (fst kv) = true) (Compare.flatten v parent ".").
Proof.
  induction v as [| b | n | f | s | l IH | d IH] using value_nested_ind;
    intros parent Hj; try (apply Forall_nil).
  cbn [Compare.flatten]. apply Forall_forall. intros kv Hin.
  apply dict_of_items_in in Hin. apply in_flat_map in Hin as [[k x] [Hkx Hin]].
  simpl in Hj.
  apply andb_prop in Hj as [Hj Hj3]. apply andb_prop in Hj as [Hj1 _].
  rewrite forallb_forall in Hj1, Hj3.
  assert (Hk : is_str_key k = true) by (apply Hj1, (in_map fst _ _ Hkx)).
  pose proof (Hj3 _ Hkx) as Hjx. simpl in Hjx.
  rewrite Forall_forall in IH. pose proof (IH _ Hkx) as IHx. simpl in IHx.
  destruct x;
    try (destruct Hin as [<- | []]; cbn [fst]; apply new_key_is_str, Hk).
  specialize (IHx (Compare.new_key parent "." k) Hjx).
  rewrite Forall_forall in IHx. apply IHx, Hin.
Qed.

Lemma compare_values_same_true (v : value) :
  is_nan_value v = false -> Compare.compare_values_same v = true.
Proof.
  destruct v; try reflexivity. cbn. intros H.
  unfold PyFloat.eqb, SFeqb. rewrite (float_compare_refl f H). reflexivity.
Qed.

(** The loop of the comparison when both sides are one flattened view
    of the same objects: every key is common. *)
Lemma compare_keys_same (flat1 : dict) (show_common : bool) (keys : list key) :
  Forall (fun k => exists v, dict_get flat1 k = Some v
                             /\ Compare.compare_values_same v = true) keys ->
  fst (Compare.compare_keys_by (fun v _ => Compare.compare_values_same v)
         flat1 flat1 show_common keys) = []
  /\ length (snd (Compare.compare_keys_by (fun v _ => Compare.compare_values_same v)
                    flat1 flat1 show_common keys))
     = if show_common then length keys else O.
Proof.
  induction keys as [| k r IH]; intros H.
  - simpl. destruct show_common; split; reflexivity.
  - inversion H as [| ? ? [v [Hv Hc]] Hr]; subst.
    destruct (IH Hr) as [IH1 IH2].
    cbn [Compare.compare_keys_by].
    destruct (Compare.compare_keys_by _ flat1 flat1 show_common r) as [ds cs].
    simpl in IH1, IH2. subst ds.
    unfold dict_mem, dict_get_default. rewrite Hv. cbn [negb]. rewrite Hc. cbn [negb].
    destruct show_common; simpl; split; congruence.
Qed.

(** C8, as the code has it: for every profile [P] as [json.load] returns
    it (string keys, no key twice in an object) whose flattened view
    holds no NaN as a value, comparing [P] with itself succeeds and lists
    no entry as only in one profile or as different; the common entries
    are as many as the keys of the flattened view when common values are
    requested (none otherwise), which is the number of leaf keys of [P]
    when no two leaves of [P] have the same dotted key. A NaN inside a
    list is no obstacle: the list is one object on both sides. *)
Theorem self_diff_is_empty (P : dict) (show_common : bool) :
  json_doc (VDict P) = true ->
  nan_leaf_free (VDict P) = true ->
  exists r,
    Compare.compare_self (VDict P) show_common = Ok r
    /\ Compare.differences r = []
    /\ Compare.n_only_in_profile1 (Compare.stats r) = O
    /\ Compare.n_only_in_profile2 (Compare.stats r) = O
    /\ Compare.n_modified (Compare.stats r) = O
    /\ Compare.n_common (Compare.stats r) = length (Compare.common r)
    /\ length (Compare.common r)
       = (if show_common then length (flat (VDict P)) else O)
    /\ (show_common = true ->
        distinct_keys (leaf_keys (VDict P)) = true ->
        length (Compare.common r) = length (leaf_keys (VDict P))).
Proof.
  intros Hj Hn.
  pose proof (flatten_str_keys (VDict P) (KStr "") Hj) as Hkeys.
  fold (flat (VDict P)) in Hkeys. unfold nan_leaf_free in Hn.
  assert (Hflat : distinct_keys (leaf_keys (VDict P)) = true ->
                  length (flat (VDict P)) = length (leaf_keys (VDict P))).
  { intros Hd. unfold flat, leaf_keys. rewrite (flatten_leaves _ _ Hd).
    symmetry. apply length_map. }
  set (f := flat (VDict P)) in *.
  assert (Hstr : Forall (fun k => is_str_key k = true) (dict_keys f)).
  { unfold dict_keys. apply Forall_forall. intros k Hk.
    apply in_map_iff in Hk as [kv [<- Hkv]].
    rewrite Forall_forall in Hkeys. apply (Hkeys kv Hkv). }
  assert (Hsorted : Compare.sorted (Compare.union_keys (dict_keys f) (dict_keys f))
                    = Ok (Compare.sort_keys (dict_keys f))).
  { rewrite union_keys_self. apply sorted_str_keys, Hstr. }
  assert (Hall : Forall (fun k => exists v, dict_get f k = Some v
                                            /\ Compare.compare_values_same v = true)
                        (Compare.sort_keys (dict_keys f))).
  { apply Forall_forall. intros k Hk.
    apply (Permutation_in _ (sort_keys_perm (dict_keys f))) in Hk.
    destruct (dict_get_of_key f k Hk) as [v Hv]. exists v. split; [exact Hv |].
    apply dict_get_in in Hv. rewrite forallb_forall in Hn.
    apply compare_values_same_true, negb_true_iff. apply (Hn _ Hv). }
  destruct (compare_keys_same f show_common _ Hall) as [Hds Hcs].
  unfold Compare.compare_self, Compare.compare_profiles_by, Compare.flatten_dict.
  cbn [bind]. fold (flat (VDict P)). fold f. rewrite Hsorted. cbn [bind].
  destruct (Compare.compare_keys_by _ f f show_common (Compare.sort_keys (dict_keys f)))
    as [ds cs].
  cbn [fst snd] in Hds, Hcs. subst ds.
  eexists. split; [reflexivity |]. cbn.
  assert (Hlen : length (Compare.sort_keys (dict_keys f)) = length f).
  { rewrite (Permutation_length (sort_keys_perm (dict_keys f))).
    unfold dict_keys. apply length_map. }
  rewrite Hlen in Hcs.
  repeat split; try reflexivity; try exact Hcs.
  intros -> Hd. rewrite Hcs. apply Hflat, Hd.
Qed.

Lemma self_diff_is_empty_witness :
  exists r,
    Compare.compare_self nan_in_list true = Ok r
    /\ Compare.differences r = []
    /\ length (Compare.common r) = 1%nat.
Proof.
  destruct (self_diff_is_empty [ (KStr "a", VList [ VFloat PyFloat.nan ]) ] true
              Logic.eq_refl Logic.eq_refl)
    as (r & Hr & Hd & _ & _ & _ & _ & _ & Hc).
  exists r. split; [exact Hr |]. split; [exact Hd |].
  apply (Hc Logic.eq_refl Logic.eq_refl).
Defined.

(** C8, as stated, fails twice. The profile [{"a": NaN}], which
    [json.load] reads from the text [{"a": NaN}], differs from itself at
    "a", since a NaN is not equal to itself. And the profile
    [{"a": {"b": 1}, "a.b": 2}] has two leaves with the dotted key "a.b",
    of which the flattened view keeps one: one common entry for two leaf
    keys. *)
Lemma nan_leaf_and_shadowed_leaf :
  (json_doc nan_leaf = true
   /\ exists r,
        Compare.compare_self nan_leaf true = Ok r
        /\ map Compare.diff_key (Compare.differences r) = [KStr "a"]
        /\ map Compare.diff_status (Compare.differences r) = [Compare.different]
        /\ Compare.n_modified (Compare.stats r) = 1%nat
        /\ Compare.common r = []
        /\ leaf_keys nan_leaf = [KStr "a"])
  /\ (json_doc shadowed_leaf = true
      /\ nan_leaf_free shadowed_leaf = true
      /\ exists r,
           Compare.compare_self shadowed_leaf true = Ok r
           /\ Compare.differences r = []
           /\ map Compare.common_key (Compare.common r) = [KStr "a.b"]
           /\ leaf_keys shadowed_leaf = [KStr "a.b"; KStr "a.b"]).
Proof.
  split.
  - split; [reflexivity |]. eexists. split; [vm_compute; reflexivity |].
    repeat split.
  - split; [reflexivity |]. split; [reflexivity |].
    eexists. split; [vm_compute; reflexivity |]. repeat split.
Qed.

(** C5, as the code has it: values are compared with Python's [==],
    under which numbers are equal by value whatever their type. A leaf
    that holds the integer 50 in one profile and the float 50.0 in the
    other is never reported as a difference, and it is listed as common
    when common values are requested; the text "50" and the number 50
    are not equal. *)
Theorem int_float_leaf_is_common (profile1 profile2 : dict) (show_common : bool)
    (r : Compare.comparison) (k : key) :
  Compare.compare_profiles (VDict profile1) (VDict profile2) show_common = Ok r ->
  dict_get (flat (VDict profile1)) k = Some (VInt 50) ->
  dict_get (flat (VDict profile2)) k = Some (VFloat (PyFloat.of_Z 50)) ->
  (forall d, In d (Compare.differences r) -> Compare.diff_key d <> k)
  /\ (show_common = true ->
      In {| Compare.common_key := k; Compare.common_value := VInt 50 |} (Compare.common r))
  /\ Compare.compare_values (VStr "50") (VInt 50) = false.
Proof.
  intros Hr H1 H2.
  destruct (Compare.sorted (Compare.union_keys (dict_keys (flat (VDict profile1)))
                                               (dict_keys (flat (VDict profile2)))))
    as [keys | e] eqn:Hs.
  2:{ unfold Compare.compare_profiles, Compare.flatten_dict in Hr. cbn [bind] in Hr.
      fold (flat (VDict profile1)) in Hr. fold (flat (VDict profile2)) in Hr.
      rewrite Hs in Hr. discriminate. }
  destruct (comparison_of_dicts profile1 profile2 show_common keys Hs)
    as [r' [Hr' [Hd [Hc _]]]].
  rewrite Hr in Hr'. injection Hr' as <-.
  assert (Hm1 : dict_mem (flat (VDict profile1)) k = true)
    by (unfold dict_mem; rewrite H1; reflexivity).
  assert (Hm2 : dict_mem (flat (VDict profile2)) k = true)
    by (unfold dict_mem; rewrite H2; reflexivity).
  assert (Hv : Compare.compare_values
                 (dict_get_default (flat (VDict profile1)) k VNone)
                 (dict_get_default (flat (VDict profile2)) k VNone) = true)
    by (unfold dict_get_default; rewrite H1, H2; vm_compute; reflexivity).
  split; [| split; [| reflexivity]].
  - intros d Hin Hk. rewrite Hd in Hin.
    apply compare_keys_difference in Hin. rewrite Hk in Hin.
    destruct Hin as [H | [H | H]]; congruence.
  - intros ->. rewrite Hc.
    assert (Hin : In k keys).
    { unfold Compare.sorted in Hs.
      destruct (Compare.union_keys _ _) as [| x l] eqn:Hu.
      - apply dict_mem_keys in H1.
        assert (Hku : In k (Compare.union_keys (dict_keys (flat (VDict profile1)))
                                               (dict_keys (flat (VDict profile2)))))
          by (unfold Compare.union_keys; apply in_or_app; left; exact H1).
        rewrite Hu in Hku. destruct Hku.
      - destruct (forallb (Compare.same_kind x) l); [| discriminate].
        injection Hs as <-.
        apply (Permutation_in _ (Permutation_sym (sort_keys_perm (x :: l)))).
        rewrite <- Hu. unfold Compare.union_keys. apply in_or_app. left.
        apply (dict_mem_keys _ _ _ H1). }
    pose proof (compare_keys_common _ _ keys k Hin Hm1 Hm2 Hv) as Hcommon.
    unfold dict_get_default in Hcommon at 1. rewrite H1 in Hcommon. exact Hcommon.
Qed.

Lemma int_float_leaf_is_common_witness :
  exists r,
    Compare.compare_profiles int_fifty float_fifty true = Ok r
    /\ (forall d, In d (Compare.differences r) -> Compare.diff_key d <> KStr "a")
    /\ In {| Compare.common_key := KStr "a"; Compare.common_value := VInt 50 |}
          (Compare.common r).
Proof.
  eexists. split; [vm_compute; reflexivity |].
  pose proof (int_float_leaf_is_common
                [(KStr "a", VInt 50)] [(KStr "a", VFloat (PyFloat.of_Z 50))] true _
                (KStr "a") Logic.eq_refl Logic.eq_refl Logic.eq_refl) as [H1 [H2 _]].
  split; [exact H1 | exact (H2 Logic.eq_refl)].
Defined.

(** C5, as stated, fails: comparing [{"a": 50}] with [{"a": 50.0}]
    reports no difference, and "a" is a common key. *)
Lemma int_and_float_fifty_are_equal :
  Compare.compare_values (VInt 50) (VFloat (PyFloat.of_Z 50)) = true
  /\ exists r,
       Compare.compare_profiles int_fifty float_fifty true = Ok r
       /\ Compare.differences r = []
       /\ Compare.n_modified (Compare.stats r) = O
       /\ map Compare.common_key (Compare.common r) = [KStr "a"].
Proof.
  split; [vm_compute; reflexivity |].
  eexists. split; [vm_compute; reflexivity |]. repeat split.
Qed.

(** ** Writes that leave a path alone *)

Lemma bind_ok {A B : Type} (r : result A) (k : A -> result B) (y : B) :
  (x <- r ;; k x) = Ok y -> exists a, r = Ok a /\ k a = Ok y.
Proof. destruct r as [a | e]; simpl; [intros H; exists a; auto | discriminate]. Qed.

Lemma segment_key_str (s : string) : PyStr.isdigit s = false -> segment_key s = KStr s.
Proof. intros H. unfold segment_key. rewrite H. reflexivity. Qed.

Lemma diverges_nil_r (p : list string) : diverges p [] = false.
Proof. destruct p; reflexivity. Qed.

Lemma diverges_cons (a b : string) (p q : list string) :
  diverges (a :: p) (b :: q) = true ->
  PyStr.isdigit a = false /\ PyStr.isdigit b = false
  /\ (a = b /\ diverges p q = true \/ a <> b).
Proof.
  simpl. intros H.
  apply andb_prop in H as [H H3]. apply andb_prop in H as [H1 H2].
  apply negb_true_iff in H1, H2. repeat split; try assumption.
  destruct (String.eqb_spec a b); [left; split; assumption | right; assumption].
Qed.

Lemma getpath_empty_dict (k : key) (ks : list key) :
  Py.getpath (VDict []) (k :: ks) = Raise KeyError.
Proof. reflexivity. Qed.

Lemma getpath_one (v : value) (k : key) : Py.getpath v [k] = Py.getitem v k.
Proof. cbn [Py.getpath]. destruct (Py.getitem v k); reflexivity. Qed.

Lemma setitem_str_ok (v : value) (k : string) (x v' : value) :
  Py.setitem v (KStr k) x = Ok v' ->
  exists m, v = VDict m /\ v' = VDict (dict_set m (KStr k) x).
Proof.
  destruct v; simpl; try discriminate.
  intros [= <-]. eexists. split; reflexivity.
Qed.

Lemma getitem_str_ok (v : value) (k : string) (x : value) :
  Py.getitem v (KStr k) = Ok x ->
  exists m, v = VDict m /\ dict_get m (KStr k) = Some x.
Proof.
  destruct v; simpl; try discriminate.
  destruct (dict_get d (KStr k)) eqn:E; [| discriminate].
  intros [= <-]. eexists. split; [reflexivity | exact E].
Qed.

Lemma kstr_neq (a b : string) : a <> b -> KStr b <> KStr a.
Proof. intros H [= E]. apply H. symmetry. exact E. Qed.

(** [v[k1]...[kn] = x] does not change what is read at a path that parts
    ways with [k1 ... kn]. *)
Lemma setpath_frame (ks : list string) :
  forall (k : string) (x : value) (p : list string) (v v' : value),
    diverges p (k :: ks) = true ->
    Py.setpath v (KStr k) (map KStr ks) x = Ok v' ->
    Py.getpath v' (map segment_key p) = Py.getpath v (map segment_key p).
Proof.
  induction ks as [| k' r IH]; intros k x p v v' Hdiv Hset;
    destruct p as [| a p']; try discriminate;
    apply diverges_cons in Hdiv as [Ha [Hk Hcase]];
    cbn [map]; rewrite (segment_key_str a Ha).
  - cbn [map Py.setpath] in Hset.
    apply setitem_str_ok in Hset as [m [-> ->]].
    destruct Hcase as [[_ Hd] | Hne]; [rewrite diverges_nil_r in Hd; discriminate |].
    cbn [Py.getpath Py.getitem]. rewrite (dict_get_set_other m _ _ x (kstr_neq _ _ Hne)).
    reflexivity.
  - cbn [map Py.setpath] in Hset.
    apply bind_ok in Hset as [child [Hget Hset]].
    apply bind_ok in Hset as [child' [Hrec Hset]].
    apply getitem_str_ok in Hget as [m [-> Hm]].
    apply setitem_str_ok in Hset as [m' [[= <-] ->]].
    cbn [Py.getpath Py.getitem].
    destruct Hcase as [[-> Hd] | Hne].
    + rewrite dict_get_set_same, Hm. cbn [bind].
      apply (IH k' x p' child child' Hd Hrec).
    + rewrite (dict_get_set_other m _ _ child' (kstr_neq _ _ Hne)). reflexivity.
Qed.

Lemma setitem_frame (k : string) (x : value) (p : list string) (v v' : value) :
  diverges p [k] = true ->
  Py.setitem v (KStr k) x = Ok v' ->
  Py.getpath v' (map segment_key p) = Py.getpath v (map segment_key p).
Proof. intros Hd Hs. exact (setpath_frame [] k x p v v' Hd Hs). Qed.

(** The walk of [set_nested] does not change what is read at a path that
    parts ways with the one it writes. *)
Lemma set_keys_frame (keys : list string) :
  forall (final_key : string) (x : value) (p : list string) (d d' : value),
    diverges p (keys ++ [final_key]) = true ->
    Importer.set_keys keys final_key x d = Ok d' ->
    Py.getpath d' (map segment_key p) = Py.getpath d (map segment_key p).
Proof.
  induction keys as [| key rest IH]; intros final_key x p d d' Hdiv Hset;
    destruct p as [| a p']; try discriminate;
    apply diverges_cons in Hdiv as [Ha [Hk Hcase]];
    cbn [map]; rewrite (segment_key_str a Ha).
  - cbn [Importer.set_keys] in Hset. rewrite Hk in Hset.
    apply setitem_str_ok in Hset as [m [-> ->]].
    destruct Hcase as [[_ Hd] | Hne]; [rewrite diverges_nil_r in Hd; discriminate |].
    cbn [Py.getpath Py.getitem]. rewrite (dict_get_set_other m _ _ x (kstr_neq _ _ Hne)).
    reflexivity.
  - cbn [Importer.set_keys] in Hset. rewrite Hk in Hset.
    destruct d as [| | | | | | m]; try discriminate.
    apply bind_ok in Hset as [child [Hget Hset]].
    apply bind_ok in Hset as [child' [Hrec Hset]].
    apply getitem_str_ok in Hget as [m' [[= <-] Hm']].
    apply setitem_str_ok in Hset as [m'' [[= <-] ->]].
    cbn [Py.getpath Py.getitem].
    destruct Hcase as [[-> Hd] | Hne].
    + rewrite dict_get_set_same. cbn [bind].
      rewrite (IH final_key x p' child child' Hd Hrec).
      unfold dict_mem in Hm'.
      destruct (dict_get m (KStr key)) as [c |] eqn:E.
      * rewrite E in Hm'. injection Hm' as ->. reflexivity.
      * rewrite dict_get_set_same in Hm'. injection Hm' as <-.
        destruct p' as [| b p'']; [discriminate |]. reflexivity.
    + rewrite (dict_get_set_other _ _ _ child' (kstr_neq _ _ Hne)).
      unfold dict_mem.
      destruct (dict_get m (KStr key)); [reflexivity |].
      rewrite (dict_get_set_other m _ _ (VDict []) (kstr_neq _ _ Hne)). reflexivity.
Qed.

Lemma split_not_nil (sep : ascii) (s : string) : PyStr.split sep s <> [].
Proof.
  destruct s as [| c r]; simpl; [discriminate |].
  destruct (Ascii.eqb c sep); [discriminate |].
  destruct (PyStr.split sep r); discriminate.
Qed.

Lemma set_nested_frame (path : string) (x : value) (p : list string) (d d' : value) :
  diverges p (PyStr.split "." path) = true ->
  Importer.set_nested d path x = Ok d' ->
  Py.getpath d' (map segment_key p) = Py.getpath d (map segment_key p).
Proof.
  unfold Importer.set_nested. intros Hd Hs.
  apply (set_keys_frame _ _ x p d d' ltac:(
    rewrite <- (app_removelast_last EmptyString (split_not_nil "." path)); exact Hd) Hs).
Qed.

Lemma float_of_string_raises (s : string) (e : exn) :
  PyFloat.of_string s = Raise e -> e = ValueError.
Proof.
  unfold PyFloat.of_string.
  destruct (PyFloat.drop_underscores None (PyStr.trim s)) as [u |]; [| intros [= <-]; reflexivity].
  destruct (PyInt.split_sign u) as [neg body].
  destruct (PyFloat.parse_body neg body); [discriminate | intros [= <-]; reflexivity].
Qed.

Lemma int_of_string_raises (s : string) (e : exn) :
  PyInt.of_string s = Raise e -> e = ValueError.
Proof.
  unfold PyInt.of_string.
  destruct (PyInt.split_sign (PyStr.trim s)) as [neg body].
  destruct (PyInt.grouped_digits false body) as [ds |]; [| intros [= <-]; reflexivity].
  destruct (Nat.ltb PyInt.max_str_digits (String.length ds));
    [intros [= <-]; reflexivity | discriminate].
Qed.

Lemma convert_raises (c : Importer.converter) (raw : string) (e : exn) :
  Importer.convert c raw = Raise e -> e = ValueError /\ never_fails c = false.
Proof.
  destruct c; simpl; try discriminate.
  - destruct (PyFloat.of_string raw) eqn:E; simpl; [discriminate |].
    intros [= <-]. split; [apply (float_of_string_raises raw), E | reflexivity].
  - destruct (PyInt.of_string raw) eqn:E; simpl; [discriminate |].
    intros [= <-]. split; [apply (int_of_string_raises raw), E | reflexivity].
Qed.

Lemma conv_eqb_eq (a b : Importer.converter) : conv_eqb a b = true -> a = b.
Proof. destruct a, b; simpl; congruence. Qed.

(** One round of the mapping loop leaves [p] alone when its entry writes
    elsewhere or its option is rejected. *)
Lemma apply_entry_frame (config : ConfigParser) (sec ps_key raw : string)
    (c : Importer.converter) (e : exn) (p : list string)
    (entry : string * (string * Importer.converter)) (profile profile' : value) :
  Config.find config sec ps_key = Some raw ->
  Importer.convert c raw = Raise e ->
  entry_apart ps_key c p entry = true ->
  Importer.apply_entry config sec profile entry = Ok profile' ->
  Py.getpath profile' (map segment_key p) = Py.getpath profile (map segment_key p).
Proof.
  intros Hfind Hconv Hapart. destruct entry as [k [path c']].
  unfold Importer.apply_entry, entry_apart in *. cbn [fst snd] in Hapart.
  destruct (Config.find config sec k) as [raw' |] eqn:Hk; [| intros [= <-]; reflexivity].
  destruct (Importer.convert c' raw') as [v | e'] eqn:Hc'; cbn [bind].
  - apply orb_prop in Hapart as [Hsame | Hdiv].
    + apply andb_prop in Hsame as [Hs1 Hs2].
      apply String.eqb_eq in Hs1. apply conv_eqb_eq in Hs2. subst k c'.
      congruence.
    + destruct (Importer.set_nested profile path v) as [p'' | e''] eqn:Hset.
      * intros [= <-]. apply (set_nested_frame path v p profile p'' Hdiv Hset).
      * destruct e''; try discriminate; intros [= <-]; reflexivity.
  - destruct e'; try discriminate; intros [= <-]; reflexivity.
Qed.

Lemma apply_mappings_frame (config : ConfigParser) (sec ps_key raw : string)
    (c : Importer.converter) (e : exn) (p : list string) (m : Importer.mapping) :
  Config.find config sec ps_key = Some raw ->
  Importer.convert c raw = Raise e ->
  forallb (entry_apart ps_key c p) m = true ->
  forall profile profile',
    Importer.apply_mappings config sec m profile = Ok profile' ->
    Py.getpath profile' (map segment_key p) = Py.getpath profile (map segment_key p).
Proof.
  intros Hfind Hconv. induction m as [| entry rest IH]; intros Hall profile profile' H.
  - injection H as <-. reflexivity.
  - cbn [forallb] in Hall. apply andb_prop in Hall as [H1 H2].
    cbn [Importer.apply_mappings] in H. apply bind_ok in H as [p1 [He Hr]].
    rewrite (IH H2 p1 profile' Hr).
    apply (apply_entry_frame config sec ps_key raw c e p entry profile p1 Hfind Hconv H1 He).
Qed.

(** ** The printer converter and a rejected option *)

Lemma collect_raw_skips_mapped (config : ConfigParser) (sec : string)
    (m : Importer.mapping) (k : string) (opts : list string) :
  assoc m k <> None ->
  forall acc raw_settings,
    dict_get acc (KStr k) = None ->
    Importer.collect_raw config sec m opts acc = Ok raw_settings ->
    dict_get raw_settings (KStr k) = None.
Proof.
  intros Hk. induction opts as [| key rest IH]; intros acc raw_settings Hacc H.
  - injection H as <-. exact Hacc.
  - cbn [Importer.collect_raw] in H.
    destruct (assoc m key) eqn:E.
    + apply (IH acc raw_settings Hacc H).
    + apply bind_ok in H as [v [_ H]].
      apply (IH _ raw_settings) in H; [exact H |].
      rewrite dict_get_set_other; [exact Hacc |].
      intros [= ->]. contradiction.
Qed.

Lemma stash_raw_frame (config : ConfigParser) (sec : string) (m : Importer.mapping)
    (p : list string) (profile profile' : value) :
  diverges p ["x_prusaslicer"] = true ->
  Importer.stash_raw config sec m profile = Ok profile' ->
  Py.getpath profile' (map segment_key p) = Py.getpath profile (map segment_key p).
Proof.
  intros Hd H. unfold Importer.stash_raw in H.
  apply bind_ok in H as [opts [_ H]]. apply bind_ok in H as [raw [_ H]].
  destruct (Py.truthy (VDict raw)).
  - apply (setitem_frame _ _ p profile profile' Hd H).
  - injection H as <-. reflexivity.
Qed.

(** After [stash_raw] the extension namespace holds no option of the
    mapping table. *)
Lemma stash_raw_extension (config : ConfigParser) (sec : string) (m : Importer.mapping)
    (k : string) (profile profile' : value) :
  assoc m k <> None ->
  Py.getitem profile (KStr "x_prusaslicer") = Ok (VDict []) ->
  Importer.stash_raw config sec m profile = Ok profile' ->
  exists x, Py.getitem profile' (KStr "x_prusaslicer") = Ok (VDict x)
            /\ dict_get x (KStr k) = None.
Proof.
  intros Hk Hx H. unfold Importer.stash_raw in H.
  apply bind_ok in H as [opts [_ H]]. apply bind_ok in H as [raw [Hraw H]].
  destruct (Py.truthy (VDict raw)).
  - apply setitem_str_ok in H as [d [-> ->]].
    exists raw. split.
    + cbn [Py.getitem]. rewrite dict_get_set_same. reflexivity.
    + apply (collect_raw_skips_mapped config sec m k opts Hk [] raw Logic.eq_refl Hraw).
  - injection H as <-. exists []. split; [exact Hx | reflexivity].
Qed.

Lemma in_assoc {A : Type} (l : list (string * A)) (k : string) (a : A) :
  In (k, a) l -> assoc l k <> None.
Proof.
  induction l as [| [k' a'] r IH]; simpl; [intros [] |].
  destruct (String.eqb_spec k' k); [discriminate |].
  intros [[= -> _] | H]; [contradiction | apply IH, H].
Qed.


(** ** The converters after the mapping loop *)

(** A path that parts ways with those of some rules parts ways with
    each of them. *)
Ltac rule Hall :=
  apply Hall; cbn [rule_paths In];
  repeat (first [left; reflexivity | right]).

Lemma temperature_window_frame (profile profile' : value) (sec_key : string)
    (temp : PyFloat.float) (lo hi delta : Z) (p : list string) :
  diverges p [sec_key; "recommended"] = true ->
  diverges p [sec_key; "min"] = true ->
  diverges p [sec_key; "max"] = true ->
  Importer.temperature_window profile sec_key temp lo hi delta = Ok profile' ->
  Py.getpath profile' (map segment_key p) = Py.getpath profile (map segment_key p).
Proof.
  intros H1 H2 H3 H. unfold Importer.temperature_window in H.
  apply bind_ok in H as [pa [Ha H]].
  apply bind_ok in H as [tmin [_ H]].
  apply bind_ok in H as [pb [Hb H]].
  apply bind_ok in H as [tmax [_ Hc]].
  rewrite (setpath_frame ["max"] sec_key tmax p pb profile' H3 Hc).
  rewrite (setpath_frame ["min"] sec_key tmin p pa pb H2 Hb).
  apply (setpath_frame ["recommended"] sec_key _ p profile pa H1 Ha).
Qed.

Lemma copy_float_frame (config : ConfigParser) (sec opt k1 k2 : string)
    (profile profile' : value) (p : list string) :
  diverges p [k1; k2] = true ->
  Importer.copy_float config sec opt k1 k2 profile = Ok profile' ->
  Py.getpath profile' (map segment_key p) = Py.getpath profile (map segment_key p).
Proof.
  intros Hd H. unfold Importer.copy_float in H.
  destruct (Config.find config sec opt) as [raw |].
  - apply bind_ok in H as [f [_ H]].
    apply (setpath_frame [k2] k1 _ p profile profile' Hd H).
  - injection H as <-. reflexivity.
Qed.

Lemma copy_float_parsed (config : ConfigParser) (sec opt k1 k2 raw : string)
    (profile profile' : value) :
  Importer.copy_float config sec opt k1 k2 profile = Ok profile' ->
  Config.find config sec opt = Some raw ->
  exists f, PyFloat.of_string raw = Ok f.
Proof.
  unfold Importer.copy_float. intros H Hf. rewrite Hf in H.
  apply bind_ok in H as [f [Hp _]]. exists f. exact Hp.
Qed.

Lemma convert_printer_steps (config : ConfigParser) (sec : string) (profile : value) :
  Importer.convert_printer config sec = Ok profile ->
  import_steps printer config sec profile.
Proof.
  unfold Importer.convert_printer. intros H.
  apply bind_ok in H as [p0 [Hloop H]].
  apply bind_ok in H as [p1 [Hbed H]].
  apply bind_ok in H as [p2 [Hkin H]].
  apply bind_ok in H as [p3 [Hid H]].
  exists p0, p3. split; [exact Hloop |]. split; [exact H |].
  split; [| intros opt raw []].
  intros p Hp. pose proof (proj1 (forallb_forall _ _) Hp) as Hall.
  assert (H01 : Py.getpath p1 (map segment_key p) = Py.getpath p0 (map segment_key p)).
  { destruct (Config.get_fallback config sec "bed_shape" "" =? "")%string.
    - injection Hbed as <-. reflexivity.
    - apply bind_ok in Hbed as [dims [_ Hbed]].
      apply bind_ok in Hbed as [x [_ Hbed]].
      apply bind_ok in Hbed as [px [Hx Hbed]].
      apply bind_ok in Hbed as [y [_ Hy]].
      rewrite (setpath_frame ["y"] "build_volume" y p px p1 ltac:(rule Hall) Hy).
      apply (setpath_frame ["x"] "build_volume" x p p0 px ltac:(rule Hall) Hx). }
  assert (H12 : Py.getpath p2 (map segment_key p) = Py.getpath p1 (map segment_key p))
    by apply (setitem_frame "kinematics" _ p p1 p2 ltac:(rule Hall) Hkin).
  assert (H23 : Py.getpath p3 (map segment_key p) = Py.getpath p2 (map segment_key p)).
  { destruct (Config.find config sec "printer_model") as [model |].
    - apply bind_ok in Hid as [pa [Ha Hid]].
      apply bind_ok in Hid as [no_make [_ Hid]].
      apply bind_ok in Hid as [pb [Hb Hid]].
      apply bind_ok in Hid as [no_model [_ Hc]].
      assert (Hpc : Py.getpath p3 (map segment_key p) = Py.getpath pb (map segment_key p)).
      { destruct no_model; [apply (setitem_frame "model" _ p pb p3 ltac:(rule Hall) Hc) |].
        injection Hc as <-. reflexivity. }
      assert (Hpb : Py.getpath pb (map segment_key p) = Py.getpath pa (map segment_key p)).
      { destruct no_make; [apply (setitem_frame "manufacturer" _ p pa pb ltac:(rule Hall) Hb) |].
        injection Hb as <-. reflexivity. }
      rewrite Hpc, Hpb. apply (setitem_frame "id" _ p p2 pa ltac:(rule Hall) Ha).
    - injection Hid as <-. reflexivity. }
  rewrite H23, H12, H01. reflexivity.
Qed.

Lemma convert_filament_steps (config : ConfigParser) (sec : string) (profile : value) :
  Importer.convert_filament config sec = Ok profile ->
  import_steps filament config sec profile.
Proof.
  unfold Importer.convert_filament. intros H.
  apply bind_ok in H as [p0 [Hloop H]].
  apply bind_ok in H as [p1 [Hmat H]].
  apply bind_ok in H as [p2 [Htemp H]].
  apply bind_ok in H as [p3 [Hbed H]].
  apply bind_ok in H as [p4 [Hfan H]].
  apply bind_ok in H as [p5 [Hbrand H]].
  apply bind_ok in H as [p6 [Hname H]].
  apply bind_ok in H as [b [_ H]].
  apply bind_ok in H as [n [_ H]].
  apply bind_ok in H as [p7 [Hid H]].
  exists p0, p7. split; [exact Hloop |]. split; [exact H |]. split.
  - intros p Hp. pose proof (proj1 (forallb_forall _ _) Hp) as Hall.
    rewrite (setitem_frame "id" _ p p6 p7 ltac:(rule Hall) Hid).
    assert (H56 : Py.getpath p6 (map segment_key p) = Py.getpath p5 (map segment_key p)).
    { match type of Hname with (if ?c then _ else _) = _ => destruct c end;
        [apply (setitem_frame "name" _ p p5 p6 ltac:(rule Hall) Hname) |].
      injection Hname as <-. reflexivity. }
    assert (H45 : Py.getpath p5 (map segment_key p) = Py.getpath p4 (map segment_key p)).
    { match type of Hbrand with (if ?c then _ else _) = _ => destruct c end;
        [apply (setitem_frame "brand" _ p p4 p5 ltac:(rule Hall) Hbrand) |].
      injection Hbrand as <-. reflexivity. }
    assert (H34 : Py.getpath p4 (map segment_key p) = Py.getpath p3 (map segment_key p)).
    { destruct (Config.find config sec "max_fan_speed").
      - apply bind_ok in Hfan as [f [_ Hfan]].
        apply (setpath_frame ["recommended"] "fan" _ p p3 p4 ltac:(rule Hall) Hfan).
      - injection Hfan as <-. reflexivity. }
    assert (H23 : Py.getpath p3 (map segment_key p) = Py.getpath p2 (map segment_key p)).
    { destruct (Config.find config sec "bed_temperature").
      - apply bind_ok in Hbed as [f [_ Hbed]].
        apply (temperature_window_frame p2 p3 "bed" f 0 150 10 p
                 ltac:(rule Hall) ltac:(rule Hall) ltac:(rule Hall) Hbed).
      - injection Hbed as <-. reflexivity. }
    assert (H12 : Py.getpath p2 (map segment_key p) = Py.getpath p1 (map segment_key p)).
    { destruct (Config.find config sec "temperature").
      - apply bind_ok in Htemp as [f [_ Htemp]].
        apply (temperature_window_frame p1 p2 "nozzle" f 150 300 20 p
                 ltac:(rule Hall) ltac:(rule Hall) ltac:(rule Hall) Htemp).
      - injection Htemp as <-. reflexivity. }
    assert (H01 : Py.getpath p1 (map segment_key p) = Py.getpath p0 (map segment_key p)).
    { destruct (Config.find config sec "filament_type").
      - apply (setitem_frame "material" _ p p0 p1 ltac:(rule Hall) Hmat).
      - injection Hmat as <-. reflexivity. }
    rewrite H56, H45, H34, H23, H12, H01. reflexivity.
  - intros opt raw Hopt Hfind. cbn [reparsed In] in Hopt.
    destruct Hopt as [<- | [<- | [<- | []]]].
    + rewrite Hfind in Htemp. apply bind_ok in Htemp as [f [Hf _]]. exists f. exact Hf.
    + rewrite Hfind in Hbed. apply bind_ok in Hbed as [f [Hf _]]. exists f. exact Hf.
    + rewrite Hfind in Hfan. apply bind_ok in Hfan as [f [Hf _]]. exists f. exact Hf.
Qed.

Lemma convert_process_steps (config : ConfigParser) (sec : string) (profile : value) :
  Importer.convert_process config sec = Ok profile ->
  import_steps process config sec profile.
Proof.
  unfold Importer.convert_process. intros H.
  apply bind_ok in H as [p0 [Hloop H]].
  apply bind_ok in H as [p1 [Hlayer H]].
  apply bind_ok in H as [p2 [Hfill H]].
  apply bind_ok in H as [p3 [Hc1 H]].
  apply bind_ok in H as [p4 [Hc2 H]].
  apply bind_ok in H as [p5 [Hc3 H]].
  apply bind_ok in H as [p6 [Hc4 H]].
  apply bind_ok in H as [p7 [Hc5 H]].
  apply bind_ok in H as [p8 [Hname H]].
  apply bind_ok in H as [layer_h [_ H]].
  apply bind_ok in H as [p9 [Hid H]].
  apply bind_ok in H as [layer_h' [_ H]].
  apply bind_ok in H as [intent [_ H]].
  apply bind_ok in H as [p10 [Hintent H]].
  exists p0, p10. split; [exact Hloop |]. split; [exact H |]. split.
  - intros p Hp. pose proof (proj1 (forallb_forall _ _) Hp) as Hall.
    rewrite (setitem_frame "intent" _ p p9 p10 ltac:(rule Hall) Hintent).
    rewrite (setitem_frame "id" _ p p8 p9 ltac:(rule Hall) Hid).
    rewrite (setitem_frame "name" _ p p7 p8 ltac:(rule Hall) Hname).
    rewrite (copy_float_frame _ _ _ "retraction" "speed" p6 p7 p ltac:(rule Hall) Hc5).
    rewrite (copy_float_frame _ _ _ "retraction" "distance" p5 p6 p ltac:(rule Hall) Hc4).
    rewrite (copy_float_frame _ _ _ "speed" "travel" p4 p5 p ltac:(rule Hall) Hc3).
    rewrite (copy_float_frame _ _ _ "speed" "infill" p3 p4 p ltac:(rule Hall) Hc2).
    rewrite (copy_float_frame _ _ _ "speed" "outer_wall" p2 p3 p ltac:(rule Hall) Hc1).
    assert (H12 : Py.getpath p2 (map segment_key p) = Py.getpath p1 (map segment_key p)).
    { destruct (Config.find config sec "fill_density") as [fill |].
      - match type of Hfill with
        | match ?r with _ => _ end = _ => destruct r as [pf | e] eqn:Hr
        end.
        + injection Hfill as <-. apply bind_ok in Hr as [density [_ Hr]].
          apply (setpath_frame ["density_default"] "infill" _ p p1 pf ltac:(rule Hall) Hr).
        + destruct e; try discriminate. injection Hfill as <-. reflexivity.
      - injection Hfill as <-. reflexivity. }
    assert (H01 : Py.getpath p1 (map segment_key p) = Py.getpath p0 (map segment_key p)).
    { destruct (Config.find config sec "layer_height").
      - apply bind_ok in Hlayer as [f [_ Hlayer]].
        apply bind_ok in Hlayer as [pa [Ha Hlayer]].
        apply bind_ok in Hlayer as [lmin [_ Hlayer]].
        apply bind_ok in Hlayer as [pb [Hb Hlayer]].
        apply bind_ok in Hlayer as [lmax [_ Hc]].
        rewrite (setpath_frame ["max"] "layer_height" _ p pb p1 ltac:(rule Hall) Hc).
        rewrite (setpath_frame ["min"] "layer_height" _ p pa pb ltac:(rule Hall) Hb).
        apply (setpath_frame ["default"] "layer_height" _ p p0 pa ltac:(rule Hall) Ha).
      - injection Hlayer as <-. reflexivity. }
    rewrite H12, H01. reflexivity.
  - intros opt raw Hopt Hfind. cbn [reparsed In] in Hopt.
    destruct Hopt as [<- | [<- | [<- | [<- | [<- | [<- | []]]]]]].
    + rewrite Hfind in Hlayer. apply bind_ok in Hlayer as [f [Hf _]]. exists f. exact Hf.
    + apply (copy_float_parsed _ _ _ _ _ raw _ _ Hc1 Hfind).
    + apply (copy_float_parsed _ _ _ _ _ raw _ _ Hc2 Hfind).
    + apply (copy_float_parsed _ _ _ _ _ raw _ _ Hc3 Hfind).
    + apply (copy_float_parsed _ _ _ _ _ raw _ _ Hc4 Hfind).
    + apply (copy_float_parsed _ _ _ _ _ raw _ _ Hc5 Hfind).
Qed.

Lemma import_inv (k : kind) (config : ConfigParser) (sec : string) (profile : value) :
  import k config sec = Ok profile -> import_steps k config sec profile.
Proof.
  destruct k; cbn [import];
    [apply convert_printer_steps | apply convert_filament_steps | apply convert_process_steps].
Qed.

(** ** A rejected option *)

Lemma entries_framed (k : kind) :
  k <> process -> forallb (entry_framed k) (mapping_of k) = true.
Proof. destruct k; intros H; [| | contradiction]; vm_compute; reflexivity. Qed.

Lemma extension_apart (k : kind) (ps_key : string) (c : Importer.converter) :
  forallb (entry_apart ps_key c ["x_prusaslicer"]) (mapping_of k) = true.
Proof.
  apply forallb_forall. intros entry Hentry. unfold entry_apart.
  apply orb_true_intro. right. revert entry Hentry. apply forallb_forall.
  destruct k; vm_compute; reflexivity.
Qed.

Lemma extension_not_ruled (k : kind) :
  forallb (diverges ["x_prusaslicer"]) (rule_paths k) = true.
Proof. destruct k; reflexivity. Qed.

Lemma skeleton_extension (k : kind) :
  Py.getpath (skeleton_of k) (map segment_key ["x_prusaslicer"]) = Ok (VDict []).
Proof. destruct k; reflexivity. Qed.

Lemma apply_entry_quiet (config : ConfigParser) (sec ps_key raw : string)
    (c : Importer.converter) (e : exn) (p : list string)
    (entry : string * (string * Importer.converter)) (profile profile' : value) :
  Config.find config sec ps_key = Some raw ->
  Importer.convert c raw = Raise e ->
  entry_quiet config sec ps_key c p entry = true ->
  Importer.apply_entry config sec profile entry = Ok profile' ->
  Py.getpath profile' (map segment_key p) = Py.getpath profile (map segment_key p).
Proof.
  intros Hfind Hconv Hq. unfold entry_quiet in Hq.
  apply orb_prop in Hq as [Hq | Hq];
    [apply (apply_entry_frame config sec ps_key raw c e p entry profile profile' Hfind Hconv Hq) |].
  destruct entry as [k [path c']]. cbn [fst snd] in Hq.
  unfold Importer.apply_entry.
  destruct (Config.find config sec k) as [raw' |]; [| intros [= <-]; reflexivity].
  destruct (Importer.convert c' raw') as [v | e'] eqn:Hc'; [discriminate Hq |].
  cbn [bind]. destruct e'; try discriminate; intros [= <-]; reflexivity.
Qed.

Lemma apply_mappings_quiet (config : ConfigParser) (sec ps_key raw : string)
    (c : Importer.converter) (e : exn) (p : list string) (m : Importer.mapping) :
  Config.find config sec ps_key = Some raw ->
  Importer.convert c raw = Raise e ->
  forallb (entry_quiet config sec ps_key c p) m = true ->
  forall profile profile',
    Importer.apply_mappings config sec m profile = Ok profile' ->
    Py.getpath profile' (map segment_key p) = Py.getpath profile (map segment_key p).
Proof.
  intros Hfind Hconv. induction m as [| entry rest IH]; intros Hall profile profile' H.
  - injection H as <-. reflexivity.
  - cbn [forallb] in Hall. apply andb_prop in Hall as [H1 H2].
    cbn [Importer.apply_mappings] in H. apply bind_ok in H as [p1 [He Hr]].
    rewrite (IH H2 p1 profile' Hr).
    apply (apply_entry_quiet config sec ps_key raw c e p entry profile p1 Hfind Hconv H1 He).
Qed.

Lemma guarded_some (config : ConfigParser) (sec opt raw : string) (paths : list (list string)) :
  Config.find config sec opt = Some raw -> guarded config sec opt paths = paths.
Proof. intros H. unfold guarded, Config.has_option. rewrite H. reflexivity. Qed.

Lemma copy_float_guarded (config : ConfigParser) (sec opt k1 k2 : string)
    (profile profile' : value) (p : list string) :
  forallb (diverges p) (guarded config sec opt [ [k1; k2] ]) = true ->
  Importer.copy_float config sec opt k1 k2 profile = Ok profile' ->
  Py.getpath profile' (map segment_key p) = Py.getpath profile (map segment_key p).
Proof.
  intros Hd H. unfold Importer.copy_float in H.
  destruct (Config.find config sec opt) as [raw |] eqn:E.
  - rewrite (guarded_some _ _ _ raw _ E) in Hd. cbn [forallb] in Hd.
    apply andb_prop in Hd as [Hd _].
    apply bind_ok in H as [f [_ H]].
    apply (setpath_frame [k2] k1 _ p profile profile' Hd H).
  - injection H as <-. reflexivity.
Qed.

(** The rules of [convert_process] leave alone every path that parts
    ways with those they write for the section at hand. *)
Lemma convert_process_writes (config : ConfigParser) (sec : string) (profile : value) :
  Importer.convert_process config sec = Ok profile ->
  exists p0 p3,
    Importer.apply_mappings config sec Importer.PROCESS_MAPPINGS Importer.process_skeleton
    = Ok p0
    /\ Importer.stash_raw config sec Importer.PROCESS_MAPPINGS p3 = Ok profile
    /\ forall p, forallb (diverges p) (process_writes config sec) = true ->
                 Py.getpath p3 (map segment_key p) = Py.getpath p0 (map segment_key p).
Proof.
  unfold Importer.convert_process. intros H.
  apply bind_ok in H as [p0 [Hloop H]].
  apply bind_ok in H as [p1 [Hlayer H]].
  apply bind_ok in H as [p2 [Hfill H]].
  apply bind_ok in H as [p3 [Hc1 H]].
  apply bind_ok in H as [p4 [Hc2 H]].
  apply bind_ok in H as [p5 [Hc3 H]].
  apply bind_ok in H as [p6 [Hc4 H]].
  apply bind_ok in H as [p7 [Hc5 H]].
  apply bind_ok in H as [p8 [Hname H]].
  apply bind_ok in H as [layer_h [_ H]].
  apply bind_ok in H as [p9 [Hid H]].
  apply bind_ok in H as [layer_h' [_ H]].
  apply bind_ok in H as [intent [_ H]].
  apply bind_ok in H as [p10 [Hintent H]].
  exists p0, p10. split; [exact Hloop |]. split; [exact H |].
  intros p Hp. unfold process_writes in Hp.
  rewrite !forallb_app in Hp.
  apply andb_prop in Hp as [Hlh Hp]. apply andb_prop in Hp as [Hfd Hp].
  apply andb_prop in Hp as [Hw1 Hp]. apply andb_prop in Hp as [Hw2 Hp].
  apply andb_prop in Hp as [Hw3 Hp]. apply andb_prop in Hp as [Hw4 Hp].
  apply andb_prop in Hp as [Hw5 Hp].
  cbn [forallb] in Hp.
  apply andb_prop in Hp as [Hn Hp]. apply andb_prop in Hp as [Hi Hp].
  apply andb_prop in Hp as [Ht _].
  rewrite (setitem_frame "intent" _ p p9 p10 Ht Hintent).
  rewrite (setitem_frame "id" _ p p8 p9 Hi Hid).
  rewrite (setitem_frame "name" _ p p7 p8 Hn Hname).
  rewrite (copy_float_guarded _ _ _ "retraction" "speed" p6 p7 p Hw5 Hc5).
  rewrite (copy_float_guarded _ _ _ "retraction" "distance" p5 p6 p Hw4 Hc4).
  rewrite (copy_float_guarded _ _ _ "speed" "travel" p4 p5 p Hw3 Hc3).
  rewrite (copy_float_guarded _ _ _ "speed" "infill" p3 p4 p Hw2 Hc2).
  rewrite (copy_float_guarded _ _ _ "speed" "outer_wall" p2 p3 p Hw1 Hc1).
  assert (H12 : Py.getpath p2 (map segment_key p) = Py.getpath p1 (map segment_key p)).
  { unfold fill_density_read in Hfd.
    destruct (Config.find config sec "fill_density") as [fill |]; [| injection Hfill as <-; reflexivity].
    match type of Hfill with
    | match ?r with _ => _ end = _ => destruct r as [pf | e] eqn:Hr
    end.
    - injection Hfill as <-. apply bind_ok in Hr as [density [Hden Hr]].
      assert (Hd : diverges p ["infill"; "density_default"] = true).
      { destruct (PyStr.contains "%" fill).
        - rewrite Hden in Hfd. cbn in Hfd. apply andb_prop in Hfd as [Hfd _]. exact Hfd.
        - apply bind_ok in Hden as [f [Hf _]]. rewrite Hf in Hfd. cbn in Hfd.
          apply andb_prop in Hfd as [Hfd _]. exact Hfd. }
      apply (setpath_frame ["density_default"] "infill" _ p p1 pf Hd Hr).
    - destruct e; try discriminate. injection Hfill as <-. reflexivity. }
  assert (H01 : Py.getpath p1 (map segment_key p) = Py.getpath p0 (map segment_key p)).
  { destruct (Config.find config sec "layer_height") as [raw |] eqn:E.
    - rewrite (guarded_some _ _ _ raw _ E) in Hlh. cbn [forallb] in Hlh.
      apply andb_prop in Hlh as [Ha' Hlh]. apply andb_prop in Hlh as [Hb' Hlh].
      apply andb_prop in Hlh as [Hc' _].
      apply bind_ok in Hlayer as [f [_ Hlayer]].
      apply bind_ok in Hlayer as [pa [Ha Hlayer]].
      apply bind_ok in Hlayer as [lmin [_ Hlayer]].
      apply bind_ok in Hlayer as [pb [Hb Hlayer]].
      apply bind_ok in Hlayer as [lmax [_ Hc]].
      rewrite (setpath_frame ["max"] "layer_height" _ p pb p1 Hc' Hc).
      rewrite (setpath_frame ["min"] "layer_height" _ p pa pb Hb' Hb).
      apply (setpath_frame ["default"] "layer_height" _ p p0 pa Ha' Ha).
    - injection Hlayer as <-. reflexivity. }
  rewrite H12, H01. reflexivity.
Qed.

Lemma unframed_entries (k : kind) (entry : string * (string * Importer.converter)) :
  In entry (mapping_of k) ->
  entry_framed k entry = false ->
  k = process
  /\ In entry [ ("fill_density", ("infill.density_default", Importer.conv_float));
                ("top_solid_infill_speed", ("speed.top_bottom", Importer.conv_float));
                ("bottom_solid_infill_speed", ("speed.top_bottom", Importer.conv_float));
                ("external_perimeter_speed", ("speed.outer_wall", Importer.conv_float)) ].
Proof.
  destruct k; cbn [mapping_of Importer.PRINTER_MAPPINGS Importer.FILAMENT_MAPPINGS
                   Importer.PROCESS_MAPPINGS In]; intros Hin;
    repeat (destruct Hin as [<- | Hin];
            [first [ vm_compute; discriminate
                   | intros _; split; [reflexivity | cbn [In]; tauto] ] |]);
    destruct Hin.
Qed.

Lemma existsb_false {A : Type} (f : A -> bool) (l : list A) (x : A) :
  existsb f l = false -> In x l -> f x = false.
Proof.
  intros H Hin. destruct (f x) eqn:E; [| reflexivity].
  rewrite <- H. symmetry. apply existsb_exists. exists x. split; assumption.
Qed.

Lemma quiet_rival (config : ConfigParser) (sec ps_key path : string)
    (c : Importer.converter) (p : list string)
    (entry : string * (string * Importer.converter)) :
  rival config sec ps_key path entry = false ->
  negb (fst entry =? ps_key)%string && (fst (snd entry) =? path)%string = true ->
  entry_quiet config sec ps_key c p entry = true.
Proof.
  unfold rival, entry_quiet. intros H Hr. rewrite Hr in H. cbn [andb] in H.
  apply orb_true_intro. right.
  destruct (Config.find config sec (fst entry)); [rewrite H |]; reflexivity.
Qed.

Lemma guarded_all (f : list string -> bool) (config : ConfigParser) (sec opt : string)
    (paths : list (list string)) :
  forallb f paths = true -> forallb f (guarded config sec opt paths) = true.
Proof. intros H. unfold guarded. destruct (Config.has_option config sec opt); [exact H | reflexivity]. Qed.

Lemma guarded_none (config : ConfigParser) (sec opt : string) (paths : list (list string)) :
  Config.find config sec opt = None -> guarded config sec opt paths = [].
Proof. intros H. unfold guarded, Config.has_option. rewrite H. reflexivity. Qed.

(** Every entry but the named ones is apart from [p]. *)
Ltac quiet_entries tac :=
  apply forallb_forall; intros entry Hentry;
  cbn [mapping_of Importer.PROCESS_MAPPINGS In] in Hentry;
  repeat (destruct Hentry as [<- | Hentry];
          [first [ apply orb_true_intro; left; vm_compute; reflexivity | tac ] |]);
  destruct Hentry.

Ltac quiet_rules tac :=
  unfold process_writes; rewrite !forallb_app;
  repeat (apply andb_true_intro; split);
  first [ apply guarded_all; reflexivity
        | reflexivity
        | tac ].

(** C9, as the code has it: an option that the mapping table of the kind
    lists and whose raw value its converter rejects is never stored in
    the [x_prusaslicer] namespace of the imported profile, and it writes
    nothing at its canonical path: what is read there is what the
    skeleton has (the default, or nothing), unless something else writes
    there, which is a rival (another option that the table maps to the
    same path, with an accepted value) or, for the fill density of a
    process, the rule that reads percentages. *)
Theorem rejected_option_is_dropped (k : kind) (config : ConfigParser)
    (sec ps_key op3d_path raw : string) (converter : Importer.converter)
    (e : exn) (profile : value) :
  In (ps_key, (op3d_path, converter)) (mapping_of k) ->
  Config.find config sec ps_key = Some raw ->
  Importer.convert converter raw = Raise e ->
  import k config sec = Ok profile ->
  (overwritten k config sec ps_key op3d_path raw = false ->
   Py.getpath profile (path_keys op3d_path)
   = Py.getpath (skeleton_of k) (path_keys op3d_path))
  /\ exists x, Py.getitem profile (KStr "x_prusaslicer") = Ok (VDict x)
               /\ dict_get x (KStr ps_key) = None.
Proof.
  intros Hin Hfind Hconv Hprofile.
  destruct (import_inv k config sec profile Hprofile)
    as [p0 [p3 [H0 [Hstash [H3 Hparsed]]]]].
  split.
  - intros Hover.
    destruct (entry_framed k (ps_key, (op3d_path, converter))) eqn:Hframed.
    + unfold entry_framed in Hframed. cbn [fst snd] in Hframed.
      destruct (convert_raises _ _ _ Hconv) as [_ Hnf]. rewrite Hnf in Hframed.
      cbn [orb] in Hframed. apply orb_prop in Hframed as [Hre | Hframed].
      * apply andb_prop in Hre as [Hfloat Hre].
        apply conv_eqb_eq in Hfloat. subst converter.
        apply existsb_exists in Hre as [opt [Hopt Heq]].
        apply String.eqb_eq in Heq. subst opt.
        destruct (Hparsed ps_key raw Hopt Hfind) as [f Hf].
        cbn [Importer.convert] in Hconv. rewrite Hf in Hconv. discriminate.
      * apply andb_prop in Hframed as [Hloop Hrules].
        apply andb_prop in Hloop as [Hloop Hx].
        unfold path_keys.
        rewrite (stash_raw_frame _ _ _ _ _ _ Hx Hstash), (H3 _ Hrules).
        apply (apply_mappings_frame config sec ps_key raw converter e _ _
                 Hfind Hconv Hloop _ _ H0).
    + destruct (unframed_entries k _ Hin Hframed) as [-> Hfour].
      clear p0 p3 H0 Hstash H3.
      destruct (convert_process_writes config sec profile Hprofile)
        as [p0 [p3 [H0 [Hstash H3]]]].
      unfold overwritten in Hover. apply orb_false_elim in Hover as [Hrival Hfill].
      pose proof (fun entry => existsb_false _ _ entry Hrival) as Hnone.
      unfold path_keys.
      destruct Hfour as [E | [E | [E | [E | []]]]]; injection E as <- <- <-;
        repeat match goal with
        | |- context [PyStr.split "." ?s] =>
            let r := eval vm_compute in (PyStr.split "." s) in
            change (PyStr.split "." s) with r
        end.
      * rewrite (stash_raw_frame _ _ _ ["infill"; "density_default"] _ _ Logic.eq_refl Hstash).
        rewrite H3.
        -- refine (apply_mappings_quiet config sec "fill_density" raw
                     Importer.conv_float e ["infill"; "density_default"] Importer.PROCESS_MAPPINGS
                     Hfind Hconv _ Importer.process_skeleton p0 H0).
           quiet_entries fail.
        -- cbn [String.eqb Ascii.eqb Bool.eqb andb] in Hfill.
           assert (Hread : fill_density_read config sec = false).
           { unfold fill_density_read. rewrite Hfind.
             destruct (PyStr.contains "%" raw); [exact Hfill |].
             cbn [Importer.convert] in Hconv.
             destruct (PyFloat.of_string raw); [discriminate Hconv | reflexivity]. }
           quiet_rules ltac:(rewrite Hread; reflexivity).
      * rewrite (stash_raw_frame _ _ _ ["speed"; "top_bottom"] _ _ Logic.eq_refl Hstash).
        rewrite H3.
        -- refine (apply_mappings_quiet config sec "top_solid_infill_speed" raw
                     Importer.conv_float e ["speed"; "top_bottom"] Importer.PROCESS_MAPPINGS
                     Hfind Hconv _ Importer.process_skeleton p0 H0).
           quiet_entries ltac:(apply (quiet_rival _ _ _ "speed.top_bottom");
                               [apply Hnone; cbn; tauto | reflexivity]).
        -- quiet_rules ltac:(destruct (fill_density_read config sec); reflexivity).
      * rewrite (stash_raw_frame _ _ _ ["speed"; "top_bottom"] _ _ Logic.eq_refl Hstash).
        rewrite H3.
        -- refine (apply_mappings_quiet config sec "bottom_solid_infill_speed" raw
                     Importer.conv_float e ["speed"; "top_bottom"] Importer.PROCESS_MAPPINGS
                     Hfind Hconv _ Importer.process_skeleton p0 H0).
           quiet_entries ltac:(apply (quiet_rival _ _ _ "speed.top_bottom");
                               [apply Hnone; cbn; tauto | reflexivity]).
        -- quiet_rules ltac:(destruct (fill_density_read config sec); reflexivity).
      * assert (Habsent : Config.find config sec "perimeter_speed" = None).
        { destruct (Config.find config sec "perimeter_speed") as [raw' |] eqn:E;
            [| reflexivity].
          destruct (Hparsed "perimeter_speed" raw') as [f Hf];
            [cbn; tauto | exact E |].
          assert (Hr : rival config sec "external_perimeter_speed" "speed.outer_wall"
                         ("perimeter_speed", ("speed.outer_wall", Importer.conv_float))
                       = false) by (apply Hnone; cbn; tauto).
          unfold rival in Hr. cbn [fst snd] in Hr. rewrite E in Hr.
          cbn [Importer.convert] in Hr. rewrite Hf in Hr. discriminate Hr. }
        rewrite (stash_raw_frame _ _ _ ["speed"; "outer_wall"] _ _ Logic.eq_refl Hstash).
        rewrite H3.
        -- refine (apply_mappings_quiet config sec "external_perimeter_speed" raw
                     Importer.conv_float e ["speed"; "outer_wall"] Importer.PROCESS_MAPPINGS
                     Hfind Hconv _ Importer.process_skeleton p0 H0).
           quiet_entries ltac:(apply (quiet_rival _ _ _ "speed.outer_wall");
                               [apply Hnone; cbn; tauto | reflexivity]).
        -- quiet_rules ltac:(first [ rewrite (guarded_none _ _ _ _ Habsent); reflexivity
                                   | destruct (fill_density_read config sec); reflexivity ]).
  - apply (stash_raw_extension config sec _ ps_key p3 profile (in_assoc _ _ _ Hin));
      [| exact Hstash].
    rewrite <- getpath_one.
    change [KStr "x_prusaslicer"] with (map segment_key ["x_prusaslicer"]).
    rewrite (H3 _ (extension_not_ruled k)).
    rewrite (apply_mappings_frame config sec ps_key raw converter e _ _
               Hfind Hconv (extension_apart k ps_key converter) _ _ H0).
    apply skeleton_extension.
Qed.

Lemma rejected_option_is_dropped_witness :
  (exists profile,
     Importer.convert_printer tall_printer "printer" = Ok profile
     /\ Py.getpath profile (path_keys "build_volume.z") = Ok (VInt 200)
     /\ exists x, Py.getitem profile (KStr "x_prusaslicer") = Ok (VDict x)
                  /\ dict_get x (KStr "max_print_height") = None)
  /\ (exists profile,
        Importer.convert_process fast_top "print" = Ok profile
        /\ Py.getpath profile (path_keys "speed.top_bottom") = Ok (VInt 30)
        /\ exists x, Py.getitem profile (KStr "x_prusaslicer") = Ok (VDict x)
                     /\ dict_get x (KStr "top_solid_infill_speed") = None).
Proof.
  split.
  - eexists. split; [vm_compute; reflexivity |].
    assert (Hin : In ("max_print_height", ("build_volume.z", Importer.conv_float))
                     (mapping_of printer))
      by (simpl; repeat (first [left; reflexivity | right])).
    destruct (rejected_option_is_dropped printer tall_printer "printer"
                "max_print_height" "build_volume.z" "tall" Importer.conv_float
                ValueError _ Hin Logic.eq_refl Logic.eq_refl Logic.eq_refl) as [H1 H2].
    split; [| exact H2].
    refine (eq_trans (H1 _) _); vm_compute; reflexivity.
  - eexists. split; [vm_compute; reflexivity |].
    assert (Hin : In ("top_solid_infill_speed", ("speed.top_bottom", Importer.conv_float))
                     (mapping_of process))
      by (simpl; repeat (first [left; reflexivity | right])).
    destruct (rejected_option_is_dropped process fast_top "print"
                "top_solid_infill_speed" "speed.top_bottom" "fast" Importer.conv_float
                ValueError _ Hin Logic.eq_refl Logic.eq_refl Logic.eq_refl) as [H1 H2].
    split; [| exact H2].
    refine (eq_trans (H1 _) _); vm_compute; reflexivity.
Defined.

(** C9, as stated, fails for the process kind, where something else can
    write at the path of a rejected option. The raw value "35%" of
    [fill_density] is rejected by the table's converter [float], yet the
    rule for percentages writes 35.0 at [infill.density_default], whose
    skeleton default is 20. And beside a rejected
    [top_solid_infill_speed] the value 40 of [bottom_solid_infill_speed]
    is written at [speed.top_bottom], the path of both, whose skeleton
    default is 30. *)
Lemma rejected_option_path_is_written :
  (In ("fill_density", ("infill.density_default", Importer.conv_float))
      Importer.PROCESS_MAPPINGS
   /\ Importer.convert Importer.conv_float "35%" = Raise ValueError
   /\ Py.getpath Importer.process_skeleton (path_keys "infill.density_default")
      = Ok (VInt 20)
   /\ exists profile,
        Importer.convert_process percent_fill "print" = Ok profile
        /\ Py.getpath profile (path_keys "infill.density_default")
           = Ok (VFloat (PyFloat.of_Z 35))
        /\ Py.eq (VFloat (PyFloat.of_Z 35)) (VInt 20) = false)
  /\ (In ("top_solid_infill_speed", ("speed.top_bottom", Importer.conv_float))
         Importer.PROCESS_MAPPINGS
      /\ Importer.convert Importer.conv_float "fast" = Raise ValueError
      /\ Py.getpath Importer.process_skeleton (path_keys "speed.top_bottom")
         = Ok (VInt 30)
      /\ exists profile,
           Importer.convert_process rival_speeds "print" = Ok profile
           /\ Py.getpath profile (path_keys "speed.top_bottom")
              = Ok (VFloat (PyFloat.of_Z 40))
           /\ Py.eq (VFloat (PyFloat.of_Z 40)) (VInt 30) = false).
Proof.
  split.
  - split; [simpl; repeat (first [left; reflexivity | right]) |].
    split; [vm_compute; reflexivity |].
    split; [vm_compute; reflexivity |].
    eexists. split; [vm_compute; reflexivity |].
    split; vm_compute; reflexivity.
  - split; [simpl; repeat (first [left; reflexivity | right]) |].
    split; [vm_compute; reflexivity |].
    split; [vm_compute; reflexivity |].
    eexists. split; [vm_compute; reflexivity |].
    split; vm_compute; reflexivity.
Qed.

(** ** The round trip through the PrusaSlicer dialect *)

(** *** Materials are normalised once *)

Lemma lower_upper_char (c : ascii) :
  PyStr.lower_char (PyStr.upper_char c) = PyStr.lower_char c.
Proof. destruct c as [[] [] [] [] [] [] [] []]; reflexivity. Qed.

Lemma upper_upper_char (c : ascii) :
  PyStr.upper_char (PyStr.upper_char c) = PyStr.upper_char c.
Proof. destruct c as [[] [] [] [] [] [] [] []]; reflexivity. Qed.

Lemma lower_upper (s : string) : PyStr.lower (PyStr.upper s) = PyStr.lower s.
Proof.
  unfold PyStr.lower, PyStr.upper.
  induction s as [| c r IH]; simpl; [reflexivity |].
  rewrite lower_upper_char. f_equal. exact IH.
Qed.

Lemma upper_upper (s : string) : PyStr.upper (PyStr.upper s) = PyStr.upper s.
Proof.
  unfold PyStr.upper.
  induction s as [| c r IH]; simpl; [reflexivity |].
  rewrite upper_upper_char. f_equal. exact IH.
Qed.

Lemma assoc_some_in {A : Type} (l : list (string * A)) (k : string) (v : A) :
  assoc l k = Some v -> In (k, v) l.
Proof.
  induction l as [| [k' v'] r IH]; simpl; [discriminate |].
  destruct (String.eqb_spec k' k);
    [intros [= ->]; left; subst; reflexivity | intros H; right; apply IH, H].
Qed.

Lemma normalize_material_idempotent (m : string) :
  Importer.normalize_material (Importer.normalize_material m)
  = Importer.normalize_material m.
Proof.
  unfold Importer.normalize_material at 2 3.
  destruct (assoc Importer.MATERIAL_MAP _) as [c |] eqn:E.
  - apply assoc_some_in, (in_map snd) in E. simpl in E.
    repeat (destruct E as [<- | E]; [reflexivity |]). destruct E.
  - destruct (String.eqb_spec m ""); [reflexivity |].
    unfold Importer.normalize_material. rewrite lower_upper, E.
    destruct (String.eqb_spec (PyStr.upper m) "") as [Hu | Hu].
    + destruct m; [contradiction | discriminate Hu].
    + apply upper_upper.
Qed.

(** *** Documents of the three options *)




(** *** Running [convert_filament] on a document with unknown values *)

Lemma max2_window (lo : Z) (t : PyFloat.float) (delta : Z) :
  Py.max2 (VInt lo) (VFloat (PyFloat.sub t (PyFloat.of_Z delta)))
  = Ok (window_low lo t delta).
Proof. reflexivity. Qed.

Lemma min2_window (hi : Z) (t : PyFloat.float) (delta : Z) :
  Py.min2 (VInt hi) (VFloat (PyFloat.add t (PyFloat.of_Z delta)))
  = Ok (window_high hi t delta).
Proof. reflexivity. Qed.


















(** * Further properties of the tools *)

(** ** [set_nested] on paths of keys *)

Lemma set_keys_reads_back (keys : list string) :
  forall (final_key : string) (x d d' : value),
    forallb (fun s => negb (PyStr.isdigit s)) keys = true ->
    PyStr.isdigit final_key = false ->
    Importer.set_keys keys final_key x d = Ok d' ->
    Py.getpath d' (map KStr (keys ++ [final_key])%list) = Ok x.
Proof.
  induction keys as [| key rest IH]; intros final_key x d d' Hk Hf H.
  - cbn [Importer.set_keys] in H. rewrite Hf in H.
    apply setitem_str_ok in H as [m [-> ->]].
    cbn. rewrite dict_get_set_same. reflexivity.
  - cbn [forallb] in Hk. apply andb_prop in Hk as [Hkey Hrest].
    apply negb_true_iff in Hkey.
    cbn [Importer.set_keys] in H. rewrite Hkey in H.
    destruct d as [| | | | | | m]; try discriminate.
    apply bind_ok in H as [child [_ H]].
    apply bind_ok in H as [child' [Hset H]].
    apply setitem_str_ok in H as [m' [_ ->]].
    cbn [app map Py.getpath Py.getitem]. rewrite dict_get_set_same. cbn [bind].
    exact (IH _ _ _ _ Hrest Hf Hset).
Qed.

Lemma split_last (path : string) :
  PyStr.split "." path
  = (removelast (PyStr.split "." path) ++ [last (PyStr.split "." path) ""])%list.
Proof. apply app_removelast_last, split_not_nil. Qed.

Lemma key_segments_keys (path : string) :
  key_segments path = true ->
  forallb (fun s => negb (PyStr.isdigit s)) (removelast (PyStr.split "." path)) = true
  /\ PyStr.isdigit (last (PyStr.split "." path) "") = false
  /\ path_keys path = map KStr (PyStr.split "." path).
Proof.
  unfold key_segments, path_keys. intros H.
  assert (Hmap : map segment_key (PyStr.split "." path) = map KStr (PyStr.split "." path)).
  { apply map_ext_in. intros s Hs. apply segment_key_str.
    rewrite forallb_forall in H. apply negb_true_iff, H, Hs. }
  rewrite (split_last path) in H. rewrite forallb_app in H.
  apply andb_prop in H as [H1 H2]. cbn [forallb] in H2. rewrite andb_true_r in H2.
  repeat split; [exact H1 | apply negb_true_iff, H2 | exact Hmap].
Qed.

(** X1: when no segment of the path is a list index, a value that
    [set_nested] stores without an error is the value read back along the
    path. *)
Theorem set_nested_reads_back (d d' : value) (path : string) (x : value) :
  key_segments path = true ->
  Importer.set_nested d path x = Ok d' ->
  Py.getpath d' (path_keys path) = Ok x.
Proof.
  intros Hk H. destruct (key_segments_keys path Hk) as (H1 & H2 & ->).
  rewrite (split_last path). unfold Importer.set_nested in H.
  exact (set_keys_reads_back _ _ _ _ _ H1 H2 H).
Qed.

Lemma set_nested_reads_back_witness :
  exists d',
    key_segments "layer_height.first_layer" = true
    /\ Importer.set_nested Importer.process_skeleton "layer_height.first_layer" (VInt 7) = Ok d'
    /\ Py.getpath d' (path_keys "layer_height.first_layer") = Ok (VInt 7).
Proof.
  eexists. split; [reflexivity |]. split; [vm_compute; reflexivity |].
  apply (set_nested_reads_back Importer.process_skeleton _ "layer_height.first_layer" (VInt 7));
    vm_compute; reflexivity.
Defined.

Lemma set_keys_fresh (keys : list string) :
  forall (final_key : string) (x : value),
    forallb (fun s => negb (PyStr.isdigit s)) keys = true ->
    PyStr.isdigit final_key = false ->
    exists d', Importer.set_keys keys final_key x (VDict []) = Ok d'.
Proof.
  induction keys as [| key rest IH]; intros final_key x Hk Hf.
  - cbn [Importer.set_keys]. rewrite Hf. eexists. reflexivity.
  - cbn [forallb] in Hk. apply andb_prop in Hk as [Hkey Hrest].
    apply negb_true_iff in Hkey.
    cbn [Importer.set_keys]. rewrite Hkey.
    cbn [dict_mem dict_get dict_set Py.getitem]. rewrite key_eqb_refl. cbn [bind].
    destruct (IH final_key x Hrest Hf) as [c Hc]. rewrite Hc. cbn [bind Py.setitem].
    eexists. reflexivity.
Qed.

(** X2: on a dict that lacks the first segment of a path of keys,
    [set_nested] never fails: it creates the dicts on the way, and the
    value is read back along the path. *)
Theorem set_nested_creates_missing (m : dict) (path : string) (x : value) :
  key_segments path = true ->
  dict_get m (KStr (first_segment path)) = None ->
  exists d', Importer.set_nested (VDict m) path x = Ok d'
             /\ Py.getpath d' (path_keys path) = Ok x.
Proof.
  intros Hk Hm.
  assert (Hex : exists d', Importer.set_nested (VDict m) path x = Ok d').
  { destruct (key_segments_keys path Hk) as (H1 & H2 & _).
    unfold Importer.set_nested. unfold first_segment in Hm.
    rewrite (split_last path) in Hm.
    destruct (removelast (PyStr.split "." path)) as [| key rest] eqn:E.
    - cbn [Importer.set_keys]. rewrite H2. eexists. reflexivity.
    - cbn [app hd] in Hm. cbn [forallb] in H1. apply andb_prop in H1 as [Hkey Hrest].
      apply negb_true_iff in Hkey.
      cbn [Importer.set_keys]. rewrite Hkey. unfold dict_mem. rewrite Hm.
      cbn [Py.getitem]. rewrite dict_get_set_same. cbn [bind].
      destruct (set_keys_fresh rest _ x Hrest H2) as [c Hc]. rewrite Hc. cbn [bind Py.setitem].
      eexists. reflexivity. }
  destruct Hex as [d' Hd']. exists d'. split; [exact Hd' |].
  destruct (key_segments_keys path Hk) as (H1 & H2 & ->).
  rewrite (split_last path). unfold Importer.set_nested in Hd'.
  exact (set_keys_reads_back _ _ _ _ _ H1 H2 Hd').
Qed.

Lemma set_nested_creates_missing_witness :
  exists d', Importer.set_nested Importer.filament_skeleton "printing_speed.max" (VInt 90) = Ok d'
             /\ Py.getpath d' (path_keys "printing_speed.max") = Ok (VInt 90).
Proof.
  apply (set_nested_creates_missing _ "printing_speed.max" (VInt 90)); reflexivity.
Defined.

(** X3: [set_nested] never stores a key in a value that is no dict: when
    the container is a scalar, a string or a list and the first segment
    is a key, it raises [TypeError]. *)
Theorem set_nested_into_scalar (d : value) (path : string) (x : value) :
  is_dict d = false ->
  PyStr.isdigit (first_segment path) = false ->
  Importer.set_nested d path x = Raise TypeError.
Proof.
  intros Hd Hs. unfold Importer.set_nested, first_segment in *.
  rewrite (split_last path) in Hs.
  destruct (removelast (PyStr.split "." path)) as [| key rest].
  - cbn [app hd] in Hs. cbn [Importer.set_keys]. rewrite Hs.
    destruct d; try discriminate; reflexivity.
  - cbn [app hd] in Hs. cbn [Importer.set_keys]. rewrite Hs.
    destruct d; try discriminate; reflexivity.
Qed.

Lemma set_nested_into_scalar_witness :
  Importer.set_nested (VStr "PLA") "material.name" (VInt 1) = Raise TypeError
  /\ Importer.set_nested (VList []) "notes" (VInt 1) = Raise TypeError.
Proof.
  split; [apply (set_nested_into_scalar (VStr "PLA") "material.name") |
          apply (set_nested_into_scalar (VList []) "notes")]; reflexivity.
Defined.

(** X4: a successful [set_nested] at [path] changes nothing that is read
    along a path that parts from [path] at a dict key. *)
Theorem set_nested_keeps_other_paths (d d' : value) (path other : string) (x : value) :
  diverges (PyStr.split "." other) (PyStr.split "." path) = true ->
  Importer.set_nested d path x = Ok d' ->
  Py.getpath d' (path_keys other) = Py.getpath d (path_keys other).
Proof. intros Hd H. exact (set_nested_frame path x _ d d' Hd H). Qed.

Lemma set_nested_keeps_other_paths_witness :
  exists d',
    Importer.set_nested Importer.filament_skeleton "nozzle.first_layer" (VInt 215) = Ok d'
    /\ Py.getpath d' (path_keys "nozzle.recommended") = Ok (VInt 200).
Proof.
  eexists. split; [vm_compute; reflexivity |].
  refine (eq_trans (set_nested_keeps_other_paths Importer.filament_skeleton _
                      "nozzle.first_layer" "nozzle.recommended" (VInt 215) _ _) _);
    vm_compute; reflexivity.
Defined.

(** ** [normalize_material] *)

Lemma lower_lower_char (c : ascii) :
  PyStr.lower_char (PyStr.lower_char c) = PyStr.lower_char c.
Proof. destruct c as [[] [] [] [] [] [] [] []]; reflexivity. Qed.

Lemma upper_lower_char (c : ascii) :
  PyStr.upper_char (PyStr.lower_char c) = PyStr.upper_char c.
Proof. destruct c as [[] [] [] [] [] [] [] []]; reflexivity. Qed.

Lemma lower_lower (s : string) : PyStr.lower (PyStr.lower s) = PyStr.lower s.
Proof.
  unfold PyStr.lower.
  induction s as [| c r IH]; simpl; [reflexivity |].
  rewrite lower_lower_char. f_equal. exact IH.
Qed.

Lemma upper_lower (s : string) : PyStr.upper (PyStr.lower s) = PyStr.upper s.
Proof.
  unfold PyStr.upper, PyStr.lower.
  induction s as [| c r IH]; simpl; [reflexivity |].
  rewrite upper_lower_char. f_equal. exact IH.
Qed.

Lemma upper_empty (s : string) : (PyStr.upper s =? "")%string = (s =? "")%string.
Proof. destruct s; reflexivity. Qed.

Lemma lower_empty (s : string) : (PyStr.lower s =? "")%string = (s =? "")%string.
Proof. destruct s; reflexivity. Qed.

(** X5: [normalize_material] ignores the case of the letters of an ASCII
    material: its upper and its lower case form are normalised like the
    material itself. *)
Theorem normalize_material_ignores_case (m : string) :
  PyStr.isascii m = true ->
  Importer.normalize_material (PyStr.upper m) = Importer.normalize_material m
  /\ Importer.normalize_material (PyStr.lower m) = Importer.normalize_material m.
Proof.
  intros _. unfold Importer.normalize_material.
  rewrite lower_upper, lower_lower, upper_upper, upper_lower, upper_empty, lower_empty.
  split; reflexivity.
Qed.

Lemma normalize_material_ignores_case_witness :
  Importer.normalize_material (PyStr.upper "Pet-G") = Importer.normalize_material "Pet-G"
  /\ Importer.normalize_material (PyStr.lower "Pet-G") = Importer.normalize_material "Pet-G".
Proof. apply (normalize_material_ignores_case "Pet-G"). reflexivity. Defined.

(** X6: a normalised ASCII material is never the empty string, and
    normalising it again changes nothing. *)
Theorem normalize_material_settles (m : string) :
  PyStr.isascii m = true ->
  Importer.normalize_material (Importer.normalize_material m)
  = Importer.normalize_material m
  /\ (Importer.normalize_material m =? "")%string = false.
Proof.
  intros _. split; [apply normalize_material_idempotent |].
  unfold Importer.normalize_material.
  destruct (assoc Importer.MATERIAL_MAP _) as [c |] eqn:E.
  - apply assoc_some_in, (in_map snd) in E. simpl in E.
    repeat (destruct E as [<- | E]; [reflexivity |]). destruct E.
  - destruct m; reflexivity.
Qed.

Lemma normalize_material_settles_witness :
  Importer.normalize_material (Importer.normalize_material "carbon-x")
  = Importer.normalize_material "carbon-x"
  /\ (Importer.normalize_material "carbon-x" =? "")%string = false.
Proof. apply (normalize_material_settles "carbon-x"). reflexivity. Defined.

(** ** [infer_kinematics] *)

Lemma is_prefix_contains (pre sub s : string) :
  PyStr.is_prefix (pre ++ sub) s = true -> PyStr.contains sub s = true.
Proof.
  revert s. induction pre as [| a pre IH]; intros s H.
  - cbn [append] in H. destruct s; cbn [PyStr.contains]; rewrite H; reflexivity.
  - cbn [append] in H. destruct s as [| b s]; [discriminate |].
    cbn [PyStr.is_prefix] in H. apply andb_prop in H as [_ H].
    cbn [PyStr.contains]. rewrite (IH s H). apply orb_true_r.
Qed.

Lemma contains_longer (pre sub s : string) :
  PyStr.contains (pre ++ sub) s = true -> PyStr.contains sub s = true.
Proof.
  induction s as [| b s IH]; intros H.
  - cbn [PyStr.contains] in H. rewrite orb_false_r in H.
    exact (is_prefix_contains pre sub "" H).
  - cbn [PyStr.contains] in H. apply orb_prop in H as [H | H].
    + exact (is_prefix_contains pre sub _ H).
    + cbn [PyStr.contains]. rewrite (IH H). apply orb_true_r.
Qed.

(** X7: [infer_kinematics] answers cartesian, corexy, corexz or delta,
    and never hybrid_corexy: a text that contains "hybrid_corexy" contains
    "corexy", which the loop over [KINEMATICS_MAP] meets first. *)
Theorem infer_kinematics_range (config : ConfigParser) (sec : string) :
  In (Importer.infer_kinematics config sec) ["cartesian"; "corexy"; "corexz"; "delta"].
Proof.
  unfold Importer.infer_kinematics.
  set (t := PyStr.lower (Config.get_fallback config sec "printer_type" "")).
  set (n := PyStr.lower (Config.get_fallback config sec "printer_notes" "")).
  cbn [Importer.first_match Importer.KINEMATICS_MAP].
  destruct (PyStr.contains "cartesian" t || PyStr.contains "cartesian" n); [cbn; tauto |].
  destruct (PyStr.contains "corexy" t || PyStr.contains "corexy" n) eqn:Hxy; [cbn; tauto |].
  destruct (PyStr.contains "corexz" t || PyStr.contains "corexz" n); [cbn; tauto |].
  destruct (PyStr.contains "delta" t || PyStr.contains "delta" n); [cbn; tauto |].
  destruct (PyStr.contains "hybrid_corexy" t || PyStr.contains "hybrid_corexy" n) eqn:Hh;
    [| cbn; tauto].
  exfalso. apply orb_false_elim in Hxy as [H1 H2].
  apply orb_prop in Hh as [H | H].
  - apply (contains_longer "hybrid_" "corexy") in H. congruence.
  - apply (contains_longer "hybrid_" "corexy") in H. congruence.
Qed.

(** ** [parse_percentage] *)

Lemma space_is_blank (c : ascii) :
  negb (Nat.leb 28 (PyStr.code c) && Nat.leb (PyStr.code c) 31) = true ->
  PyStr.is_space c = PyStr.is_blank c.
Proof.
  destruct c as [[] [] [] [] [] [] [] []]; intros H; try reflexivity; discriminate H.
Qed.

Lemma no_separator_cons (c : ascii) (r : string) :
  no_separator (String c r) = true ->
  negb (Nat.leb 28 (PyStr.code c) && Nat.leb (PyStr.code c) 31) = true
  /\ no_separator r = true.
Proof. unfold no_separator. cbn [PyStr.forall_chars]. apply andb_prop. Qed.

Lemma lstrip_ltrim (s : string) :
  no_separator s = true ->
  PyStr.lstrip s = PyStr.ltrim s /\ no_separator (PyStr.lstrip s) = true.
Proof.
  induction s as [| c r IH]; [split; reflexivity |].
  intros H. destruct (no_separator_cons c r H) as [Hc Hr].
  cbn [PyStr.lstrip PyStr.ltrim]. rewrite <- (space_is_blank c Hc).
  destruct (PyStr.is_space c); [apply IH, Hr | split; [reflexivity | exact H]].
Qed.

Lemma rstrip_rtrim (s : string) :
  no_separator s = true -> PyStr.rstrip s = PyStr.rtrim s.
Proof.
  induction s as [| c r IH]; [reflexivity |].
  intros H. destruct (no_separator_cons c r H) as [Hc Hr].
  cbn [PyStr.rstrip PyStr.rtrim]. rewrite <- (IH Hr), <- (space_is_blank c Hc).
  reflexivity.
Qed.

Lemma strip_trim (s : string) :
  no_separator s = true -> PyStr.strip s = PyStr.trim s.
Proof.
  intros H. unfold PyStr.strip, PyStr.trim.
  destruct (lstrip_ltrim s H) as [<- Hl]. apply rstrip_rtrim, Hl.
Qed.

Lemma rtrim_cons (c : ascii) (r : string) :
  PyStr.rtrim (String c r)
  = match PyStr.rtrim r with
    | EmptyString => if PyStr.is_blank c then EmptyString else String c EmptyString
    | String c' r' => String c (String c' r')
    end.
Proof. reflexivity. Qed.

Lemma rtrim_rtrim (s : string) : PyStr.rtrim (PyStr.rtrim s) = PyStr.rtrim s.
Proof.
  induction s as [| c r IH]; [reflexivity |].
  rewrite rtrim_cons. destruct (PyStr.rtrim r) as [| c' r'] eqn:E.
  - destruct (PyStr.is_blank c) eqn:Hc; [reflexivity |].
    rewrite rtrim_cons. cbn [PyStr.rtrim]. rewrite Hc. reflexivity.
  - rewrite rtrim_cons, IH. reflexivity.
Qed.

Lemma rtrim_head (c : ascii) (r : string) :
  PyStr.is_blank c = false ->
  exists r', PyStr.rtrim (String c r) = String c r'.
Proof.
  intros Hc. rewrite rtrim_cons. destruct (PyStr.rtrim r).
  - rewrite Hc. eexists. reflexivity.
  - eexists. reflexivity.
Qed.

Lemma ltrim_head (s : string) :
  PyStr.ltrim s = "" \/ exists c r, PyStr.ltrim s = String c r /\ PyStr.is_blank c = false.
Proof.
  induction s as [| c r IH]; [left; reflexivity |].
  cbn [PyStr.ltrim]. destruct (PyStr.is_blank c) eqn:Hc; [exact IH |].
  right. exists c, r. split; [reflexivity | exact Hc].
Qed.

Lemma trim_trim (s : string) : PyStr.trim (PyStr.trim s) = PyStr.trim s.
Proof.
  unfold PyStr.trim. destruct (ltrim_head s) as [E | (c & r & E & Hc)]; rewrite E.
  - reflexivity.
  - destruct (rtrim_head c r Hc) as [r' Hr]. rewrite Hr.
    cbn [PyStr.ltrim]. rewrite Hc. rewrite <- Hr. apply rtrim_rtrim.
Qed.

(** [float] skips what [strip] removes, the separators apart. *)
Lemma float_of_stripped (s : string) :
  no_separator s = true ->
  PyFloat.of_string (PyStr.strip s) = PyFloat.of_string s.
Proof.
  intros H. unfold PyFloat.of_string. rewrite (strip_trim s H), trim_trim. reflexivity.
Qed.

Lemma replace_absent (c : ascii) (new s : string) :
  PyStr.contains (String c "") s = false -> PyStr.replace c new s = s.
Proof.
  induction s as [| b s IH]; [reflexivity |].
  cbn [PyStr.contains PyStr.is_prefix PyStr.replace]. rewrite andb_true_r.
  intros H. apply orb_false_elim in H as [H1 H2].
  rewrite Ascii.eqb_sym, H1. rewrite (IH H2). reflexivity.
Qed.

Lemma remove_no_separator (c : ascii) (s : string) :
  no_separator s = true -> no_separator (PyStr.replace c "" s) = true.
Proof.
  induction s as [| b s IH]; [reflexivity |].
  intros H. destruct (no_separator_cons b s H) as [Hb Hs].
  cbn [PyStr.replace]. destruct (Ascii.eqb b c); cbn [append]; [apply IH, Hs |].
  unfold no_separator. cbn [PyStr.forall_chars]. rewrite Hb. apply IH, Hs.
Qed.

(** X8: on an ASCII text without the separators 28 to 31,
    [parse_percentage] is [float] on the text with every percent sign
    removed, wherever the signs stand. (With a separator next to the
    percent sign the two part: [strip] removes it, [float] rejects it.) *)
Theorem parse_percentage_drops_percent_signs (v : string) :
  PyStr.isascii v = true ->
  no_separator v = true ->
  Importer.parse_percentage v = PyFloat.of_string (PyStr.replace "%" "" v).
Proof.
  intros _ Hv. unfold Importer.parse_percentage. destruct (PyStr.contains "%" v) eqn:E.
  - apply float_of_stripped, remove_no_separator, Hv.
  - rewrite (replace_absent "%" "" v E). reflexivity.
Qed.

Lemma parse_percentage_drops_percent_signs_witness :
  Importer.parse_percentage "35 % " = PyFloat.of_string "35  ".
Proof.
  apply (parse_percentage_drops_percent_signs "35 % "); reflexivity.
Defined.

(** ** [parse_bed_dimensions] *)

Lemma span_coord_app (s : string) :
  forall a r, Importer.span_coord s = (a, r) -> s = a ++ r.
Proof.
  induction s as [| c s IH]; intros a r H.
  - injection H as <- <-. reflexivity.
  - cbn [Importer.span_coord] in H. destruct (Importer.is_coord_char c).
    + destruct (Importer.span_coord s) as [a' r']. injection H as <- <-.
      cbn [append]. f_equal. apply IH. reflexivity.
    + injection H as <- <-. reflexivity.
Qed.

Lemma contains_comma_app (a r : string) :
  PyStr.contains "," (a ++ String "," r) = true.
Proof.
  induction a as [| c a IH].
  - reflexivity.
  - cbn [append PyStr.contains]. rewrite IH. apply orb_true_r.
Qed.

Lemma match_coord_comma (s m rest : string) :
  Importer.match_coord s = Some (m, rest) -> PyStr.contains "," s = true.
Proof.
  unfold Importer.match_coord.
  destruct (Importer.span_coord s) as [a r] eqn:E.
  apply span_coord_app in E. subst s.
  destruct a as [| c a]; [discriminate |].
  destruct r as [| c' r]; [discriminate |].
  destruct (Ascii.eqb_spec c' ","%char) as [-> | Hne].
  - intros _. apply contains_comma_app.
  - destruct c' as [[] [] [] [] [] [] [] []]; try discriminate. contradiction Hne. reflexivity.
Qed.

Lemma findall_no_comma (fuel : nat) :
  forall s, PyStr.contains "," s = false -> Importer.findall_coords fuel s = [].
Proof.
  induction fuel as [| fuel IH]; intros s H; [reflexivity |].
  cbn [Importer.findall_coords].
  destruct (Importer.match_coord s) as [[m rest] |] eqn:E.
  - apply match_coord_comma in E. congruence.
  - destruct s as [| c s]; [reflexivity |].
    apply IH. cbn [PyStr.contains] in H. apply orb_false_elim in H as [_ H]. exact H.
Qed.

(** X9: a bed shape without a comma holds no coordinate pair, and
    [parse_bed_dimensions] answers the default bed of 200 by 200. *)
Theorem bed_shape_without_comma (bed_shape : string) :
  PyStr.contains "," bed_shape = false ->
  Importer.parse_bed_dimensions bed_shape = Ok Importer.default_bed.
Proof.
  intros H. unfold Importer.parse_bed_dimensions.
  destruct (bed_shape =? "")%string; [reflexivity |].
  rewrite (findall_no_comma _ _ H). reflexivity.
Qed.

Lemma bed_shape_without_comma_witness :
  Importer.parse_bed_dimensions "rectangular" = Ok Importer.default_bed
  /\ Importer.parse_bed_dimensions "250x210" = Ok Importer.default_bed.
Proof.
  split; [apply (bed_shape_without_comma "rectangular") | apply (bed_shape_without_comma "250x210")];
    reflexivity.
Defined.

Lemma digit_is_coord (c : ascii) : PyStr.is_digit c = true -> Importer.is_coord_char c = true.
Proof. intros H. unfold Importer.is_coord_char. rewrite H. apply orb_true_iff. left. apply orb_true_r. Qed.

Lemma span_coord_digits (d : string) :
  digits d = true ->
  forall r, match r with String c _ => Importer.is_coord_char c = false | EmptyString => True end ->
  Importer.span_coord (d ++ r) = (d, r).
Proof.
  unfold digits. induction d as [| c d IH]; intros Hd r Hr.
  - cbn [append]. destruct r as [| c r]; [reflexivity |].
    cbn [Importer.span_coord]. rewrite Hr. reflexivity.
  - cbn [PyStr.forall_chars] in Hd. apply andb_prop in Hd as [Hc Hd].
    cbn [append Importer.span_coord]. rewrite (digit_is_coord c Hc), (IH Hd r Hr). reflexivity.
Qed.

Lemma digits_no_comma (d : string) (r : string) :
  digits d = true -> PyStr.contains "," (d ++ r) = PyStr.contains "," r.
Proof.
  unfold digits. induction d as [| c d IH]; intros Hd; [reflexivity |].
  cbn [PyStr.forall_chars] in Hd. apply andb_prop in Hd as [Hc Hd].
  cbn [append PyStr.contains PyStr.is_prefix]. rewrite (IH Hd), andb_true_r.
  destruct (Ascii.eqb_spec ","%char c) as [<- | _]; [discriminate Hc | reflexivity].
Qed.

Lemma split_digits (d r : string) :
  digits d = true ->
  PyStr.split "," (d ++ r)
  = match PyStr.split "," r with
    | [] => [d]
    | w :: ws => (d ++ w) :: ws
    end.
Proof.
  unfold digits. induction d as [| c d IH]; intros Hd.
  - cbn [append]. destruct (PyStr.split "," r) eqn:E; [| reflexivity].
    exfalso. exact (split_not_nil _ _ E).
  - cbn [PyStr.forall_chars] in Hd. apply andb_prop in Hd as [Hc Hd].
    cbn [append PyStr.split].
    destruct (Ascii.eqb_spec c ","%char) as [-> | _]; [discriminate Hc |].
    rewrite (IH Hd). destruct (PyStr.split "," r); reflexivity.
Qed.

Lemma digits_nonempty (d : string) : PyStr.isdigit d = true -> digits d = true /\ d <> "".
Proof. destruct d; [discriminate |]. intros H. split; [exact H | discriminate]. Qed.

Lemma append_empty_r (s : string) : s ++ "" = s.
Proof. induction s as [| c s IH]; [reflexivity |]. cbn [append]. rewrite IH. reflexivity. Qed.

Lemma match_coord_digits (a b r : string) :
  PyStr.isdigit a = true -> PyStr.isdigit b = true -> stops r ->
  Importer.match_coord (a ++ "," ++ b ++ r) = Some (a ++ "," ++ b, r).
Proof.
  intros Ha Hb Hr.
  destruct (digits_nonempty a Ha) as [Da Na]. destruct (digits_nonempty b Hb) as [Db Nb].
  unfold Importer.match_coord.
  rewrite (span_coord_digits a Da ("," ++ b ++ r) eq_refl).
  destruct a as [| c a]; [contradiction Na; reflexivity |].
  cbn [append]. rewrite (span_coord_digits b Db r Hr).
  destruct b as [| c' b]; [contradiction Nb; reflexivity |]. reflexivity.
Qed.

Lemma findall_match (n : nat) (s m rest : string) :
  Importer.match_coord s = Some (m, rest) ->
  Importer.findall_coords (S n) s = m :: Importer.findall_coords n rest.
Proof. intros H. cbn [Importer.findall_coords]. rewrite H. reflexivity. Qed.

Lemma findall_skip (n : nat) (c : ascii) (r : string) :
  Importer.match_coord (String c r) = None ->
  Importer.findall_coords (S n) (String c r) = Importer.findall_coords n r.
Proof. intros H. cbn [Importer.findall_coords]. rewrite H. reflexivity. Qed.

Lemma findall_rectangle (w h : string) (n : nat) :
  PyStr.isdigit w = true -> PyStr.isdigit h = true ->
  Importer.findall_coords (7 + n) (rectangle w h) = ["0," ++ w; "0," ++ w; h ++ ",0"].
Proof.
  intros Hw Hh. unfold rectangle.
  change (7 + n)%nat with (S (S (S (S (S (S (S n))))))).
  set (R3 := "," ++ "0" ++ "x" ++ h).
  set (R2 := "x" ++ h ++ R3).
  set (R1 := "x" ++ "0" ++ "," ++ w ++ R2).
  change ("0x0," ++ w ++ "x0," ++ w ++ "x" ++ h ++ ",0x" ++ h)
    with (String "0" (String "x" ("0" ++ "," ++ w ++ R1))).
  rewrite findall_skip by reflexivity.
  rewrite findall_skip by reflexivity.
  rewrite (findall_match _ _ _ _ (match_coord_digits "0" w R1 eq_refl Hw eq_refl)).
  unfold R1 at 1. change ("x" ++ "0" ++ "," ++ w ++ R2) with (String "x" ("0" ++ "," ++ w ++ R2)).
  rewrite findall_skip by reflexivity.
  rewrite (findall_match _ _ _ _ (match_coord_digits "0" w R2 eq_refl Hw eq_refl)).
  unfold R2 at 1. change ("x" ++ h ++ R3) with (String "x" (h ++ R3)).
  rewrite findall_skip by reflexivity.
  unfold R3. 
  rewrite (findall_match _ _ _ _ (match_coord_digits h "0" ("x" ++ h) Hh eq_refl eq_refl)).
  rewrite findall_no_comma.
  - reflexivity.
  - change ("x" ++ h) with (String "x" h). cbn [PyStr.contains PyStr.is_prefix Ascii.eqb Bool.eqb andb orb].
    rewrite <- (append_empty_r h). rewrite digits_no_comma; [reflexivity |].
    apply digits_nonempty, Hh.
Qed.

Lemma split_only_digits (d : string) : digits d = true -> PyStr.split "," d = [d].
Proof.
  intros Hd. pose proof (split_digits d "" Hd) as H.
  rewrite append_empty_r in H. cbn [PyStr.split] in H. rewrite append_empty_r in H. exact H.
Qed.

Lemma length_append (a b : string) :
  String.length (a ++ b) = (String.length a + String.length b)%nat.
Proof. induction a as [| c a IH]; [reflexivity |]. cbn [append String.length]. rewrite IH. reflexivity. Qed.

(** X10: on the bed shape of a rectangular bed, [0x0,{w}x0,{w}x{h},0x{h}],
    the pattern pairs the numbers across the corners ("0,{w}", "0,{w}",
    "{h},0"): the extent reported as [x] is computed from 0 and the depth
    [h], the extent reported as [y] from the width [w] and 0. *)
Theorem rectangle_bed_axes (w h : string) (fw fh : PyFloat.float) :
  PyStr.isdigit w = true -> PyStr.isdigit h = true ->
  PyFloat.of_string w = Ok fw -> PyFloat.of_string h = Ok fh ->
  Importer.parse_bed_dimensions (rectangle w h)
  = Ok (VDict
          [ (KStr "x", VFloat (PyFloat.sub (Py.max_floats (PyFloat.of_Z 0) [PyFloat.of_Z 0; fh])
                                           (Py.min_floats (PyFloat.of_Z 0) [PyFloat.of_Z 0; fh])));
            (KStr "y", VFloat (PyFloat.sub (Py.max_floats fw [fw; PyFloat.of_Z 0])
                                           (Py.min_floats fw [fw; PyFloat.of_Z 0]))) ]).
Proof.
  intros Hw Hh Pw Ph. unfold Importer.parse_bed_dimensions.
  change (rectangle w h =? "")%string with false. cbv iota.
  assert (Hlen : exists n, S (String.length (rectangle w h)) = (7 + n)%nat).
  { unfold rectangle. exists (String.length (w ++ "x0," ++ w ++ "x" ++ h ++ ",0x" ++ h) - 2)%nat.
    cbn [append String.length]. rewrite length_append. cbn [append String.length]. lia. }
  destruct Hlen as [n ->]. rewrite (findall_rectangle w h n Hw Hh).
  destruct (digits_nonempty w Hw) as [Dw _]. destruct (digits_nonempty h Hh) as [Dh _].
  cbn [Importer.coord_lists].
  change ("0," ++ w) with ("0" ++ "," ++ w).
  rewrite (split_digits "0" ("," ++ w) eq_refl).
  change (PyStr.split "," ("," ++ w)) with ("" :: PyStr.split "," w).
  rewrite (split_only_digits w Dw).
  change (h ++ ",0") with (h ++ "," ++ "0"). rewrite (split_digits h ("," ++ "0") Dh).
  cbn [PyStr.split append Ascii.eqb Bool.eqb]. rewrite ?append_empty_r.
  rewrite Pw, Ph.
  change (PyFloat.of_string "0") with (@Ok PyFloat.float (PyFloat.of_Z 0)).
  cbn [bind fst snd]. reflexivity.
Qed.

Lemma rectangle_bed_axes_witness :
  Importer.parse_bed_dimensions "0x0,250x0,250x210,0x210"
  = Ok (VDict [ (KStr "x", VFloat (PyFloat.of_Z 210)); (KStr "y", VFloat (PyFloat.of_Z 250)) ]).
Proof.
  refine (eq_trans (rectangle_bed_axes "250" "210" (PyFloat.of_Z 250) (PyFloat.of_Z 210) _ _ _ _) _);
    vm_compute; reflexivity.
Defined.

(** ** What an import leaves alone *)

Lemma setitem_reads (v v' : value) (k : string) (x : value) :
  Py.setitem v (KStr k) x = Ok v' -> Py.getpath v' [KStr k] = Ok x.
Proof.
  intros H. apply setitem_str_ok in H as [m [-> ->]].
  cbn. rewrite dict_get_set_same. reflexivity.
Qed.

Lemma setpath_reads (v v' : value) (k1 k2 : string) (x : value) :
  Py.setpath v (KStr k1) [KStr k2] x = Ok v' -> Py.getpath v' [KStr k1; KStr k2] = Ok x.
Proof.
  cbn [Py.setpath]. intros H.
  apply bind_ok in H as [child [_ H]]. apply bind_ok in H as [child' [Hc H]].
  apply setitem_str_ok in H as [m [-> ->]].
  apply setitem_str_ok in Hc as [m' [-> ->]].
  cbn. rewrite dict_get_set_same. cbn. rewrite dict_get_set_same. reflexivity.
Qed.

(** A round of the mapping loop leaves [p] alone when its entry writes
    elsewhere or its option is absent. *)
Lemma apply_entry_skips (config : ConfigParser) (sec : string) (p : list string)
    (entry : string * (string * Importer.converter)) (profile profile' : value) :
  writes_apart p entry = true \/ Config.find config sec (fst entry) = None ->
  Importer.apply_entry config sec profile entry = Ok profile' ->
  Py.getpath profile' (map segment_key p) = Py.getpath profile (map segment_key p).
Proof.
  destruct entry as [k [path c]]. unfold writes_apart. cbn [fst snd]. intros Hd.
  unfold Importer.apply_entry.
  destruct (Config.find config sec k) as [raw |]; [| intros [= <-]; reflexivity].
  destruct Hd as [Hd | Hd]; [| discriminate].
  destruct (Importer.convert c raw) as [v | e]; cbn [bind].
  - destruct (Importer.set_nested profile path v) as [p'' | e''] eqn:Hset.
    + intros [= <-]. apply (set_nested_frame path v p profile p'' Hd Hset).
    + destruct e''; try discriminate; intros [= <-]; reflexivity.
  - destruct e; try discriminate; intros [= <-]; reflexivity.
Qed.

Lemma apply_mappings_skips (config : ConfigParser) (sec : string) (p : list string)
    (m : Importer.mapping) :
  Forall (fun entry => writes_apart p entry = true
                       \/ Config.find config sec (fst entry) = None) m ->
  forall profile profile',
    Importer.apply_mappings config sec m profile = Ok profile' ->
    Py.getpath profile' (map segment_key p) = Py.getpath profile (map segment_key p).
Proof.
  induction m as [| entry rest IH]; intros Hall profile profile' H.
  - injection H as <-. reflexivity.
  - inversion Hall as [| ? ? H1 H2]; subst.
    cbn [Importer.apply_mappings] in H. apply bind_ok in H as [p1 [He Hr]].
    rewrite (IH H2 p1 profile' Hr).
    apply (apply_entry_skips config sec p entry profile p1 H1 He).
Qed.

Lemma apply_mappings_untouched (config : ConfigParser) (sec : string) (p : list string)
    (m : Importer.mapping) :
  forallb (writes_apart p) m = true ->
  forall profile profile',
    Importer.apply_mappings config sec m profile = Ok profile' ->
    Py.getpath profile' (map segment_key p) = Py.getpath profile (map segment_key p).
Proof.
  intros H. apply apply_mappings_skips. apply Forall_forall. intros e He.
  left. rewrite forallb_forall in H. exact (H e He).
Qed.

Lemma import_untouched (k : kind) (config : ConfigParser) (sec : string)
    (profile : value) (p : list string) :
  untouched k p = true ->
  import k config sec = Ok profile ->
  Py.getpath profile (map segment_key p) = Py.getpath (skeleton_of k) (map segment_key p).
Proof.
  intros Hu H. unfold untouched in Hu.
  apply andb_prop in Hu as [Hu Hx]. apply andb_prop in Hu as [Hm Hr].
  destruct (import_inv k config sec profile H) as [p0 [p3 [H0 [Hstash [H3 _]]]]].
  rewrite (stash_raw_frame _ _ _ _ _ _ Hx Hstash), (H3 _ Hr).
  apply (apply_mappings_untouched config sec p _ Hm _ _ H0).
Qed.

(** X11: whatever the section holds, an imported profile reads like the
    skeleton of its kind along every path that parts at a dict key from
    all paths of the mapping table, from the paths the converter's rules
    assign to and from [x_prusaslicer]; among them [op3d_schema],
    [op3d_schema_version] and [maintainer]. *)
Theorem import_keeps_untouched_paths (k : kind) (config : ConfigParser) (sec : string)
    (profile : value) (path : string) :
  untouched k (PyStr.split "." path) = true ->
  import k config sec = Ok profile ->
  Py.getpath profile (path_keys path) = Py.getpath (skeleton_of k) (path_keys path).
Proof. intros Hu H. exact (import_untouched k config sec profile _ Hu H). Qed.

Lemma import_keeps_untouched_paths_witness :
  exists profile,
    import printer tall_printer "printer" = Ok profile
    /\ Py.getpath profile (path_keys "op3d_schema") = Ok (VStr "printer")
    /\ Py.getpath profile (path_keys "maintainer.maintainer_type") = Ok (VStr "community").
Proof.
  eexists. split; [vm_compute; reflexivity |]. split.
  - refine (eq_trans (import_keeps_untouched_paths printer tall_printer "printer" _
                        "op3d_schema" _ _) _); vm_compute; reflexivity.
  - refine (eq_trans (import_keeps_untouched_paths printer tall_printer "printer" _
                        "maintainer.maintainer_type" _ _) _); vm_compute; reflexivity.
Defined.

(** ** A section that is not there *)




(** X14: every profile type that [detect_profile_type] reports is one
    [convert_profile] accepts, and [convert_profile] then reads a section
    the document has: [printer] and [filament] under their own names,
    [process] under [print]. *)
Theorem detected_types_convert (config : ConfigParser) (t : string) :
  In t (Importer.detect_profile_type config) ->
  exists k, t = kind_name k
            /\ Config.has_section config (section_name k) = true
            /\ Importer.convert_profile config t = import k config (section_name k).
Proof.
  unfold Importer.detect_profile_type. intros H.
  apply in_app_or in H as [H | H]; [| apply in_app_or in H as [H | H]].
  - destruct (Config.has_section config "printer") eqn:E; [| destruct H].
    destruct H as [<- | []]. exists printer. repeat split. exact E.
  - destruct (Config.has_section config "filament") eqn:E; [| destruct H].
    destruct H as [<- | []]. exists filament. repeat split. exact E.
  - destruct (Config.has_section config "print") eqn:E; [| destruct H].
    destruct H as [<- | []]. exists process. repeat split. exact E.
Qed.

Lemma detected_types_convert_witness :
  exists k, "printer" = kind_name k
            /\ Config.has_section tall_printer (section_name k) = true
            /\ Importer.convert_profile tall_printer "printer"
               = import k tall_printer (section_name k).
Proof. apply (detected_types_convert tall_printer "printer"). left. reflexivity. Defined.

(** ** The stash of the unmapped options *)

Lemma config_get_find (config : ConfigParser) (sec opt raw : string) :
  Config.get config sec opt = Ok raw <-> Config.find config sec opt = Some raw.
Proof.
  unfold Config.get, Config.find. destruct (assoc config sec) as [s |].
  - destruct (assoc s opt); split; intros H; try discriminate; injection H as <-; reflexivity.
  - split; discriminate.
Qed.

Lemma find_in_options (config : ConfigParser) (sec opt raw : string) :
  Config.find config sec opt = Some raw ->
  exists opts, Config.options config sec = Ok opts /\ In opt opts.
Proof.
  unfold Config.find, Config.options. destruct (assoc config sec) as [s |]; [| discriminate].
  intros H. exists (map fst s). split; [reflexivity |].
  apply assoc_some_in in H. apply (in_map fst) in H. exact H.
Qed.

Lemma collect_raw_sound (config : ConfigParser) (sec : string) (m : Importer.mapping)
    (opts : list string) :
  forall acc raw_settings,
    (forall opt v, dict_get acc (KStr opt) = Some v -> stashed config sec m opt v) ->
    Importer.collect_raw config sec m opts acc = Ok raw_settings ->
    forall opt v, dict_get raw_settings (KStr opt) = Some v -> stashed config sec m opt v.
Proof.
  induction opts as [| key rest IH]; intros acc rs Hacc H.
  - injection H as <-. exact Hacc.
  - cbn [Importer.collect_raw] in H. destruct (assoc m key) eqn:E.
    + exact (IH acc rs Hacc H).
    + apply bind_ok in H as [raw [Hget H]]. refine (IH _ rs _ H).
      intros opt v Hv. destruct (String.eqb_spec key opt) as [-> | Hne].
      * rewrite dict_get_set_same in Hv. injection Hv as <-.
        split; [exact E |]. exists raw. split; [apply config_get_find, Hget | reflexivity].
      * rewrite dict_get_set_other in Hv; [exact (Hacc opt v Hv) |].
        intros [= Heq]. contradiction.
Qed.

Lemma collect_raw_complete (config : ConfigParser) (sec : string) (m : Importer.mapping)
    (opt raw : string) (opts : list string) :
  Config.find config sec opt = Some raw ->
  assoc m opt = None ->
  forall acc raw_settings,
    In opt opts \/ dict_get acc (KStr opt) = Some (VStr raw) ->
    Importer.collect_raw config sec m opts acc = Ok raw_settings ->
    dict_get raw_settings (KStr opt) = Some (VStr raw).
Proof.
  intros Hfind Hm. induction opts as [| key rest IH]; intros acc rs Hin H.
  - injection H as <-. destruct Hin as [[] | Hacc]. exact Hacc.
  - cbn [Importer.collect_raw] in H. destruct (assoc m key) eqn:E.
    + apply (IH acc rs); [| exact H].
      destruct Hin as [[-> | Hin] | Hacc]; [congruence | left; exact Hin | right; exact Hacc].
    + apply bind_ok in H as [raw' [Hget H]]. refine (IH _ rs _ H).
      destruct (String.eqb_spec key opt) as [-> | Hne].
      * right. apply config_get_find in Hget. rewrite Hfind in Hget. injection Hget as <-.
        apply dict_get_set_same.
      * destruct Hin as [[-> | Hin] | Hacc]; [contradiction | left; exact Hin |].
        right. rewrite dict_get_set_other; [exact Hacc | intros [= Heq]; contradiction].
Qed.

Lemma extension_unmapped (k : kind) :
  forallb (writes_apart ["x_prusaslicer"]) (mapping_of k) = true.
Proof. destruct k; vm_compute; reflexivity. Qed.

(** X12: after an import the profile's [x_prusaslicer] holds exactly the
    options of the section that are no keys of the mapping table, each
    with its raw text; it is the empty dict when there is none. *)
Theorem extension_holds_unmapped_options (k : kind) (config : ConfigParser) (sec : string)
    (profile : value) :
  import k config sec = Ok profile ->
  exists x,
    Py.getitem profile (KStr "x_prusaslicer") = Ok (VDict x)
    /\ forall opt v,
         dict_get x (KStr opt) = Some v
         <-> assoc (mapping_of k) opt = None
             /\ exists raw, Config.find config sec opt = Some raw /\ v = VStr raw.
Proof.
  intros H.
  destruct (import_inv k config sec profile H) as [p0 [p3 [H0 [Hstash [H3 _]]]]].
  assert (Hx : Py.getitem p3 (KStr "x_prusaslicer") = Ok (VDict [])).
  { rewrite <- getpath_one.
    change [KStr "x_prusaslicer"] with (map segment_key ["x_prusaslicer"]).
    rewrite (H3 _ (extension_not_ruled k)).
    rewrite (apply_mappings_untouched config sec _ _ (extension_unmapped k) _ _ H0).
    apply skeleton_extension. }
  unfold Importer.stash_raw in Hstash.
  apply bind_ok in Hstash as [opts [Hopts Hstash]].
  apply bind_ok in Hstash as [rs [Hrs Hstash]].
  assert (Hiff : forall opt v,
            dict_get rs (KStr opt) = Some v
            <-> stashed config sec (mapping_of k) opt v).
  { intros opt v. split.
    - apply (collect_raw_sound config sec _ opts [] rs); [discriminate | exact Hrs].
    - intros [Hm [raw [Hfind ->]]].
      apply (collect_raw_complete config sec _ opt raw opts Hfind Hm [] rs); [| exact Hrs].
      left. destruct (find_in_options _ _ _ _ Hfind) as [opts' [Ho Hin]].
      rewrite Hopts in Ho. injection Ho as <-. exact Hin. }
  destruct (Py.truthy (VDict rs)) eqn:Ht.
  - apply setitem_str_ok in Hstash as [d [-> ->]]. exists rs. split; [| exact Hiff].
    cbn [Py.getitem]. rewrite dict_get_set_same. reflexivity.
  - injection Hstash as <-. exists []. split; [exact Hx |].
    destruct rs; [exact Hiff | discriminate].
Qed.

Lemma extension_holds_unmapped_options_witness :
  exists profile,
    import printer calibrated_printer "printer" = Ok profile
    /\ exists x,
         Py.getitem profile (KStr "x_prusaslicer") = Ok (VDict x)
         /\ forall opt v,
              dict_get x (KStr opt) = Some v
              <-> assoc (mapping_of printer) opt = None
                  /\ exists raw, Config.find calibrated_printer "printer" opt = Some raw
                                 /\ v = VStr raw.
Proof.
  eexists. split; [vm_compute; reflexivity |].
  apply (extension_holds_unmapped_options printer calibrated_printer "printer").
  vm_compute; reflexivity.
Defined.

(** ** The identifiers of imported profiles *)

Lemma contains_char_cons (c b : ascii) (s : string) :
  PyStr.contains (String c "") (String b s)
  = (Ascii.eqb c b || PyStr.contains (String c "") s)%bool.
Proof. cbn [PyStr.contains PyStr.is_prefix]. rewrite andb_true_r. reflexivity. Qed.

Lemma contains_char_app (c : ascii) (a b : string) :
  PyStr.contains (String c "") (a ++ b)
  = (PyStr.contains (String c "") a || PyStr.contains (String c "") b)%bool.
Proof.
  induction a as [| x a IH].
  - destruct b; reflexivity.
  - cbn [append]. rewrite !contains_char_cons, IH. apply orb_assoc.
Qed.

Lemma replace_removes (c : ascii) (new s : string) :
  PyStr.contains (String c "") new = false ->
  PyStr.contains (String c "") (PyStr.replace c new s) = false.
Proof.
  intros Hn. induction s as [| b s IH]; [reflexivity |].
  cbn [PyStr.replace]. destruct (Ascii.eqb_spec b c) as [-> | Hne].
  - rewrite contains_char_app, Hn, IH. reflexivity.
  - rewrite contains_char_cons, IH, orb_false_r.
    apply Ascii.eqb_neq. intros ->. contradiction.
Qed.

Lemma replace_keeps_absent (c old : ascii) (new s : string) :
  PyStr.contains (String c "") new = false ->
  PyStr.contains (String c "") s = false ->
  PyStr.contains (String c "") (PyStr.replace old new s) = false.
Proof.
  intros Hn. induction s as [| b s IH]; intros Hs; [reflexivity |].
  rewrite contains_char_cons in Hs. apply orb_false_elim in Hs as [Hb Hs].
  cbn [PyStr.replace]. destruct (Ascii.eqb b old).
  - rewrite contains_char_app, Hn, (IH Hs). reflexivity.
  - rewrite contains_char_cons, Hb, (IH Hs). reflexivity.
Qed.

Ltac apart := vm_compute; reflexivity.

(** X15: the [id] of an imported filament is made of the profile's final
    [brand] and [name], joined by a slash, with every space and then
    every slash replaced by a hyphen: it contains neither a slash nor a
    space. *)
Theorem filament_id_is_slug (config : ConfigParser) (sec : string) (profile : value) :
  Importer.convert_filament config sec = Ok profile ->
  exists b n id,
    Py.getpath profile [KStr "brand"] = Ok b
    /\ Py.getpath profile [KStr "name"] = Ok n
    /\ Py.getpath profile [KStr "id"] = Ok (VStr id)
    /\ id = PyStr.replace "/" "-" (PyStr.replace " " "-" (Py.str b ++ "/" ++ Py.str n))
    /\ PyStr.contains "/" id = false
    /\ PyStr.contains " " id = false.
Proof.
  unfold Importer.convert_filament. intros H.
  apply bind_ok in H as [p0 [_ H]].
  apply bind_ok in H as [p1 [_ H]].
  apply bind_ok in H as [p2 [_ H]].
  apply bind_ok in H as [p3 [_ H]].
  apply bind_ok in H as [p4 [_ H]].
  apply bind_ok in H as [p5 [_ H]].
  apply bind_ok in H as [p6 [_ H]].
  apply bind_ok in H as [b [Hb H]].
  apply bind_ok in H as [n [Hn H]].
  apply bind_ok in H as [p7 [Hid Hstash]].
  exists b, n. eexists.
  assert (Hframe : forall p, diverges p ["x_prusaslicer"] = true -> diverges p ["id"] = true ->
            Py.getpath profile (map segment_key p) = Py.getpath p6 (map segment_key p)).
  { intros p Hx Hi. rewrite (stash_raw_frame _ _ _ _ _ _ Hx Hstash).
    apply (setitem_frame "id" _ p p6 p7 Hi Hid). }
  split; [rewrite <- Hb, <- getpath_one; apply (Hframe ["brand"]); apart |].
  split; [rewrite <- Hn, <- getpath_one; apply (Hframe ["name"]); apart |].
  split.
  - change [KStr "id"] with (map segment_key ["id"]).
    rewrite (stash_raw_frame _ _ _ ["id"] _ _ eq_refl Hstash).
    apply (setitem_reads _ _ _ _ Hid).
  - split; [reflexivity |]. split.
    + apply replace_removes. reflexivity.
    + apply replace_keeps_absent; [reflexivity |]. apply replace_removes. reflexivity.
Qed.

Lemma filament_id_is_slug_witness :
  exists profile,
    Importer.convert_filament prusament "filament" = Ok profile
    /\ exists b n id,
         Py.getpath profile [KStr "brand"] = Ok b
         /\ Py.getpath profile [KStr "name"] = Ok n
         /\ Py.getpath profile [KStr "id"] = Ok (VStr id)
         /\ id = PyStr.replace "/" "-" (PyStr.replace " " "-" (Py.str b ++ "/" ++ Py.str n))
         /\ PyStr.contains "/" id = false
         /\ PyStr.contains " " id = false.
Proof.
  eexists. split; [vm_compute; reflexivity |].
  apply (filament_id_is_slug prusament "filament"). vm_compute; reflexivity.
Defined.

(** X16: when the section has a [printer_model], the [id] of the
    imported printer is the make (or "Unknown"), a slash and the model,
    with every space replaced by a hyphen. *)
Theorem printer_id_from_make_and_model (config : ConfigParser) (sec model : string)
    (profile : value) :
  Importer.convert_printer config sec = Ok profile ->
  Config.find config sec "printer_model" = Some model ->
  Py.getpath profile [KStr "id"]
  = Ok (VStr (PyStr.replace " " "-"
                (Config.get_fallback config sec "printer_make" "Unknown" ++ "/" ++ model))).
Proof.
  unfold Importer.convert_printer. intros H Hm.
  apply bind_ok in H as [p0 [_ H]].
  apply bind_ok in H as [p1 [_ H]].
  apply bind_ok in H as [p2 [_ H]].
  apply bind_ok in H as [p3 [Hid Hstash]].
  rewrite Hm in Hid.
  apply bind_ok in Hid as [pa [Ha Hid]].
  apply bind_ok in Hid as [no_make [_ Hid]].
  apply bind_ok in Hid as [pb [Hb Hid]].
  apply bind_ok in Hid as [no_model [_ Hc]].
  change [KStr "id"] with (map segment_key ["id"]).
  rewrite (stash_raw_frame _ _ _ ["id"] _ _ eq_refl Hstash).
  assert (Hpc : Py.getpath p3 (map segment_key ["id"]) = Py.getpath pb (map segment_key ["id"])).
  { destruct no_model; [apply (setitem_frame "model" _ ["id"] pb p3 eq_refl Hc) |].
    injection Hc as <-. reflexivity. }
  assert (Hpb : Py.getpath pb (map segment_key ["id"]) = Py.getpath pa (map segment_key ["id"])).
  { destruct no_make; [apply (setitem_frame "manufacturer" _ ["id"] pa pb eq_refl Hb) |].
    injection Hb as <-. reflexivity. }
  rewrite Hpc, Hpb. apply (setitem_reads _ _ _ _ Ha).
Qed.

Lemma printer_id_from_make_and_model_witness :
  exists profile,
    Importer.convert_printer tall_printer "printer" = Ok profile
    /\ Py.getpath profile [KStr "id"] = Ok (VStr "Unknown/X1").
Proof.
  eexists. split; [vm_compute; reflexivity |].
  apply (printer_id_from_make_and_model tall_printer "printer" "X1"); vm_compute; reflexivity.
Defined.

(** X17: in an imported process profile the [intent] is the class of the
    final [layer_height.default], the [name] is the option [name] (or
    "Imported Profile"), and the [id] is "Standard/", the layer height as
    [str] prints it, "mm-" and the name, with spaces replaced by
    hyphens. *)
Theorem process_identity (config : ConfigParser) (sec : string) (profile : value) :
  Importer.convert_process config sec = Ok profile ->
  exists layer_h intent,
    Py.getpath profile [KStr "layer_height"; KStr "default"] = Ok layer_h
    /\ Importer.classify_intent layer_h = Ok intent
    /\ Py.getpath profile [KStr "intent"] = Ok (VStr intent)
    /\ Py.getpath profile [KStr "name"]
       = Ok (VStr (Config.get_fallback config sec "name" "Imported Profile"))
    /\ Py.getpath profile [KStr "id"]
       = Ok (VStr (PyStr.replace " " "-"
                     ("Standard/" ++ Py.str layer_h ++ "mm-"
                      ++ Config.get_fallback config sec "name" "Imported Profile"))).
Proof.
  unfold Importer.convert_process. intros H.
  apply bind_ok in H as [p0 [_ H]].
  apply bind_ok in H as [p1 [_ H]].
  apply bind_ok in H as [p2 [_ H]].
  apply bind_ok in H as [p3 [_ H]].
  apply bind_ok in H as [p4 [_ H]].
  apply bind_ok in H as [p5 [_ H]].
  apply bind_ok in H as [p6 [_ H]].
  apply bind_ok in H as [p7 [_ H]].
  apply bind_ok in H as [pn [Hname H]].
  apply bind_ok in H as [lh [Hlh H]].
  apply bind_ok in H as [pi [Hid H]].
  apply bind_ok in H as [lh' [Hlh' H]].
  apply bind_ok in H as [intent [Hint H]].
  apply bind_ok in H as [pt [Hset Hstash]].
  assert (Hsame : lh' = lh).
  { change [KStr "layer_height"; KStr "default"]
      with (map segment_key ["layer_height"; "default"]) in Hlh, Hlh'.
    rewrite (setitem_frame "id" _ ["layer_height"; "default"] pn pi eq_refl Hid), Hlh in Hlh'.
    congruence. }
  subst lh'. exists lh, intent.
  assert (Hframe : forall p, diverges p ["x_prusaslicer"] = true -> diverges p ["intent"] = true ->
            Py.getpath profile (map segment_key p) = Py.getpath pi (map segment_key p)).
  { intros p Hx Hi. rewrite (stash_raw_frame _ _ _ _ _ _ Hx Hstash).
    apply (setitem_frame "intent" _ p pi pt Hi Hset). }
  split.
  { change [KStr "layer_height"; KStr "default"]
      with (map segment_key ["layer_height"; "default"]).
    rewrite (Hframe ["layer_height"; "default"] eq_refl eq_refl). exact Hlh'. }
  split; [exact Hint |]. split.
  { change [KStr "intent"] with (map segment_key ["intent"]).
    rewrite (stash_raw_frame _ _ _ ["intent"] _ _ eq_refl Hstash).
    apply (setitem_reads _ _ _ _ Hset). }
  split.
  { change [KStr "name"] with (map segment_key ["name"]).
    rewrite (Hframe ["name"] eq_refl eq_refl).
    rewrite (setitem_frame "id" _ ["name"] pn pi eq_refl Hid).
    apply (setitem_reads _ _ _ _ Hname). }
  change [KStr "id"] with (map segment_key ["id"]).
  rewrite (Hframe ["id"] eq_refl eq_refl). apply (setitem_reads _ _ _ _ Hid).
Qed.

Lemma process_identity_witness :
  exists profile,
    Importer.convert_process percent_fill "print" = Ok profile
    /\ exists layer_h intent,
         Py.getpath profile [KStr "layer_height"; KStr "default"] = Ok layer_h
         /\ Importer.classify_intent layer_h = Ok intent
         /\ Py.getpath profile [KStr "intent"] = Ok (VStr intent)
         /\ Py.getpath profile [KStr "name"]
            = Ok (VStr (Config.get_fallback percent_fill "print" "name" "Imported Profile"))
         /\ Py.getpath profile [KStr "id"]
            = Ok (VStr (PyStr.replace " " "-"
                          ("Standard/" ++ Py.str layer_h ++ "mm-"
                           ++ Config.get_fallback percent_fill "print" "name" "Imported Profile"))).
Proof.
  eexists. split; [vm_compute; reflexivity |].
  apply (process_identity percent_fill "print"). vm_compute; reflexivity.
Defined.

(** ** The temperature windows of a filament *)

Lemma le_window_low (lo : Z) (t : PyFloat.float) (delta : Z) :
  Py.le (VInt lo) (window_low lo t delta) = Ok true.
Proof.
  unfold window_low. cbv zeta.
  destruct (Py.num_compare (Py.NInt lo) (Py.NFloat (PyFloat.sub t (PyFloat.of_Z delta))))
    as [[] |] eqn:E; unfold Py.le; cbn [Py.as_number]; rewrite ?E; try reflexivity;
    cbn [Py.num_compare]; rewrite Z.compare_refl; reflexivity.
Qed.

Lemma le_window_high (hi : Z) (t : PyFloat.float) (delta : Z) :
  Py.le (window_high hi t delta) (VInt hi) = Ok true.
Proof.
  unfold window_high. cbv zeta.
  destruct (Py.num_compare (Py.NFloat (PyFloat.add t (PyFloat.of_Z delta))) (Py.NInt hi))
    as [[] |] eqn:E; unfold Py.le; cbn [Py.as_number]; rewrite ?E; try reflexivity;
    cbn [Py.num_compare]; rewrite Z.compare_refl; reflexivity.
Qed.

Lemma temperature_window_reads (profile profile' : value) (key : string)
    (t : PyFloat.float) (lo hi delta : Z) :
  PyStr.isdigit key = false ->
  Importer.temperature_window profile key t lo hi delta = Ok profile' ->
  Py.getpath profile' [KStr key; KStr "recommended"] = Ok (VFloat t)
  /\ Py.getpath profile' [KStr key; KStr "min"] = Ok (window_low lo t delta)
  /\ Py.getpath profile' [KStr key; KStr "max"] = Ok (window_high hi t delta).
Proof.
  intros Hk H. unfold Importer.temperature_window in H.
  apply bind_ok in H as [pa [Ha H]].
  apply bind_ok in H as [tmin [Hmin H]].
  apply bind_ok in H as [pb [Hb H]].
  apply bind_ok in H as [tmax [Hmax Hc]].
  rewrite max2_window in Hmin. injection Hmin as <-.
  rewrite min2_window in Hmax. injection Hmax as <-.
  assert (Hseg : forall s, PyStr.isdigit s = false ->
            [KStr key; KStr s] = map segment_key [key; s]).
  { intros s Hs. cbn [map]. rewrite !segment_key_str by assumption. reflexivity. }
  assert (Hdiv : forall a b, PyStr.isdigit a = false -> PyStr.isdigit b = false ->
            (a =? b)%string = false -> diverges [key; a] [key; b] = true).
  { intros a b Ha' Hb' Hab. cbn [diverges]. rewrite Hk, Ha', Hb', String.eqb_refl, Hab. reflexivity. }
  split; [| split].
  - rewrite (Hseg "recommended" eq_refl).
    rewrite (setpath_frame ["max"] key _ _ pb profile'
               (Hdiv "recommended" "max" eq_refl eq_refl eq_refl) Hc).
    rewrite (setpath_frame ["min"] key _ _ pa pb
               (Hdiv "recommended" "min" eq_refl eq_refl eq_refl) Hb).
    rewrite <- (Hseg "recommended" eq_refl). apply (setpath_reads _ _ _ _ _ Ha).
  - rewrite (Hseg "min" eq_refl).
    rewrite (setpath_frame ["max"] key _ _ pb profile'
               (Hdiv "min" "max" eq_refl eq_refl eq_refl) Hc).
    rewrite <- (Hseg "min" eq_refl). apply (setpath_reads _ _ _ _ _ Hb).
  - apply (setpath_reads _ _ _ _ _ Hc).
Qed.

(** X18: when the section gives a nozzle ([temperature]) or a bed
    ([bed_temperature]) temperature and the import succeeds, the text is a
    number, the profile recommends that number, and the window around it
    is clamped: the minimum is never below the lower bound (150 for the
    nozzle, 0 for the bed) and the maximum never above the upper bound
    (300, 150), whatever the number is. *)
Theorem filament_temperature_window (config : ConfigParser) (sec opt key raw : string)
    (lo hi : Z) (profile : value) :
  In (opt, (key, (lo, hi))) temperature_rules ->
  Importer.convert_filament config sec = Ok profile ->
  Config.find config sec opt = Some raw ->
  exists t vmin vmax,
    PyFloat.of_string raw = Ok t
    /\ Py.getpath profile [KStr key; KStr "recommended"] = Ok (VFloat t)
    /\ Py.getpath profile [KStr key; KStr "min"] = Ok vmin
    /\ Py.le (VInt lo) vmin = Ok true
    /\ Py.getpath profile [KStr key; KStr "max"] = Ok vmax
    /\ Py.le vmax (VInt hi) = Ok true.
Proof.
  intros Hin H Hfind. unfold Importer.convert_filament in H.
  apply bind_ok in H as [p0 [_ H]].
  apply bind_ok in H as [p1 [_ H]].
  apply bind_ok in H as [p2 [Htemp H]].
  apply bind_ok in H as [p3 [Hbed H]].
  apply bind_ok in H as [p4 [Hfan H]].
  apply bind_ok in H as [p5 [Hbrand H]].
  apply bind_ok in H as [p6 [Hname H]].
  apply bind_ok in H as [b [_ H]].
  apply bind_ok in H as [n [_ H]].
  apply bind_ok in H as [p7 [Hid Hstash]].
  assert (Htail : forall p,
            diverges p ["fan"; "recommended"] = true -> diverges p ["brand"] = true ->
            diverges p ["name"] = true -> diverges p ["id"] = true ->
            diverges p ["x_prusaslicer"] = true ->
            Py.getpath profile (map segment_key p) = Py.getpath p3 (map segment_key p)).
  { intros p Hf Hb Hn Hi Hx.
    rewrite (stash_raw_frame _ _ _ _ _ _ Hx Hstash).
    rewrite (setitem_frame "id" _ p p6 p7 Hi Hid).
    assert (H56 : Py.getpath p6 (map segment_key p) = Py.getpath p5 (map segment_key p)).
    { match type of Hname with (if ?c then _ else _) = _ => destruct c end;
        [apply (setitem_frame "name" _ p p5 p6 Hn Hname) |].
      injection Hname as <-. reflexivity. }
    assert (H45 : Py.getpath p5 (map segment_key p) = Py.getpath p4 (map segment_key p)).
    { match type of Hbrand with (if ?c then _ else _) = _ => destruct c end;
        [apply (setitem_frame "brand" _ p p4 p5 Hb Hbrand) |].
      injection Hbrand as <-. reflexivity. }
    rewrite H56, H45. destruct (Config.find config sec "max_fan_speed").
    - apply bind_ok in Hfan as [f [_ Hfan]].
      apply (setpath_frame ["recommended"] "fan" _ p p3 p4 Hf Hfan).
    - injection Hfan as <-. reflexivity. }
  cbn [temperature_rules In] in Hin. destruct Hin as [Hin | [Hin | []]]; injection Hin as <- <- <- <-.
  - rewrite Hfind in Htemp. apply bind_ok in Htemp as [t [Ht Htemp]].
    destruct (temperature_window_reads _ _ "nozzle" t 150 300 20 eq_refl Htemp) as (R1 & R2 & R3).
    assert (Hbedframe : forall p,
              diverges p ["bed"; "recommended"] = true -> diverges p ["bed"; "min"] = true ->
              diverges p ["bed"; "max"] = true ->
              Py.getpath p3 (map segment_key p) = Py.getpath p2 (map segment_key p)).
    { intros p B1 B2 B3. destruct (Config.find config sec "bed_temperature").
      - apply bind_ok in Hbed as [f [_ Hbed]].
        apply (temperature_window_frame p2 p3 "bed" f 0 150 10 p B1 B2 B3 Hbed).
      - injection Hbed as <-. reflexivity. }
    exists t, (window_low 150 t 20), (window_high 300 t 20).
    split; [exact Ht |].
    split; [change [KStr "nozzle"; KStr "recommended"] with (map segment_key ["nozzle"; "recommended"]);
            rewrite (Htail ["nozzle"; "recommended"]), (Hbedframe ["nozzle"; "recommended"]);
            try reflexivity; exact R1 |].
    split; [change [KStr "nozzle"; KStr "min"] with (map segment_key ["nozzle"; "min"]);
            rewrite (Htail ["nozzle"; "min"]), (Hbedframe ["nozzle"; "min"]);
            try reflexivity; exact R2 |].
    split; [apply le_window_low |].
    split; [change [KStr "nozzle"; KStr "max"] with (map segment_key ["nozzle"; "max"]);
            rewrite (Htail ["nozzle"; "max"]), (Hbedframe ["nozzle"; "max"]);
            try reflexivity; exact R3 |].
    apply le_window_high.
  - rewrite Hfind in Hbed. apply bind_ok in Hbed as [t [Ht Hbed]].
    destruct (temperature_window_reads _ _ "bed" t 0 150 10 eq_refl Hbed) as (R1 & R2 & R3).
    exists t, (window_low 0 t 10), (window_high 150 t 10).
    split; [exact Ht |].
    split; [change [KStr "bed"; KStr "recommended"] with (map segment_key ["bed"; "recommended"]);
            rewrite (Htail ["bed"; "recommended"]); try reflexivity; exact R1 |].
    split; [change [KStr "bed"; KStr "min"] with (map segment_key ["bed"; "min"]);
            rewrite (Htail ["bed"; "min"]); try reflexivity; exact R2 |].
    split; [apply le_window_low |].
    split; [change [KStr "bed"; KStr "max"] with (map segment_key ["bed"; "max"]);
            rewrite (Htail ["bed"; "max"]); try reflexivity; exact R3 |].
    apply le_window_high.
Qed.

Lemma filament_temperature_window_witness :
  exists profile,
    Importer.convert_filament hot_end "filament" = Ok profile
    /\ exists t vmin vmax,
         PyFloat.of_string "400" = Ok t
         /\ Py.getpath profile [KStr "nozzle"; KStr "recommended"] = Ok (VFloat t)
         /\ Py.getpath profile [KStr "nozzle"; KStr "min"] = Ok vmin
         /\ Py.le (VInt 150) vmin = Ok true
         /\ Py.getpath profile [KStr "nozzle"; KStr "max"] = Ok vmax
         /\ Py.le vmax (VInt 300) = Ok true.
Proof.
  eexists. split; [vm_compute; reflexivity |].
  apply (filament_temperature_window hot_end "filament" "temperature" "nozzle" "400" 150 300);
    [left; reflexivity | vm_compute; reflexivity | reflexivity].
Defined.

(** ** The exporters *)

Lemma get_set_other (d : dict) (k k' : string) (v default : value) :
  k <> k' ->
  Py.get (VDict (dict_set d (KStr k) v)) k' default = Py.get (VDict d) k' default.
Proof.
  intros H. unfold Py.get, dict_get_default. rewrite dict_get_set_other; [reflexivity |].
  intros [= E]. contradiction.
Qed.

(** X19: the exporters read thirteen top-level keys of a profile and
    nothing else: assigning any other key (the id, the brand, the
    diameter, the notes, ...) changes no export, for any dialect. *)
Theorem export_ignores_other_fields (s : Exporter.slicer) (d : dict) (k : string) (v : value) :
  existsb (String.eqb k) exporter_reads = false ->
  Exporter.converter s (VDict (dict_set d (KStr k) v)) = Exporter.converter s (VDict d).
Proof.
  intros H.
  assert (Hne : forall k', In k' exporter_reads -> k <> k').
  { intros k' Hin ->. 
    assert (E : existsb (String.eqb k') exporter_reads = true)
      by (apply existsb_exists; exists k'; split; [exact Hin | apply String.eqb_refl]).
    congruence. }
  assert (G : forall k' default, In k' exporter_reads ->
            Py.get (VDict (dict_set d (KStr k) v)) k' default = Py.get (VDict d) k' default).
  { intros k' default Hin. apply get_set_other, Hne, Hin. }
  destruct s; cbn [Exporter.converter];
    unfold Exporter.convert_to_cura, Exporter.convert_to_prusaslicer,
      Exporter.convert_to_orca, Exporter.convert_to_bambu;
    rewrite !G by (cbn; tauto); reflexivity.
Qed.

Lemma export_ignores_other_fields_witness :
  Exporter.converter Exporter.orca (VDict (dict_set filament_with_x_cura (KStr "diameter") (VInt 3)))
  = Exporter.converter Exporter.orca (VDict filament_with_x_cura).
Proof. apply export_ignores_other_fields. reflexivity. Defined.

(** ** Exporting what was imported *)

Lemma imported_material_is_text (config : ConfigParser) (sec : string) (profile : value) :
  Importer.convert_filament config sec = Ok profile ->
  exists m, Py.getpath profile [KStr "material"] = Ok (VStr m).
Proof.
  unfold Importer.convert_filament. intros H.
  apply bind_ok in H as [p0 [Hloop H]].
  apply bind_ok in H as [p1 [Hmat H]].
  apply bind_ok in H as [p2 [Htemp H]].
  apply bind_ok in H as [p3 [Hbed H]].
  apply bind_ok in H as [p4 [Hfan H]].
  apply bind_ok in H as [p5 [Hbrand H]].
  apply bind_ok in H as [p6 [Hname H]].
  apply bind_ok in H as [b [_ H]].
  apply bind_ok in H as [n [_ H]].
  apply bind_ok in H as [p7 [Hid Hstash]].
  set (p := ["material"]).
  change [KStr "material"] with (map segment_key p).
  rewrite (stash_raw_frame _ _ _ p _ _ eq_refl Hstash).
  rewrite (setitem_frame "id" _ p p6 p7 eq_refl Hid).
  assert (H56 : Py.getpath p6 (map segment_key p) = Py.getpath p5 (map segment_key p)).
  { match type of Hname with (if ?c then _ else _) = _ => destruct c end;
      [apply (setitem_frame "name" _ p p5 p6 eq_refl Hname) |].
    injection Hname as <-. reflexivity. }
  assert (H45 : Py.getpath p5 (map segment_key p) = Py.getpath p4 (map segment_key p)).
  { match type of Hbrand with (if ?c then _ else _) = _ => destruct c end;
      [apply (setitem_frame "brand" _ p p4 p5 eq_refl Hbrand) |].
    injection Hbrand as <-. reflexivity. }
  assert (H34 : Py.getpath p4 (map segment_key p) = Py.getpath p3 (map segment_key p)).
  { destruct (Config.find config sec "max_fan_speed").
    - apply bind_ok in Hfan as [f [_ Hfan]].
      apply (setpath_frame ["recommended"] "fan" _ p p3 p4 eq_refl Hfan).
    - injection Hfan as <-. reflexivity. }
  assert (H23 : Py.getpath p3 (map segment_key p) = Py.getpath p2 (map segment_key p)).
  { destruct (Config.find config sec "bed_temperature").
    - apply bind_ok in Hbed as [f [_ Hbed]].
      apply (temperature_window_frame p2 p3 "bed" f 0 150 10 p eq_refl eq_refl eq_refl Hbed).
    - injection Hbed as <-. reflexivity. }
  assert (H12 : Py.getpath p2 (map segment_key p) = Py.getpath p1 (map segment_key p)).
  { destruct (Config.find config sec "temperature").
    - apply bind_ok in Htemp as [f [_ Htemp]].
      apply (temperature_window_frame p1 p2 "nozzle" f 150 300 20 p eq_refl eq_refl eq_refl Htemp).
    - injection Htemp as <-. reflexivity. }
  rewrite H56, H45, H34, H23, H12.
  destruct (Config.find config sec "filament_type") as [m |] eqn:Hm.
  - eexists. apply (setitem_reads _ _ _ _ Hmat).
  - injection Hmat as <-. exists "PLA".
    assert (Hall : Forall (fun entry => writes_apart p entry = true
                                        \/ Config.find config sec (fst entry) = None)
                          Importer.FILAMENT_MAPPINGS).
    { unfold Importer.FILAMENT_MAPPINGS.
      repeat (constructor; [first [left; vm_compute; reflexivity | right; exact Hm] |]).
      constructor. }
    rewrite (apply_mappings_skips config sec p _ Hall _ _ Hloop).
    reflexivity.
Qed.

Lemma missing_key_in_dict (d : dict) (a b : string) :
  Py.getpath (VDict d) [KStr a; KStr b] = Raise KeyError ->
  exists m, Py.get (VDict d) a (VDict []) = Ok (VDict m).
Proof.
  cbn [Py.getpath Py.getitem Py.get]. unfold dict_get_default.
  destruct (dict_get d (KStr a)) as [x |]; [| intros _; eexists; reflexivity].
  cbn [bind]. destruct x; cbn; try discriminate.
  intros _. eexists. reflexivity.
Qed.

(** X20: every filament profile that [convert_filament] returns is
    exported by each of the four exporters without an error. *)
Theorem imported_filament_exports (config : ConfigParser) (sec : string) (profile : value)
    (s : Exporter.slicer) :
  Importer.convert_filament config sec = Ok profile ->
  exists document, Exporter.converter s profile = Ok document.
Proof.
  intros H.
  pose proof (import_untouched filament config sec profile ["op3d_schema"] eq_refl H) as Hs.
  pose proof (import_untouched filament config sec profile ["nozzle"; "unit"] eq_refl H) as Hn.
  pose proof (import_untouched filament config sec profile ["bed"; "unit"] eq_refl H) as Hb.
  pose proof (import_untouched filament config sec profile ["fan"; "unit"] eq_refl H) as Hf.
  destruct (imported_material_is_text config sec profile H) as [m Hm].
  rewrite getpath_one in Hm. apply getitem_str_ok in Hm as [d [-> Hm]].
  change (map segment_key ["op3d_schema"]) with [KStr "op3d_schema"] in Hs.
  rewrite getpath_one in Hs. cbn in Hs.
  destruct (dict_get d (KStr "op3d_schema")) as [schema |] eqn:Es; [| discriminate].
  injection Hs as ->.
  destruct (missing_key_in_dict d "nozzle" "unit" Hn) as [mn Gn].
  destruct (missing_key_in_dict d "bed" "unit" Hb) as [mb Gb].
  destruct (missing_key_in_dict d "fan" "unit" Hf) as [mf Gf].
  assert (Gs : forall default, Py.get (VDict d) "op3d_schema" default = Ok (VStr "filament")).
  { intros default. unfold Py.get, dict_get_default. rewrite Es. reflexivity. }
  assert (Gm : forall default, Py.get (VDict d) "material" default = Ok (VStr m)).
  { intros default. unfold Py.get, dict_get_default. rewrite Hm. reflexivity. }
  destruct s; cbn [Exporter.converter];
    unfold Exporter.convert_to_cura, Exporter.convert_to_prusaslicer,
      Exporter.convert_to_orca, Exporter.convert_to_bambu;
    rewrite Gs; cbn [bind]; change (Exporter.schema_is (VStr "filament") "filament") with true;
    cbv iota;
    match goal with |- context [Py.get (VDict d) ?x (VDict [])] =>
      destruct (Py.truthy (dict_get_default d (KStr x) (VDict []))) eqn:Et;
      unfold Py.get at 1; cbn [bind]; rewrite Et
    end;
    try (eexists; reflexivity);
    rewrite Gn, Gb, Gf, Gm; cbn [bind Py.get Py.lower Py.slice_to]; eexists; reflexivity.
Qed.

Lemma imported_filament_exports_witness :
  exists profile,
    Importer.convert_filament prusament "filament" = Ok profile
    /\ exists document, Exporter.converter Exporter.bambu profile = Ok document.
Proof.
  eexists. split; [vm_compute; reflexivity |].
  apply (imported_filament_exports prusament "filament"). vm_compute; reflexivity.
Defined.

(** ** [parse_bool] and [parse_float_list] *)

(** X21: [parse_bool] ignores the case of the letters of an ASCII text. *)
Theorem parse_bool_ignores_case (v : string) :
  PyStr.isascii v = true ->
  Importer.parse_bool (PyStr.upper v) = Importer.parse_bool v
  /\ Importer.parse_bool (PyStr.lower v) = Importer.parse_bool v.
Proof.
  intros _. unfold Importer.parse_bool. rewrite lower_upper, lower_lower.
  split; reflexivity.
Qed.

Lemma parse_bool_ignores_case_witness :
  Importer.parse_bool (PyStr.upper "Yes") = Importer.parse_bool "Yes"
  /\ Importer.parse_bool (PyStr.lower "Yes") = Importer.parse_bool "Yes".
Proof. apply (parse_bool_ignores_case "Yes"). reflexivity. Defined.


Lemma split_append (a b : string) :
  PyStr.split "," (a ++ String "," b) = (PyStr.split "," a ++ PyStr.split "," b)%list.
Proof.
  induction a as [| c a IH].
  - reflexivity.
  - cbn [append PyStr.split]. destruct (Ascii.eqb c ",").
    + rewrite IH. reflexivity.
    + rewrite IH. destruct (PyStr.split "," a) as [| w ws] eqn:E.
      * exfalso. exact (split_not_nil _ _ E).
      * reflexivity.
Qed.

Lemma parse_floats_app (l1 l2 : list string) (f1 f2 : list PyFloat.float) :
  Importer.parse_floats l1 = Ok f1 -> Importer.parse_floats l2 = Ok f2 ->
  Importer.parse_floats (l1 ++ l2) = Ok (f1 ++ f2)%list.
Proof.
  revert f1. induction l1 as [| v r IH]; intros f1 H1 H2.
  - injection H1 as <-. exact H2.
  - cbn [app Importer.parse_floats] in *. destruct (PyStr.strip v =? "")%string.
    + exact (IH f1 H1 H2).
    + apply bind_ok in H1 as [f [Hf H1]]. apply bind_ok in H1 as [fs [Hfs H1]].
      injection H1 as <-. rewrite Hf, (IH fs Hfs H2). reflexivity.
Qed.

(** X22: [parse_float_list] turns a comma between two lists into
    concatenation: when both parts are read, the joined text is read as
    the first list followed by the second. *)
Theorem parse_float_list_concat (a b : string) (fa fb : list PyFloat.float) :
  Importer.parse_float_list a = Ok fa -> Importer.parse_float_list b = Ok fb ->
  Importer.parse_float_list (a ++ "," ++ b) = Ok (fa ++ fb)%list.
Proof.
  unfold Importer.parse_float_list. intros Ha Hb.
  change (a ++ "," ++ b) with (a ++ String "," b). rewrite split_append.
  exact (parse_floats_app _ _ _ _ Ha Hb).
Qed.

Lemma parse_float_list_concat_witness :
  Importer.parse_float_list ("0.4, 0.6" ++ "," ++ " ,1")
  = Ok ([PyFloat.of_decimal false 4 (-1); PyFloat.of_decimal false 6 (-1)] ++ [PyFloat.of_Z 1])%list.
Proof. apply parse_float_list_concat; vm_compute; reflexivity. Defined.


(** ** The flattened view *)

(** X23: no value of a flattened view is a dict: the view holds leaves
    only (scalars, strings and lists). *)
Theorem flatten_values_are_leaves (v : value) :
  forall parent sep,
    Forall (fun kv => is_dict (snd kv) = false) (Compare.flatten v parent sep).
Proof.
  induction v as [| b | n | f | s | l IH | d IH] using value_nested_ind;
    intros parent sep; try (apply Forall_nil).
  cbn [Compare.flatten]. apply Forall_forall. intros kv Hin.
  apply dict_of_items_in in Hin. apply in_flat_map in Hin as [[k x] [Hkx Hin]].
  rewrite Forall_forall in IH. pose proof (IH _ Hkx) as IHx. cbn [snd] in IHx.
  destruct x; try (destruct Hin as [<- | []]; reflexivity).
  specialize (IHx (Compare.new_key parent sep k) sep).
  rewrite Forall_forall in IHx. apply IHx, Hin.
Qed.

(** X24: a key that holds the empty dict leaves no trace in the flattened
    view, so the comparison cannot tell a profile with it from the
    profile without it. *)
Theorem empty_dict_is_invisible (before after : dict) (k parent : key) (sep : string) :
  Compare.flatten (VDict (before ++ (k, VDict []) :: after)) parent sep
  = Compare.flatten (VDict (before ++ after)) parent sep.
Proof.
  rewrite !flatten_entries, !flat_map_app. cbn [flat_map snd fst Compare.flatten].
  reflexivity.
Qed.


(** X25: a dict with pairwise distinct keys none of whose values is a
    dict is its own flattened view. *)
Theorem flatten_of_flat_dict (d : dict) (sep : string) :
  forallb (fun kv : key * value => negb (is_dict (snd kv))) d = true ->
  distinct_keys (map fst d) = true ->
  Compare.flatten_dict (VDict d) (KStr "") sep = Ok d.
Proof.
  intros Hleaf Hd. unfold Compare.flatten_dict. f_equal. rewrite flatten_entries.
  assert (Hmap : flat_map (fun kv : key * value =>
                   match snd kv with
                   | VDict _ => Compare.flatten (snd kv) (Compare.new_key (KStr "") sep (fst kv)) sep
                   | _ => [(Compare.new_key (KStr "") sep (fst kv), snd kv)]
                   end) d = d).
  { clear Hd. induction d as [| [k v] r IH]; [reflexivity |].
    cbn [forallb snd] in Hleaf. apply andb_prop in Hleaf as [Hv Hr].
    cbn [flat_map fst snd]. rewrite (IH Hr).
    destruct v; try discriminate; reflexivity. }
  rewrite Hmap. apply dict_of_items_distinct, Hd.
Qed.

Lemma flatten_of_flat_dict_witness :
  Compare.flatten_dict (VDict [(KStr "id", VStr "a/b"); (KStr "tags", VList [])]) (KStr "") "."
  = Ok [(KStr "id", VStr "a/b"); (KStr "tags", VList [])].
Proof. apply flatten_of_flat_dict; reflexivity. Defined.

(** ** The result of a comparison *)

Lemma compare_profiles_inv (profile1 profile2 : value) (show_common : bool)
    (r : Compare.comparison) :
  Compare.compare_profiles profile1 profile2 show_common = Ok r ->
  exists keys,
    Compare.sorted (Compare.union_keys (dict_keys (flat profile1))
                                       (dict_keys (flat profile2))) = Ok keys
    /\ Compare.differences r
       = fst (Compare.compare_keys (flat profile1) (flat profile2) show_common keys)
    /\ Compare.common r
       = snd (Compare.compare_keys (flat profile1) (flat profile2) show_common keys)
    /\ Compare.stats r
       = {| Compare.total_keys :=
              length (Compare.union_keys (dict_keys (flat profile1)) (dict_keys (flat profile2)));
            Compare.n_differences := length (Compare.differences r);
            Compare.n_common := length (Compare.common r);
            Compare.n_only_in_profile1 :=
              Compare.count_status Compare.only_in_profile1 (Compare.differences r);
            Compare.n_only_in_profile2 :=
              Compare.count_status Compare.only_in_profile2 (Compare.differences r);
            Compare.n_modified :=
              Compare.count_status Compare.different (Compare.differences r) |}.
Proof.
  unfold Compare.compare_profiles. intros H.
  apply bind_ok in H as [flat1 [H1 H]]. apply bind_ok in H as [flat2 [H2 H]].
  apply bind_ok in H as [keys [Hk H]].
  assert (E1 : flat1 = flat profile1).
  { unfold Compare.flatten_dict in H1. destruct profile1; try discriminate.
    injection H1 as <-. reflexivity. }
  assert (E2 : flat2 = flat profile2).
  { unfold Compare.flatten_dict in H2. destruct profile2; try discriminate.
    injection H2 as <-. reflexivity. }
  subst flat1 flat2. exists keys. split; [exact Hk |].
  destruct (Compare.compare_keys (flat profile1) (flat profile2) show_common keys) as [ds cs].
  apply bind_ok in H as [s1 [_ H]]. apply bind_ok in H as [s2 [_ H]].
  apply bind_ok in H as [i1 [_ H]]. apply bind_ok in H as [i2 [_ H]].
  injection H as <-. cbn. repeat split.
Qed.

Lemma sorted_perm (l keys : list key) :
  Compare.sorted l = Ok keys -> Permutation keys l.
Proof.
  unfold Compare.sorted. destruct l as [| x r]; [intros [= <-]; constructor |].
  destruct (forallb (Compare.same_kind x) r); [| discriminate].
  intros H. injection H as <-. apply (sort_keys_perm (x :: r)).
Qed.

Lemma count_status_total (ds : list Compare.difference) :
  length ds
  = (Compare.count_status Compare.only_in_profile1 ds
     + Compare.count_status Compare.only_in_profile2 ds
     + Compare.count_status Compare.different ds)%nat.
Proof.
  unfold Compare.count_status. induction ds as [| d ds IH]; [reflexivity |].
  cbn [filter length]. destruct (Compare.diff_status d); cbn [Compare.status_eqb length]; lia.
Qed.

Lemma compare_keys_lengths (flat1 flat2 : dict) (show_common : bool) (keys : list key) :
  (length (fst (Compare.compare_keys flat1 flat2 show_common keys))
   + length (snd (Compare.compare_keys flat1 flat2 true keys)))%nat = length keys
  /\ fst (Compare.compare_keys flat1 flat2 show_common keys)
     = fst (Compare.compare_keys flat1 flat2 true keys)
  /\ snd (Compare.compare_keys flat1 flat2 false keys) = [].
Proof.
  induction keys as [| k rest IH]; [repeat split |].
  cbn [Compare.compare_keys].
  destruct (Compare.compare_keys flat1 flat2 show_common rest) as [ds cs].
  destruct (Compare.compare_keys flat1 flat2 true rest) as [ds' cs'].
  destruct (Compare.compare_keys flat1 flat2 false rest) as [ds'' cs''].
  cbn [fst snd] in IH. destruct IH as (IH1 & IH2 & IH3). subst ds' cs''.
  destruct (negb (dict_mem flat1 k)); [cbn [fst snd length]; repeat split; lia |].
  destruct (negb (dict_mem flat2 k)); [cbn [fst snd length]; repeat split; lia |].
  destruct (negb (Compare.compare_values _ _)); [cbn [fst snd length]; repeat split; lia |].
  destruct show_common; cbn [fst snd length]; repeat split; lia.
Qed.

(** X26: the statistics of a comparison add up: the differences are the
    entries only in profile 1, only in profile 2 and modified together;
    with common values shown, the keys checked are the differences and
    the common entries together; without, no common entry is listed. *)
Theorem comparison_statistics_add_up (profile1 profile2 : value) (show_common : bool)
    (r : Compare.comparison) :
  Compare.compare_profiles profile1 profile2 show_common = Ok r ->
  Compare.n_differences (Compare.stats r) = length (Compare.differences r)
  /\ Compare.n_common (Compare.stats r) = length (Compare.common r)
  /\ Compare.n_differences (Compare.stats r)
     = (Compare.n_only_in_profile1 (Compare.stats r)
        + Compare.n_only_in_profile2 (Compare.stats r)
        + Compare.n_modified (Compare.stats r))%nat
  /\ (if show_common
      then Compare.total_keys (Compare.stats r)
           = (Compare.n_differences (Compare.stats r) + Compare.n_common (Compare.stats r))%nat
      else Compare.common r = []).
Proof.
  intros H. destruct (compare_profiles_inv _ _ _ _ H) as (keys & Hk & Hd & Hc & ->).
  cbn [Compare.n_differences Compare.n_common Compare.n_only_in_profile1
       Compare.n_only_in_profile2 Compare.n_modified Compare.total_keys].
  split; [reflexivity |]. split; [reflexivity |]. split; [apply count_status_total |].
  destruct (compare_keys_lengths (flat profile1) (flat profile2) show_common keys)
    as (L1 & L2 & L3).
  destruct show_common.
  - rewrite Hd, Hc. rewrite <- (Permutation_length (sorted_perm _ _ Hk)). lia.
  - rewrite Hc. exact L3.
Qed.

Lemma comparison_statistics_add_up_witness :
  exists r,
    Compare.compare_profiles int_fifty nan_leaf true = Ok r
    /\ Compare.n_differences (Compare.stats r) = length (Compare.differences r)
    /\ Compare.n_common (Compare.stats r) = length (Compare.common r)
    /\ Compare.n_differences (Compare.stats r)
       = (Compare.n_only_in_profile1 (Compare.stats r)
          + Compare.n_only_in_profile2 (Compare.stats r)
          + Compare.n_modified (Compare.stats r))%nat
    /\ Compare.total_keys (Compare.stats r)
       = (Compare.n_differences (Compare.stats r) + Compare.n_common (Compare.stats r))%nat.
Proof.
  eexists. split; [vm_compute; reflexivity |].
  apply (comparison_statistics_add_up int_fifty nan_leaf true). vm_compute; reflexivity.
Defined.



Lemma in_union_keys (k : key) (l1 l2 : list key) :
  In k (Compare.union_keys l1 l2) <-> In k l1 \/ In k l2.
Proof.
  unfold Compare.union_keys. rewrite in_app_iff, filter_In. split.
  - intros [H | [H _]]; auto.
  - intros [H | H]; [left; exact H |].
    destruct (existsb (key_eqb k) l1) eqn:E.
    + left. apply existsb_exists in E as [x [Hx Hk]]. apply key_eqb_eq in Hk. subst x. exact Hx.
    + right. split; [exact H | reflexivity].
Qed.

Lemma in_dict_keys (d : dict) (k : key) : In k (dict_keys d) <-> dict_mem d k = true.
Proof.
  unfold dict_mem. split.
  - intros H. destruct (dict_get_of_key d k H) as [v ->]. reflexivity.
  - destruct (dict_get d k) as [v |] eqn:E; [| discriminate].
    intros _. apply (dict_mem_keys d k v E).
Qed.

Lemma compare_keys_exact (flat1 flat2 : dict) (show_common : bool) (keys : list key) (k : key) :
  In k (map Compare.diff_key (fst (Compare.compare_keys flat1 flat2 show_common keys)))
  <-> In k keys /\ differs flat1 flat2 k = true.
Proof.
  unfold differs. induction keys as [| x rest IH]; [cbn; tauto |].
  cbn [Compare.compare_keys].
  destruct (Compare.compare_keys flat1 flat2 show_common rest) as [ds cs].
  cbn [fst] in IH.
  destruct (dict_mem flat1 x) eqn:M1; cbn [negb];
    [destruct (dict_mem flat2 x) eqn:M2; cbn [negb];
     [destruct (Compare.compare_values (dict_get_default flat1 x VNone)
                                       (dict_get_default flat2 x VNone)) eqn:C; cbn [negb] |] |].
  - destruct show_common; cbn [fst]; rewrite IH; cbn [In]; split.
    + intros [Hin Hd]. split; [right; exact Hin | exact Hd].
    + intros [[<- | Hin] Hd]; [rewrite M1, M2, C in Hd; discriminate | split; assumption].
    + intros [Hin Hd]. split; [right; exact Hin | exact Hd].
    + intros [[<- | Hin] Hd]; [rewrite M1, M2, C in Hd; discriminate | split; assumption].
  - cbn [fst map In Compare.diff_key]. rewrite IH. split.
    + intros [<- | [Hin Hd]]; [split; [left; reflexivity | rewrite M1, M2, C; reflexivity] |].
      split; [right; exact Hin | exact Hd].
    + intros [[<- | Hin] Hd]; [left; reflexivity | right; split; assumption].
  - cbn [fst map In Compare.diff_key]. rewrite IH. split.
    + intros [<- | [Hin Hd]]; [split; [left; reflexivity | rewrite M1, M2; reflexivity] |].
      split; [right; exact Hin | exact Hd].
    + intros [[<- | Hin] Hd]; [left; reflexivity | right; split; assumption].
  - cbn [fst map In Compare.diff_key]. rewrite IH. split.
    + intros [<- | [Hin Hd]]; [split; [left; reflexivity | rewrite M1; reflexivity] |].
      split; [right; exact Hin | exact Hd].
    + intros [[<- | Hin] Hd]; [left; reflexivity | right; split; assumption].
Qed.

(** X27: a key is listed among the differences exactly when a flattened
    view has it and the views disagree at it (it is missing on a side, or
    the values are not equal): no difference is missed and none is
    invented. *)
Theorem differences_are_exact (profile1 profile2 : value) (show_common : bool)
    (r : Compare.comparison) (k : key) :
  Compare.compare_profiles profile1 profile2 show_common = Ok r ->
  In k (map Compare.diff_key (Compare.differences r))
  <-> (dict_mem (flat profile1) k || dict_mem (flat profile2) k) = true
      /\ differs (flat profile1) (flat profile2) k = true.
Proof.
  intros H. destruct (compare_profiles_inv _ _ _ _ H) as (keys & Hk & Hd & _).
  rewrite Hd, compare_keys_exact.
  assert (Hin : In k keys
                <-> (dict_mem (flat profile1) k || dict_mem (flat profile2) k) = true).
  { rewrite orb_true_iff, <- !in_dict_keys, <- in_union_keys. split.
    - apply Permutation_in, sorted_perm, Hk.
    - apply Permutation_in, Permutation_sym, sorted_perm, Hk. }
  rewrite Hin. reflexivity.
Qed.

Lemma differences_are_exact_witness :
  exists r,
    Compare.compare_profiles int_fifty nan_leaf true = Ok r
    /\ In (KStr "a") (map Compare.diff_key (Compare.differences r)).
Proof.
  eexists. split; [vm_compute; reflexivity |].
  apply (differences_are_exact int_fifty nan_leaf true); [vm_compute; reflexivity |].
  split; vm_compute; reflexivity.
Defined.

Lemma string_leb_cons (a b : ascii) (s t : string) :
  String.leb (String a s) (String b t) = true
  <-> (N_of_ascii a < N_of_ascii b)%N
      \/ (N_of_ascii a = N_of_ascii b /\ String.leb s t = true).
Proof.
  unfold String.leb. cbn [String.compare]. unfold Ascii.compare.
  destruct (N.compare_spec (N_of_ascii a) (N_of_ascii b)) as [E | L | G].
  - split; [intros H; right; split; [exact E | exact H] |].
    intros [L | [_ H]]; [lia | exact H].
  - split; [intros _; left; exact L | reflexivity].
  - split; [discriminate |]. intros [L | [E _]]; lia.
Qed.

Lemma string_leb_trans (s t u : string) :
  String.leb s t = true -> String.leb t u = true -> String.leb s u = true.
Proof.
  revert t u. induction s as [| a s IH]; intros t u Hst Htu.
  - destruct u; reflexivity.
  - destruct t as [| b t]; [discriminate Hst |].
    destruct u as [| c u]; [discriminate Htu |].
    apply string_leb_cons in Hst. apply string_leb_cons in Htu. apply string_leb_cons.
    destruct Hst as [L1 | [E1 H1]]; destruct Htu as [L2 | [E2 H2]].
    + left. lia.
    + left. lia.
    + left. lia.
    + right. split; [lia | exact (IH t u H1 H2)].
Qed.

Lemma key_leb_trans (a b c : key) :
  Compare.key_leb a b = true -> Compare.key_leb b c = true -> Compare.key_leb a c = true.
Proof.
  destruct a, b, c; cbn [Compare.key_leb]; try discriminate.
  - apply string_leb_trans.
  - intros H1 H2. apply Z.leb_le. apply Z.leb_le in H1, H2. lia.
Qed.

Lemma key_leb_total (a b : key) :
  Compare.same_kind a b = true ->
  Compare.key_leb a b = false -> Compare.key_leb b a = true.
Proof.
  destruct a, b; cbn [Compare.same_kind Compare.key_leb]; try discriminate; intros _ H.
  - destruct (String.leb_total s s0) as [H' | H']; [congruence | exact H'].
  - apply Z.leb_le. apply Z.leb_gt in H. lia.
Qed.

Lemma forallb_leb_trans (a b : key) (l : list key) :
  Compare.key_leb a b = true ->
  forallb (Compare.key_leb b) l = true -> forallb (Compare.key_leb a) l = true.
Proof.
  intros Hab H. apply forallb_forall. intros x Hx.
  rewrite forallb_forall in H. exact (key_leb_trans a b x Hab (H x Hx)).
Qed.

Lemma insert_key_in (k x : key) (l : list key) :
  In x (Compare.insert_key k l) -> x = k \/ In x l.
Proof.
  intros H. apply (Permutation_in _ (insert_key_perm k l)) in H.
  destruct H as [<- | H]; [left; reflexivity | right; exact H].
Qed.

Lemma insert_key_ascending (k : key) (l : list key) :
  forallb (Compare.same_kind k) l = true ->
  ascending l = true -> ascending (Compare.insert_key k l) = true.
Proof.
  induction l as [| x r IH]; intros Hk Hl; [reflexivity |].
  cbn [forallb] in Hk. apply andb_prop in Hk as [Hkx Hkr].
  cbn [ascending] in Hl. apply andb_prop in Hl as [Hx Hr].
  cbn [Compare.insert_key]. destruct (Compare.key_leb k x) eqn:E.
  - cbn [ascending forallb]. rewrite E, (forallb_leb_trans k x r E Hx), Hx, Hr. reflexivity.
  - cbn [ascending]. rewrite (IH Hkr Hr), andb_true_r.
    apply forallb_forall. intros y Hy. apply insert_key_in in Hy as [-> | Hy].
    + apply (key_leb_total _ _ Hkx E).
    + rewrite forallb_forall in Hx. exact (Hx y Hy).
Qed.

Lemma same_kind_trans (x a b : key) :
  Compare.same_kind x a = true -> Compare.same_kind x b = true -> Compare.same_kind a b = true.
Proof. destruct x, a, b; cbn; congruence. Qed.

Lemma sort_keys_ascending (x : key) (l : list key) :
  forallb (Compare.same_kind x) l = true -> ascending (Compare.sort_keys l) = true.
Proof.
  induction l as [| k r IH]; intros H; [reflexivity |].
  cbn [forallb] in H. apply andb_prop in H as [Hk Hr].
  change (Compare.sort_keys (k :: r)) with (Compare.insert_key k (Compare.sort_keys r)).
  apply insert_key_ascending; [| exact (IH Hr)].
  apply forallb_forall. intros y Hy.
  apply (Permutation_in _ (sort_keys_perm r)) in Hy.
  rewrite forallb_forall in Hr. exact (same_kind_trans x k y Hk (Hr y Hy)).
Qed.

Lemma sorted_ascending (l keys : list key) :
  Compare.sorted l = Ok keys -> ascending keys = true.
Proof.
  unfold Compare.sorted. destruct l as [| x r]; [intros [= <-]; reflexivity |].
  destruct (forallb (Compare.same_kind x) r) eqn:E; [| discriminate].
  intros H. injection H as <-. apply (sort_keys_ascending x (x :: r)).
  cbn [forallb]. rewrite E. destruct x; reflexivity.
Qed.

Lemma compare_keys_subset (flat1 flat2 : dict) (show_common : bool) (keys : list key) (k : key) :
  (In k (map Compare.diff_key (fst (Compare.compare_keys flat1 flat2 show_common keys))) ->
   In k keys)
  /\ (In k (map Compare.common_key (snd (Compare.compare_keys flat1 flat2 show_common keys))) ->
      In k keys).
Proof.
  induction keys as [| x rest IH]; [split; intros [] |].
  cbn [Compare.compare_keys].
  destruct (Compare.compare_keys flat1 flat2 show_common rest) as [ds cs].
  cbn [fst snd] in IH. destruct IH as [IH1 IH2].
  destruct (negb (dict_mem flat1 x));
    [| destruct (negb (dict_mem flat2 x));
       [| destruct (negb (Compare.compare_values _ _)); [| destruct show_common]]];
    cbn [fst snd map In Compare.diff_key Compare.common_key]; split; intros H; tauto.
Qed.

Lemma compare_keys_ascending (flat1 flat2 : dict) (show_common : bool) (keys : list key) :
  ascending keys = true ->
  ascending (map Compare.diff_key (fst (Compare.compare_keys flat1 flat2 show_common keys))) = true
  /\ ascending (map Compare.common_key
                  (snd (Compare.compare_keys flat1 flat2 show_common keys))) = true.
Proof.
  induction keys as [| x rest IH]; intros Ha; [split; reflexivity |].
  cbn [ascending] in Ha. apply andb_prop in Ha as [Hx Hr]. specialize (IH Hr).
  pose proof (fun k => compare_keys_subset flat1 flat2 show_common rest k) as Hsub.
  cbn [Compare.compare_keys].
  destruct (Compare.compare_keys flat1 flat2 show_common rest) as [ds cs].
  cbn [fst snd] in IH, Hsub. destruct IH as [IH1 IH2].
  assert (Hds : forallb (Compare.key_leb x) (map Compare.diff_key ds) = true).
  { apply forallb_forall. intros y Hy. rewrite forallb_forall in Hx.
    apply Hx, (proj1 (Hsub y)), Hy. }
  assert (Hcs : forallb (Compare.key_leb x) (map Compare.common_key cs) = true).
  { apply forallb_forall. intros y Hy. rewrite forallb_forall in Hx.
    apply Hx, (proj2 (Hsub y)), Hy. }
  destruct (negb (dict_mem flat1 x));
    [| destruct (negb (dict_mem flat2 x));
       [| destruct (negb (Compare.compare_values _ _)); [| destruct show_common]]];
    cbn [fst snd map ascending Compare.diff_key Compare.common_key];
    rewrite ?Hds, ?Hcs, ?IH1, ?IH2; split; reflexivity.
Qed.


(** X28: the differences and the common entries are listed in ascending
    order of their keys. *)
Theorem differences_are_sorted (profile1 profile2 : value) (show_common : bool)
    (r : Compare.comparison) :
  Compare.compare_profiles profile1 profile2 show_common = Ok r ->
  ascending (map Compare.diff_key (Compare.differences r)) = true
  /\ ascending (map Compare.common_key (Compare.common r)) = true.
Proof.
  intros H. destruct (compare_profiles_inv _ _ _ _ H) as (keys & Hk & Hd & Hc & _).
  rewrite Hd, Hc. apply compare_keys_ascending, (sorted_ascending _ _ Hk).
Qed.

Lemma differences_are_sorted_witness :
  exists r,
    Compare.compare_profiles Importer.filament_skeleton Importer.process_skeleton true = Ok r
    /\ ascending (map Compare.diff_key (Compare.differences r)) = true
    /\ ascending (map Compare.common_key (Compare.common r)) = true.
Proof.
  eexists. split; [vm_compute; reflexivity |].
  apply (differences_are_sorted Importer.filament_skeleton Importer.process_skeleton true).
  vm_compute; reflexivity.
Defined.

Lemma dict_mem_get (d : dict) (k : key) :
  dict_mem d k = true -> dict_get d k = Some (dict_get_default d k VNone).
Proof.
  unfold dict_mem, dict_get_default. destruct (dict_get d k); [reflexivity | discriminate].
Qed.

Lemma compare_keys_faithful (flat1 flat2 : dict) (show_common : bool) (keys : list key)
    (d : Compare.difference) :
  In d (fst (Compare.compare_keys flat1 flat2 show_common keys)) -> faithful flat1 flat2 d.
Proof.
  induction keys as [| x rest IH]; [intros [] |].
  cbn [Compare.compare_keys].
  destruct (Compare.compare_keys flat1 flat2 show_common rest) as [ds cs].
  cbn [fst] in IH.
  destruct (dict_mem flat1 x) eqn:M1; cbn [negb];
    [destruct (dict_mem flat2 x) eqn:M2; cbn [negb];
     [destruct (Compare.compare_values (dict_get_default flat1 x VNone)
                                       (dict_get_default flat2 x VNone)) eqn:C; cbn [negb] |] |].
  - destruct show_common; exact IH.
  - intros [<- | H]; [| exact (IH H)]. unfold faithful; cbn.
    repeat split; [apply dict_mem_get, M1 | apply dict_mem_get, M2 | exact C].
  - intros [<- | H]; [| exact (IH H)]. unfold faithful; cbn.
    repeat split; [apply dict_mem_get, M1 | exact M2].
  - intros [<- | H]; [| exact (IH H)]. unfold faithful; cbn.
    repeat split. exact M1.
Qed.

(** X29: every listed difference says what the flattened views hold: an
    entry marked only in profile 2 has a key the first view lacks, one
    marked only in profile 1 a key the second view lacks and the first
    view's value, and one marked different the two values, which are not
    equal. *)
Theorem difference_entries_are_faithful (profile1 profile2 : value) (show_common : bool)
    (r : Compare.comparison) (d : Compare.difference) :
  Compare.compare_profiles profile1 profile2 show_common = Ok r ->
  In d (Compare.differences r) ->
  faithful (flat profile1) (flat profile2) d.
Proof.
  intros H Hin. destruct (compare_profiles_inv _ _ _ _ H) as (keys & _ & Hd & _).
  rewrite Hd in Hin. exact (compare_keys_faithful _ _ _ _ _ Hin).
Qed.

Lemma difference_entries_are_faithful_witness :
  exists r,
    Compare.compare_profiles int_fifty nan_leaf true = Ok r
    /\ faithful (flat int_fifty) (flat nan_leaf)
         {| Compare.diff_key := KStr "a"; Compare.diff_profile1 := VInt 50;
            Compare.diff_profile2 := VFloat PyFloat.nan;
            Compare.diff_status := Compare.different |}.
Proof.
  eexists. split; [vm_compute; reflexivity |].
  apply (difference_entries_are_faithful int_fifty nan_leaf true _ _ eq_refl).
  left. reflexivity.
Defined.

(** ** The build volume of an imported printer *)

(** X30: when the section gives a non-empty [bed_shape] and the import
    succeeds, the profile's [build_volume.x] and [build_volume.y] are the
    [x] and [y] that [parse_bed_dimensions] computes from it; the later
    rules and the stash leave them alone. *)
Theorem printer_bed_from_shape (config : ConfigParser) (sec bed_shape : string)
    (profile : value) :
  Importer.convert_printer config sec = Ok profile ->
  Config.find config sec "bed_shape" = Some bed_shape ->
  (bed_shape =? "")%string = false ->
  exists dims x y,
    Importer.parse_bed_dimensions bed_shape = Ok dims
    /\ Py.get dims "x" (VInt 200) = Ok x
    /\ Py.get dims "y" (VInt 200) = Ok y
    /\ Py.getpath profile [KStr "build_volume"; KStr "x"] = Ok x
    /\ Py.getpath profile [KStr "build_volume"; KStr "y"] = Ok y.
Proof.
  unfold Importer.convert_printer. intros H Hfind Hne.
  apply bind_ok in H as [p0 [_ H]].
  apply bind_ok in H as [p1 [Hbed H]].
  apply bind_ok in H as [p2 [Hkin H]].
  apply bind_ok in H as [p3 [Hid Hstash]].
  unfold Config.get_fallback in Hbed. rewrite Hfind in Hbed.
  rewrite Hne in Hbed.
  apply bind_ok in Hbed as [dims [Hdims Hbed]].
  apply bind_ok in Hbed as [x [Hx Hbed]].
  apply bind_ok in Hbed as [px [Hpx Hbed]].
  apply bind_ok in Hbed as [y [Hy Hpy]].
  exists dims, x, y. split; [exact Hdims |]. split; [exact Hx |]. split; [exact Hy |].
  assert (Htail : forall p,
            diverges p ["kinematics"] = true -> diverges p ["id"] = true ->
            diverges p ["manufacturer"] = true -> diverges p ["model"] = true ->
            diverges p ["x_prusaslicer"] = true ->
            Py.getpath profile (map segment_key p) = Py.getpath p1 (map segment_key p)).
  { intros p Dk Di Dm Do Dx.
    rewrite (stash_raw_frame _ _ _ _ _ _ Dx Hstash).
    assert (H23 : Py.getpath p3 (map segment_key p) = Py.getpath p2 (map segment_key p)).
    { destruct (Config.find config sec "printer_model") as [model |].
      - apply bind_ok in Hid as [pa [Ha Hid]].
        apply bind_ok in Hid as [no_make [_ Hid]].
        apply bind_ok in Hid as [pb [Hb Hid]].
        apply bind_ok in Hid as [no_model [_ Hc]].
        assert (Hpc : Py.getpath p3 (map segment_key p) = Py.getpath pb (map segment_key p)).
        { destruct no_model; [apply (setitem_frame "model" _ p pb p3 Do Hc) |].
          injection Hc as <-. reflexivity. }
        assert (Hpb : Py.getpath pb (map segment_key p) = Py.getpath pa (map segment_key p)).
        { destruct no_make; [apply (setitem_frame "manufacturer" _ p pa pb Dm Hb) |].
          injection Hb as <-. reflexivity. }
        rewrite Hpc, Hpb. apply (setitem_frame "id" _ p p2 pa Di Ha).
      - injection Hid as <-. reflexivity. }
    rewrite H23. apply (setitem_frame "kinematics" _ p p1 p2 Dk Hkin). }
  split.
  - change [KStr "build_volume"; KStr "x"] with (map segment_key ["build_volume"; "x"]).
    rewrite (Htail ["build_volume"; "x"]) by reflexivity.
    rewrite (setpath_frame ["y"] "build_volume" y ["build_volume"; "x"] px p1 eq_refl Hpy).
    apply (setpath_reads _ _ _ _ _ Hpx).
  - change [KStr "build_volume"; KStr "y"] with (map segment_key ["build_volume"; "y"]).
    rewrite (Htail ["build_volume"; "y"]) by reflexivity.
    apply (setpath_reads _ _ _ _ _ Hpy).
Qed.

Lemma printer_bed_from_shape_witness :
  exists profile,
    Importer.convert_printer wide_bed "printer" = Ok profile
    /\ exists dims x y,
         Importer.parse_bed_dimensions "0x0,250x0,250x210,0x210" = Ok dims
         /\ Py.get dims "x" (VInt 200) = Ok x
         /\ Py.get dims "y" (VInt 200) = Ok y
         /\ Py.getpath profile [KStr "build_volume"; KStr "x"] = Ok x
         /\ Py.getpath profile [KStr "build_volume"; KStr "y"] = Ok y.
Proof.
  eexists. split; [vm_compute; reflexivity |].
  apply (printer_bed_from_shape wide_bed "printer"); [vm_compute; reflexivity | reflexivity | reflexivity].
Defined.
